(** * ContainerLogService: multi-source log resolution

    A shallow embedding of [services/web/container_log_service.py].

    Python values are modelled as follows.
    - [str] is [string]; a character is a code point below 256, so the
      case mapping and the white-space test of the interpreter are the
      ones of Latin-1.  The result of [str.capitalize] can leave that
      range and is a [text], a list of code points.
    - [int] is [Z].
    - A value taken from a JSON body is a [json].
    - An exception is a value of [exn]; [isinstance] follows the class
      hierarchy of the interpreter, of [requests] and of the Docker SDK.
    - The file system, the container engine, the Docker client pool, the
      name-validation helper and the event loop are collaborators: their
      observable behaviour is a field of [World].
    - A method is a computation in [M]: it threads a [State] made of the
      world and of the trace of the collaborator calls performed so far,
      and it either returns a value or raises.  Calls to the logger are
      left out. *)

From Stdlib Require Import String Ascii List ZArith Lia Bool.
Import ListNotations.
Local Open Scope string_scope.
Local Open Scope Z_scope.

(* ===================================================================== *)
(** ** Strings of the interpreter *)
(* ===================================================================== *)

Module PyStr.

Definition NL : ascii := "010"%char.

(** The text made of one line feed. *)
Definition nl : string := String NL EmptyString.

Definition code (c : ascii) : N := N_of_ascii c.

Definition between (lo hi : N) (c : ascii) : bool :=
  (N.leb lo (code c) && N.leb (code c) hi)%bool.

(** [str.isspace] on one character: 9-13, 28-32, 0x85 and 0xA0. *)
Definition isspace (c : ascii) : bool :=
  (between 9 13 c || between 28 32 c
   || N.eqb (code c) 133 || N.eqb (code c) 160)%bool.

(** Characters with a lower-case image: A-Z, and the Latin-1 capitals
    0xC0-0xDE apart from the multiplication sign 0xD7. *)
Definition is_upper (c : ascii) : bool :=
  (between 65 90 c || between 192 214 c || between 216 222 c)%bool.

Definition is_lower (c : ascii) : bool :=
  (between 97 122 c || between 224 246 c || between 248 254 c)%bool.

Definition lower_char (c : ascii) : ascii :=
  if is_upper c then ascii_of_N (code c + 32) else c.

(** Upper case of a character whose capital is one Latin-1 character:
    the letters of [is_lower] move down by 32, the others are their own
    capital. *)
Definition upper_char (c : ascii) : ascii :=
  if is_lower c then ascii_of_N (code c - 32) else c.

(** A text whose characters may lie beyond Latin-1, as its code points. *)
Definition text : Type := list N.

Definition of_latin1 (s : string) : text := map code (list_ascii_of_string s).

(** Title case of one character, which is what [str.capitalize] puts in
    front.  Three Latin-1 characters have a capital that is not one
    Latin-1 character: the sharp s 0xDF gives "Ss", the micro sign 0xB5
    gives U+039C and the y with diaeresis 0xFF gives U+0178. *)
Definition title_char (c : ascii) : text :=
  if N.eqb (code c) 223 then [83; 115]%N
  else if N.eqb (code c) 181 then [924]%N
  else if N.eqb (code c) 255 then [376]%N
  else [code (upper_char c)].

Fixpoint map_str (f : ascii -> ascii) (s : string) : string :=
  match s with
  | EmptyString => EmptyString
  | String c r => String (f c) (map_str f r)
  end.

(** [s.lower()] *)
Definition lower (s : string) : string := map_str lower_char s.

(** [s.capitalize()]: the first character in title case, the others in
    lower case. *)
Definition capitalize (s : string) : text :=
  match s with
  | EmptyString => []
  | String c r => (title_char c ++ of_latin1 (lower r))%list
  end.



Fixpoint lstrip (s : string) : string :=
  match s with
  | EmptyString => EmptyString
  | String c r => if isspace c then lstrip r else s
  end.

Fixpoint rstrip (s : string) : string :=
  match s with
  | EmptyString => EmptyString
  | String c r =>
      match rstrip r with
      | EmptyString => if isspace c then EmptyString else String c EmptyString
      | r' => String c r'
      end
  end.

(** [s.strip()] *)
Definition strip (s : string) : string := rstrip (lstrip s).

(** Truth value of a [str]: the empty text is false. *)
Definition truthy (s : string) : bool :=
  match s with EmptyString => false | String _ _ => true end.

(** [p in s] *)
Fixpoint contains (p s : string) : bool :=
  (String.prefix p s
   || match s with
      | EmptyString => false
      | String _ r => contains p r
      end)%bool.

(** [s.split('\n')]: never empty, the separators are dropped. *)
Fixpoint split_nl (s : string) : list string :=
  match s with
  | EmptyString => [EmptyString]
  | String c r =>
      if Ascii.eqb c NL then EmptyString :: split_nl r
      else match split_nl r with
           | [] => [String c EmptyString]
           | x :: xs => String c x :: xs
           end
  end.

(** [sep.join(l)] *)
Definition join (sep : string) (l : list string) : string :=
  String.concat sep l.

(** [f.readlines()] on a text whose line ends are line feeds: every line
    keeps its line feed, the last line may lack one. *)
Fixpoint readlines (s : string) : list string :=
  match s with
  | EmptyString => []
  | String c r =>
      if Ascii.eqb c NL then nl :: readlines r
      else match readlines r with
           | [] => [String c EmptyString]
           | x :: xs => String c x :: xs
           end
  end.

(** The character class of the pattern [[a-zA-Z0-9_.-]]. *)
Definition name_char (c : ascii) : bool :=
  (between 97 122 c || between 65 90 c || between 48 57 c
   || N.eqb (code c) 95 || N.eqb (code c) 46 || N.eqb (code c) 45)%bool.

(** What is left of [^[a-zA-Z0-9_.-]+$] once a first character of the
    class is read: more characters of the class, then [$], which holds at
    the end of the text and also just before a line feed that ends it. *)
Fixpoint re_name_rest (s : string) : bool :=
  match s with
  | EmptyString => true
  | String c r =>
      if name_char c then re_name_rest r
      else (Ascii.eqb c NL && negb (truthy r))%bool
  end.

(** [bool(re.match(r'^[a-zA-Z0-9_.-]+$', s))] *)
Definition re_match_name (s : string) : bool :=
  match s with
  | EmptyString => false
  | String c r => (name_char c && re_name_rest r)%bool
  end.

(** [l[k:]] for a list, with the interpreter's clamping of [k]. *)
Definition slice_from {A : Type} (k : Z) (l : list A) : list A :=
  let n := Z.of_nat (length l) in
  let start := if k <? 0 then Z.max (n + k) 0 else Z.min k n in
  skipn (Z.to_nat start) l.

End PyStr.

Import PyStr.

(* ===================================================================== *)
(** ** Exceptions *)
(* ===================================================================== *)

(** The exception classes the service names in an [except] clause, and the
    ones its collaborators raise.  [NotFound] and [APIError] are the
    classes of [docker.errors]; [Exception] is the root. *)
Inductive exn : Type :=
| Exception
| ImportError
| AttributeError
| TypeError
| ValueError
| UnicodeDecodeError
| RuntimeError
| OSError
| PermissionError
| TimeoutError
| KeyError
| UnboundLocalError
| DockerException
| APIError
| NotFound.

(** [issubclass e c].  [IOError] is [OSError]; [APIError] derives from the
    HTTP error of [requests], itself an [OSError], and from
    [DockerException]. *)
Definition subclass (e c : exn) : bool :=
  match c, e with
  | Exception, _ => true
  | ImportError, ImportError => true
  | AttributeError, AttributeError => true
  | TypeError, TypeError => true
  | ValueError, (ValueError | UnicodeDecodeError) => true
  | UnicodeDecodeError, UnicodeDecodeError => true
  | RuntimeError, RuntimeError => true
  | OSError, (OSError | PermissionError | TimeoutError | APIError | NotFound) => true
  | PermissionError, PermissionError => true
  | TimeoutError, TimeoutError => true
  | KeyError, KeyError => true
  | UnboundLocalError, UnboundLocalError => true
  | DockerException, (DockerException | APIError | NotFound) => true
  | APIError, (APIError | NotFound) => true
  | NotFound, NotFound => true
  | _, _ => false
  end.

(** [isinstance(e, (c1, ..., cn))] *)
Definition catches (classes : list exn) (e : exn) : bool :=
  existsb (subclass e) classes.

(** A stand-in for [str(e)]: exceptions carry no message here. *)
Definition exn_text (e : exn) : string :=
  match e with
  | Exception => "Exception"
  | ImportError => "ImportError"
  | AttributeError => "AttributeError"
  | TypeError => "TypeError"
  | ValueError => "ValueError"
  | UnicodeDecodeError => "UnicodeDecodeError"
  | RuntimeError => "RuntimeError"
  | OSError => "OSError"
  | PermissionError => "PermissionError"
  | TimeoutError => "TimeoutError"
  | KeyError => "KeyError"
  | UnboundLocalError => "UnboundLocalError"
  | DockerException => "DockerException"
  | APIError => "APIError"
  | NotFound => "NotFound"
  end.

Inductive outcome (A : Type) : Type :=
| Return (a : A)
| Raise (e : exn).
Arguments Return {A} a.
Arguments Raise {A} e.

(* ===================================================================== *)
(** ** Collaborators *)
(* ===================================================================== *)

(** A path that exists: a text that can be read, given as decoded and with
    its line ends turned into line feeds, or a file whose [open] or
    [readlines] raises. *)
Inductive file : Type :=
| Text (text : string)
| Unreadable (e : exn).

Record World : Type := {
  (** the file system: [None] for a path that does not exist *)
  files : string -> option file;
  (** [utils.common_helpers.validate_container_name], when the module can
      be imported *)
  common_helpers : option (string -> outcome bool);
  (** whether [import docker] succeeds *)
  docker_sdk : bool;
  (** [docker.from_env().containers.get(name).logs(tail=n, ...)], decoded *)
  engine_logs : string -> Z -> outcome string;
  (** whether the caller runs inside an event loop *)
  running_loop : bool;
  (** [docker_client_pool.get_docker_client_async(...)]: the truth value of
      the context manager it returns *)
  client_pool : outcome bool;
  (** entering that context manager *)
  pool_enter : outcome unit;
  (** [client.containers.get(name)] and [container.logs(tail=n, ...)]
      through the pooled client, decoded *)
  pool_logs : string -> Z -> outcome string
}.

(** The calls that reach a collaborator. *)
Inductive event : Type :=
| PathExists (path : string)
| FileOpen (path : string)
| EngineQuery (container : string) (tail : Z)
| PoolAcquire
| PoolEnter
| PoolQuery (container : string) (tail : Z).

Definition is_file_event (ev : event) : bool :=
  match ev with
  | PathExists _ | FileOpen _ => true
  | _ => false
  end.

Definition is_engine_event (ev : event) : bool :=
  match ev with
  | EngineQuery _ _ | PoolAcquire | PoolEnter | PoolQuery _ _ => true
  | _ => false
  end.

Record State : Type := {
  world : World;
  trace : list event
}.

Definition start (w : World) : State := {| world := w; trace := [] |}.

(* ===================================================================== *)
(** ** Computations *)
(* ===================================================================== *)

Definition M (A : Type) : Type := State -> outcome A * State.

Definition ret {A : Type} (a : A) : M A := fun s => (Return a, s).

Definition raise {A : Type} (e : exn) : M A := fun s => (Raise e, s).

Definition bind {A B : Type} (m : M A) (k : A -> M B) : M B :=
  fun s =>
    match m s with
    | (Return a, s') => k a s'
    | (Raise e, s') => (Raise e, s')
    end.

Declare Scope py_scope.
Delimit Scope py_scope with py.
Notation "x <- m ;; k" := (bind m (fun x => k))
  (at level 100, m at next level, right associativity) : py_scope.
Notation "m ;;; k" := (bind m (fun _ => k))
  (at level 100, right associativity) : py_scope.
Local Open Scope py_scope.

(** The [except] clauses of a [try], in order: the first clause one of
    whose classes the exception is an instance of handles it. *)
Fixpoint dispatch {A : Type} (clauses : list (list exn * (exn -> M A)))
  (e : exn) : M A :=
  match clauses with
  | [] => raise e
  | (classes, handler) :: rest =>
      if catches classes e then handler e else dispatch rest e
  end.

(** [try: body except ...] *)
Definition try_ {A : Type} (body : M A)
  (clauses : list (list exn * (exn -> M A))) : M A :=
  fun s =>
    match body s with
    | (Return a, s') => (Return a, s')
    | (Raise e, s') => dispatch clauses e s'
    end.

(** One call to a collaborator: it is recorded, the world is left as it
    is. *)
Definition call {A : Type} (ev : event) (f : World -> outcome A) : M A :=
  fun s => (f (world s), {| world := world s; trace := trace s ++ [ev] |}).

(** [os.path.exists(path)] *)
Definition os_path_exists (path : string) : M bool :=
  call (PathExists path)
       (fun w => match files w path with
                 | Some _ => Return true
                 | None => Return false
                 end).

(** [open(path, 'r', encoding='utf-8', errors='replace')] and
    [f.readlines()]; a missing file raises [FileNotFoundError], an
    [OSError]. *)
Definition open_readlines (path : string) : M (list string) :=
  call (FileOpen path)
       (fun w => match files w path with
                 | Some (Text t) => Return (readlines t)
                 | Some (Unreadable e) => Raise e
                 | None => Raise OSError
                 end).

(** [import docker] *)
Definition import_docker : M unit :=
  fun s => if docker_sdk (world s) then (Return tt, s)
           else (Raise ImportError, s).

(** A [try] whose body opens with [import docker] and whose first clause
    is [except docker.errors.NotFound].  [docker] is a local name of the
    method: when the import fails it is unbound, and the clause, which
    reads it to find the class, raises [UnboundLocalError] in place of
    handling the [ImportError]; no later clause of the same [try] sees
    that. *)
Definition try_docker {A : Type} (body : M A)
  (clauses : list (list exn * (exn -> M A))) : M A :=
  fun s =>
    match import_docker s with
    | (Raise _, s1) => (Raise UnboundLocalError, s1)
    | (Return _, s1) => try_ body clauses s1
    end.

(** [from utils.common_helpers import validate_container_name] *)
Definition import_validate_container_name : M (string -> outcome bool) :=
  fun s => match common_helpers (world s) with
           | Some f => (Return f, s)
           | None => (Raise ImportError, s)
           end.

(** A call to a function that performs no collaborator call. *)
Definition pure_call {A : Type} (r : outcome A) : M A := fun s => (r, s).

(** [asyncio.get_running_loop()] *)
Definition asyncio_get_running_loop : M unit :=
  fun s => if running_loop (world s) then (Return tt, s)
           else (Raise RuntimeError, s).

(** [asyncio.run(coro)] in the caller's thread: refused inside a running
    loop, before the coroutine starts. *)
Definition asyncio_run {A : Type} (coro : M A) : M A :=
  fun s => if running_loop (world s) then (Raise RuntimeError, s)
           else coro s.

(** [executor.submit(lambda: asyncio.run(coro)).result()]: the worker
    thread has no loop of its own, the coroutine runs there and its result
    or its exception comes back to the caller. *)
Definition run_in_worker_thread {A : Type} (coro : M A) : M A := coro.

(** [asyncio.run_coroutine_threadsafe(loop.create_task(coro), loop)]: the
    function wants a coroutine object and refuses a task. *)
Definition run_coroutine_threadsafe_task {A : Type} : M A := raise TypeError.

(* ===================================================================== *)
(** ** Requests and results *)
(* ===================================================================== *)

Inductive LogType : Type :=
| CONTAINER | BOT | DISCORD | WEBUI | APPLICATION | ACTION.

(** [log_type.value] *)
Definition LogType_value (t : LogType) : string :=
  match t with
  | CONTAINER => "container"
  | BOT => "bot"
  | DISCORD => "discord"
  | WEBUI => "webui"
  | APPLICATION => "application"
  | ACTION => "action"
  end.

(** The text of a member inside an f-string. *)
Definition LogType_str (t : LogType) : string :=
  match t with
  | CONTAINER => "LogType.CONTAINER"
  | BOT => "LogType.BOT"
  | DISCORD => "LogType.DISCORD"
  | WEBUI => "LogType.WEBUI"
  | APPLICATION => "LogType.APPLICATION"
  | ACTION => "LogType.ACTION"
  end.

Record ContainerLogRequest : Type := {
  container_name : string;
  max_lines : Z
}.

Record FilteredLogRequest : Type := {
  log_type : LogType;
  filtered_max_lines : Z
}.

(** A value decoded from a JSON body.  The dataclass [ClearLogRequest]
    declares its [log_type] a [str] and checks nothing; the handler of
    [/clear_logs] stores there whatever the body holds under "log_type".
    A float is kept as the literal of the body. *)
#[warnings="-register-all"] Inductive json : Type :=
| JNull
| JBool (b : bool)
| JInt (z : Z)
| JFloat (literal : string)
| JStr (s : string)
| JList (items : list json)
| JDict (items : list (string * json)).

(** [type(v).__name__] *)
Definition type_name (v : json) : string :=
  match v with
  | JNull => "NoneType"
  | JBool _ => "bool"
  | JInt _ => "int"
  | JFloat _ => "float"
  | JStr _ => "str"
  | JList _ => "list"
  | JDict _ => "dict"
  end.

Record ClearLogRequest : Type := {
  clear_log_type : json
}.

(** The values stored in [LogResult.data]. *)
Inductive pyval : Type :=
| PyBool (b : bool)
| PyStr (s : text).

Record LogResult : Type := {
  success : bool;
  content : option string;
  data : option (list (string * pyval));
  error : option string;
  status_code : Z
}.

(** [LogResult(success=True, content=c)] *)
Definition Success (c : string) : LogResult :=
  {| success := true; content := Some c; data := None; error := None;
     status_code := 200 |}.

(** [LogResult(success=False, error=msg, status_code=code)] *)
Definition Failure (msg : string) (code : Z) : LogResult :=
  {| success := false; content := None; data := None; error := Some msg;
     status_code := code |}.

(* ===================================================================== *)
(** ** The service *)
(* ===================================================================== *)

Record ContainerLogService : Type := {
  default_container : string;
  log_paths : list (string * list string)
}.

(** [ContainerLogService.__init__]; [environ] is [os.environ]. *)
Definition __init__ (environ : string -> option string) : ContainerLogService :=
  {| default_container :=
       match environ "DDC_OWN_CONTAINER_NAME" with
       | Some v => v
       | None => "ddc"
       end;
     log_paths :=
       [ ("bot", ["/app/logs/bot.log";
                  "/Volumes/appdata/dockerdiscordcontrol/logs/bot.log"]);
         ("discord", ["/app/logs/discord.log";
                      "/Volumes/appdata/dockerdiscordcontrol/logs/discord.log"]);
         ("webui", ["/app/logs/webui_error.log";
                    "/Volumes/appdata/dockerdiscordcontrol/logs/webui_error.log"]);
         ("application", ["/app/logs/supervisord.log";
                          "/Volumes/appdata/dockerdiscordcontrol/logs/supervisord.log"]);
         ("container", ["/app/logs/supervisord.log";
                        "/var/log/supervisor/supervisord.log"]) ] |}.

(** [d.get(key)] on a dict kept in insertion order *)
Fixpoint dict_lookup {V : Type} (key : string) (d : list (string * V))
  : option V :=
  match d with
  | [] => None
  | (k, v) :: rest => if String.eqb k key then Some v else dict_lookup key rest
  end.

(** [d.get(key, default)] *)
Definition dict_get {V : Type} (key : string) (default : V)
  (d : list (string * V)) : V :=
  match dict_lookup key d with
  | Some v => v
  | None => default
  end.

(** [d[key]] *)
Definition dict_getitem {V : Type} (key : string) (d : list (string * V))
  : M V :=
  match dict_lookup key d with
  | Some v => ret v
  | None => raise KeyError
  end.

(** [_validate_container_name] *)
Definition _validate_container_name (container_name : string) : M bool :=
  try_ (validate_container_name <- import_validate_container_name ;;
        pure_call (validate_container_name container_name))
       [ ([ImportError], fun _ => ret (re_match_name container_name)) ].

(** [_read_log_file] *)
Definition _read_log_file (file_path : string) (max_lines : Z)
  : M (option string) :=
  try_ (present <- os_path_exists file_path ;;
        if negb present then ret None
        else
          lines <- open_readlines file_path ;;
          let recent_lines :=
            if Z.of_nat (length lines) >? max_lines
            then slice_from (- max_lines) lines
            else lines in
          ret (Some (join "" recent_lines)))
       [ ([OSError; OSError; PermissionError; UnicodeDecodeError],
          fun _ => ret None) ].

(** [file_content and file_content.strip()] as a condition *)
Definition has_content (file_content : option string) : bool :=
  match file_content with
  | Some c => (truthy c && truthy (strip c))%bool
  | None => false
  end.

(** The loop over the paths of one log type: the content of the first path
    that exists and whose tail has content is what the method returns with;
    [None] when the loop runs to its end. *)
Fixpoint first_log_file (paths : list string) (max_lines : Z)
  : M (option string) :=
  match paths with
  | [] => ret None
  | log_path :: rest =>
      present <- os_path_exists log_path ;;
      if present then
        file_content <- _read_log_file log_path max_lines ;;
        if has_content file_content then ret file_content
        else first_log_file rest max_lines
      else first_log_file rest max_lines
  end.

(** The loop over [self.log_paths.items()] around the loop over the paths;
    the log type comes back with the content. *)
Fixpoint any_log_file (items : list (string * list string)) (max_lines : Z)
  : M (option (string * string)) :=
  match items with
  | [] => ret None
  | (log_type, paths) :: rest =>
      found <- first_log_file paths max_lines ;;
      match found with
      | Some file_content => ret (Some (log_type, file_content))
      | None => any_log_file rest max_lines
      end
  end.

(** [_get_container_logs_sync] *)
Definition _get_container_logs_sync (container_name : string) (max_lines : Z)
  : M (option string) :=
  try_docker
    (logs <- call (EngineQuery container_name max_lines)
                  (fun w => engine_logs w container_name max_lines) ;;
     ret (Some logs))
    [ ([NotFound], fun _ => ret None);
      ([APIError], fun _ => ret None);
      ([Exception], fun _ => ret None) ].

(** [_get_docker_client_async]: [false] stands for [None] and for any
    other false value. *)
Definition _get_docker_client_async : M bool :=
  try_ (call PoolAcquire client_pool)
       [ ([ImportError; AttributeError; TypeError; RuntimeError],
          fun _ => ret false) ].

(** [_fetch_container_logs_async] *)
Definition _fetch_container_logs_async (container_name : string)
  (max_lines : Z) : M (option string) :=
  try_docker
    (logs <- call (PoolQuery container_name max_lines)
                  (fun w => pool_logs w container_name max_lines) ;;
     ret (Some logs))
    [ ([NotFound], fun _ => ret None);
      ([APIError], fun _ => raise RuntimeError);
      ([ImportError; AttributeError; TypeError; UnicodeDecodeError;
        RuntimeError], fun e => raise e) ].

(** [_get_container_logs_service_first] *)
Definition _get_container_logs_service_first (container_name : string)
  (max_lines : Z) : M (option string) :=
  try_ (client_context <- _get_docker_client_async ;;
        if negb client_context then ret None
        else
          call PoolEnter pool_enter ;;;
          _fetch_container_logs_async container_name max_lines)
       [ ([AttributeError; TypeError; RuntimeError], fun _ => ret None) ].

(** [get_container_logs] *)
Definition get_container_logs (self : ContainerLogService)
  (request : ContainerLogRequest) : M LogResult :=
  let name := container_name request in
  let n := max_lines request in
  try_
    (valid <- _validate_container_name name ;;
     if negb valid then ret (Failure "Invalid container name" 400)
     else
       own <- (if String.eqb name (default_container self)
               then first_log_file (dict_get "container" [] (log_paths self)) n
               else ret None) ;;
       match own with
       | Some file_content => ret (Success file_content)
       | None =>
           logs_content <- _get_container_logs_sync name n ;;
           logs_content <-
             match logs_content with
             | Some _ => ret logs_content
             | None =>
                 try_ (asyncio_get_running_loop ;;;
                       run_in_worker_thread
                         (_get_container_logs_service_first name n))
                      [ ([RuntimeError],
                         fun _ =>
                           try_ (asyncio_run
                                   (_get_container_logs_service_first name n))
                                [ ([Exception], fun _ => ret None) ]) ]
             end ;;
           match logs_content with
           | None =>
               found <- any_log_file (log_paths self) n ;;
               match found with
               | Some (log_type, file_content) =>
                   ret (Success ("[Reading from " ++ log_type ++ " log file]"
                                 ++ nl ++ nl ++ file_content))
               | None =>
                   ret (Failure ("Container '" ++ name
                                 ++ "' not found and no log files available")
                                404)
               end
           | Some logs => ret (Success logs)
           end
       end)
    [ ([ImportError; AttributeError; TypeError; ValueError; RuntimeError],
       fun _ =>
         found <- any_log_file (log_paths self) n ;;
         match found with
         | Some (log_type, file_content) =>
             ret (Success ("[Reading from " ++ log_type
                           ++ " log file - Docker API unavailable]"
                           ++ nl ++ nl ++ file_content))
         | None => ret (Failure "An unexpected error occurred" 500)
         end) ].

(** The test of the filter loop:
    [any(pattern in line.lower()
         for pattern in [p.lower() for p in filter_patterns])] *)
Definition line_matches (filter_patterns : list string) (line : string) : bool :=
  existsb (fun pattern => contains pattern (lower line))
          (map lower filter_patterns).

(** [_get_filtered_container_logs] *)
Definition _get_filtered_container_logs (self : ContainerLogService)
  (max_lines : Z) (filter_patterns : list string) (no_logs_message : string)
  : M LogResult :=
  try_
    (logs_str <- _get_container_logs_sync (default_container self)
                                          (max_lines * 2) ;;
     logs_str <-
       match logs_str with
       | Some _ => ret logs_str
       | None =>
           try_ (asyncio_get_running_loop ;;;
                 run_coroutine_threadsafe_task)
                [ ([RuntimeError],
                   fun _ =>
                     try_ (asyncio_run
                             (_get_container_logs_service_first
                                (default_container self) (max_lines * 2)))
                          [ ([Exception], fun _ => ret None) ]) ]
       end ;;
     match logs_str with
     | None => ret (Success no_logs_message)
     | Some logs =>
         let filtered_lines :=
           filter (line_matches filter_patterns) (split_nl logs) in
         let filtered_logs :=
           match filtered_lines with
           | [] => no_logs_message
           | _ :: _ => join nl (slice_from (- max_lines) filtered_lines)
           end in
         ret (Success filtered_logs)
     end)
    [ ([AttributeError; TypeError; RuntimeError; ValueError],
       fun _ => ret (Success no_logs_message)) ].

Definition bot_patterns : list string :=
  ["bot.py"; "cog"; "discord.py"; "discord bot"; "command"; "slash"; "cache";
   "container"; "update"].

Definition discord_patterns : list string :=
  ["discord"; "guild"; "channel"; "member"; "message"; "voice"; "websocket"].

Definition webui_patterns : list string :=
  ["flask"; "Flask"; "gunicorn"; "Gunicorn"; "GET /"; "POST /"; "HTTP";
   "127.0.0.1"; "0.0.0.0:5000"; "werkzeug"; "jinja2"].

Definition application_patterns : list string :=
  ["ERROR"; "WARNING"; "INFO"; "DEBUG"; "Starting"; "Stopping";
   "Initializing"; "Config"; "Database"; "Scheduler"].

(** [_get_bot_logs] *)
Definition _get_bot_logs (self : ContainerLogService) (max_lines : Z)
  : M LogResult :=
  paths <- dict_getitem "bot" (log_paths self) ;;
  found <- first_log_file paths max_lines ;;
  match found with
  | Some file_content => ret (Success file_content)
  | None =>
      _get_filtered_container_logs self max_lines bot_patterns
                                   "No bot logs found"
  end.

(** [_get_discord_logs] *)
Definition _get_discord_logs (self : ContainerLogService) (max_lines : Z)
  : M LogResult :=
  paths <- dict_getitem "discord" (log_paths self) ;;
  found <- first_log_file paths max_lines ;;
  match found with
  | Some file_content => ret (Success file_content)
  | None =>
      _get_filtered_container_logs self max_lines discord_patterns
                                   "No Discord logs found"
  end.

(** [_get_webui_logs] *)
Definition _get_webui_logs (self : ContainerLogService) (max_lines : Z)
  : M LogResult :=
  paths <- dict_getitem "webui" (log_paths self) ;;
  found <- first_log_file paths max_lines ;;
  match found with
  | Some file_content => ret (Success file_content)
  | None =>
      _get_filtered_container_logs self max_lines webui_patterns
                                   "No Web UI logs found"
  end.

(** [_get_application_logs] *)
Definition _get_application_logs (self : ContainerLogService) (max_lines : Z)
  : M LogResult :=
  paths <- dict_getitem "application" (log_paths self) ;;
  found <- first_log_file paths max_lines ;;
  match found with
  | Some file_content => ret (Success file_content)
  | None =>
      _get_filtered_container_logs self max_lines application_patterns
                                   "No application logs found"
  end.

(** [get_filtered_logs] *)
Definition get_filtered_logs (self : ContainerLogService)
  (request : FilteredLogRequest) : M LogResult :=
  try_
    (match log_type request with
     | BOT => _get_bot_logs self (filtered_max_lines request)
     | DISCORD => _get_discord_logs self (filtered_max_lines request)
     | WEBUI => _get_webui_logs self (filtered_max_lines request)
     | APPLICATION => _get_application_logs self (filtered_max_lines request)
     | CONTAINER | ACTION =>
         ret (Failure ("Unsupported log type: "
                       ++ LogType_str (log_type request)) 400)
     end)
    [ ([AttributeError; TypeError; ValueError; RuntimeError],
       fun _ =>
         ret (Failure ("Error fetching "
                       ++ LogType_value (log_type request) ++ " logs") 500)) ].

(** [value.capitalize()].  The method is one of [str]; on a value of any
    other type the lookup of the attribute raises [AttributeError]. *)
Definition call_capitalize (value : json) : M text :=
  match value with
  | JStr s => ret (capitalize s)
  | JNull | JBool _ | JInt _ | JFloat _ | JList _ | JDict _ =>
      raise AttributeError
  end.

(** The text of the [AttributeError] of a failed lookup of [attribute]
    on [value]. *)
Definition no_attribute_text (value : json) (attribute : string) : string :=
  "'" ++ type_name value ++ "' object has no attribute '" ++ attribute ++ "'".

(** [clear_logs].  In the handler [str(e)] is the text of the exception:
    that of the failed lookup of [capitalize] for an [AttributeError]. *)
Definition clear_logs (self : ContainerLogService) (request : ClearLogRequest)
  : M LogResult :=
  try_
    (capitalized <- call_capitalize (clear_log_type request) ;;
     ret {| success := true;
            content := None;
            data :=
              Some [ ("success", PyBool true);
                     ("message",
                      PyStr (capitalized
                             ++ of_latin1 " logs cleared (Note: Docker container logs persist until container restart)")%list) ];
            error := None;
            status_code := 200 |})
    [ ([AttributeError; TypeError; ValueError],
       fun e =>
         ret (Failure
                (match e with
                 | AttributeError =>
                     no_attribute_text (clear_log_type request) "capitalize"
                 | _ => exn_text e
                 end) 500)) ].

(** The outcome of a call from a state, and the state it leaves. *)
Definition result_of {A : Type} (m : M A) (s : State) : outcome A := fst (m s).
Definition state_after {A : Type} (m : M A) (s : State) : State := snd (m s).

(** The collaborator calls a computation performs from a fresh trace. *)
Definition calls_of {A : Type} (m : M A) (w : World) : list event :=
  trace (state_after m (start w)).

(* ===================================================================== *)
(** ** Action logs *)
(* ===================================================================== *)

(** [get_action_logs] and its two helpers call
    [services.infrastructure.action_logger], which is not among the
    sources: the store is a parameter, [None] when the module cannot be
    imported.  Its entries are of a type [Entry] left open.  The calls to
    the store are not put on the trace. *)

Section ActionLogs.

Variable Entry : Type.

Record ActionLogger : Type := {
  (** [get_action_logs_text(limit=n)]: a text, or [None] *)
  store_text : Z -> outcome (option string);
  (** [get_action_logs_json(limit=n)]: a list of entries *)
  store_json : Z -> outcome (list Entry)
}.

Record ActionLogRequest : Type := {
  format_type : string;
  limit : Z
}.

(** The values the action-log results and the JSON answers put in a
    dict. *)
Inductive action_value : Type :=
| ActionBool (b : bool)
| ActionInt (z : Z)
| ActionStr (s : string)
| ActionList (l : list Entry).

(** [LogResult], with the values of [data] widened to hold the entries
    and their count. *)
Record ActionLogResult : Type := {
  action_success : bool;
  action_content : option string;
  action_data : option (list (string * action_value));
  action_error : option string;
  action_status_code : Z
}.

(** [LogResult(success=True, content=c)] *)
Definition ActionSuccess (c : string) : ActionLogResult :=
  {| action_success := true; action_content := Some c; action_data := None;
     action_error := None; action_status_code := 200 |}.

(** [LogResult(success=True, data=d)] *)
Definition ActionData (d : list (string * action_value)) : ActionLogResult :=
  {| action_success := true; action_content := None; action_data := Some d;
     action_error := None; action_status_code := 200 |}.

(** [LogResult(success=False, error=msg, status_code=code)] *)
Definition ActionFailure (msg : string) (code : Z) : ActionLogResult :=
  {| action_success := false; action_content := None; action_data := None;
     action_error := Some msg; action_status_code := code |}.

(** [from services.infrastructure.action_logger import ...] *)
Definition import_action_logger (store : option ActionLogger)
  : M ActionLogger :=
  fun s => match store with
           | Some a => (Return a, s)
           | None => (Raise ImportError, s)
           end.

(** Truth value of a [str] or [None]. *)
Definition truthy_opt (o : option string) : bool :=
  match o with
  | Some c => truthy c
  | None => false
  end.

(** [_get_action_logs_text] *)
Definition _get_action_logs_text (store : option ActionLogger) (limit : Z)
  : M ActionLogResult :=
  try_ (get_action_logs_text <- import_action_logger store ;;
        action_log_content <- pure_call (store_text get_action_logs_text limit) ;;
        match action_log_content with
        | Some c =>
            if truthy c then ret (ActionSuccess c)
            else ret (ActionSuccess "No action logs available")
        | None => ret (ActionSuccess "No action logs available")
        end)
       [ ([ImportError; AttributeError; OSError; TypeError],
          fun e => raise e) ].

(** [_get_action_logs_json] *)
Definition _get_action_logs_json (store : option ActionLogger) (limit : Z)
  : M ActionLogResult :=
  try_ (get_action_logs_json <- import_action_logger store ;;
        action_logs <- pure_call (store_json get_action_logs_json limit) ;;
        ret (ActionData [ ("success", ActionBool true);
                          ("logs", ActionList action_logs);
                          ("count", ActionInt (Z.of_nat (length action_logs))) ]))
       [ ([ImportError; AttributeError; OSError; TypeError; ValueError],
          fun e => raise e) ].

(** [get_action_logs] *)
Definition get_action_logs (store : option ActionLogger)
  (request : ActionLogRequest) : M ActionLogResult :=
  try_ (if String.eqb (format_type request) "json"
        then _get_action_logs_json store (limit request)
        else _get_action_logs_text store (limit request))
       [ ([AttributeError; TypeError; ValueError; RuntimeError],
          fun _ => ret (ActionFailure "Error fetching action logs" 500)) ].

End ActionLogs.

Arguments store_text {Entry} _ _.
Arguments store_json {Entry} _ _.
Arguments ActionBool {Entry} b.
Arguments ActionInt {Entry} z.
Arguments ActionStr {Entry} s.
Arguments ActionList {Entry} l.
Arguments action_success {Entry} _.
Arguments action_content {Entry} _.
Arguments action_data {Entry} _.
Arguments action_error {Entry} _.
Arguments action_status_code {Entry} _.
Arguments ActionSuccess {Entry} c.
Arguments ActionData {Entry} d.
Arguments ActionFailure {Entry} msg code.
Arguments import_action_logger {Entry} store.
Arguments _get_action_logs_text {Entry} store limit.
Arguments _get_action_logs_json {Entry} store limit.
Arguments get_action_logs {Entry} store request.

(* ===================================================================== *)
(** ** The routes *)
(* ===================================================================== *)

(** The handlers of [app/blueprints/log_routes.py] that read logs.  A
    handler runs once the login check of its decorator has passed; the
    service it gets from [get_container_log_service()] is a parameter. *)

(** [flask.Response]: the body, the status, the MIME type. *)
Record Response : Type := {
  body : string;
  status : Z;
  mimetype : string
}.

(** [Response(text, status=code, mimetype='text/plain')]; [status]
    defaults to 200. *)
Definition text_response (text : string) (code : Z) : Response :=
  {| body := text; status := code; mimetype := "text/plain" |}.

(** A body given as [result.content]: nothing is sent for [None]. *)
Definition content_text (c : option string) : string :=
  match c with
  | Some t => t
  | None => ""
  end.

(** [f"{result.error}"] *)
Definition error_text (e : option string) : string :=
  match e with
  | Some t => t
  | None => "None"
  end.

(** [a or b] on values that are a [str] or [None]. *)
Definition py_or (a b : M (option string)) : M (option string) :=
  x <- a ;; if truthy_opt x then ret x else b.

Module LogRoutes.

(** The paths [_simple_read_logs] tries. *)
Definition simple_log_paths : list string :=
  [ "/app/logs/supervisord.log";
    "/var/log/supervisor/supervisord.log";
    "/app/logs/bot.log";
    "/app/logs/discord.log" ].

(** The loop of [_simple_read_logs]: the first path that exists and can be
    read ends it with the last lines of that file; a path whose reading
    raises is passed over. *)
Fixpoint simple_read_loop (paths : list string) (max_lines : Z)
  : M (option string) :=
  match paths with
  | [] => ret None
  | path :: rest =>
      returned <-
        try_ (present <- os_path_exists path ;;
              if present then
                lines <- open_readlines path ;;
                ret (Some (join "" (slice_from (- max_lines) lines)))
              else ret None)
             [ ([Exception], fun _ => ret None) ] ;;
      match returned with
      | Some text => ret (Some text)
      | None => simple_read_loop rest max_lines
      end
  end.

(** [_simple_read_logs] *)
Definition _simple_read_logs (max_lines : Z) : M (option string) :=
  simple_read_loop simple_log_paths max_lines.

(** [_simple_docker_logs] *)
Definition _simple_docker_logs (container_name : string) (max_lines : Z)
  : M (option string) :=
  try_ (import_docker ;;;
        logs <- call (EngineQuery container_name max_lines)
                     (fun w => engine_logs w container_name max_lines) ;;
        ret (Some logs))
       [ ([Exception], fun _ => ret None) ].

(** [logs = _simple_docker_logs(container_name) or _simple_read_logs()]
    and the answer built on it: the logs under a banner when there are
    some, [otherwise] when there are none. *)
Definition fallback_response (container_name banner : string)
  (otherwise : Response) : M Response :=
  logs <- py_or (_simple_docker_logs container_name 500)
                (_simple_read_logs 500) ;;
  if truthy_opt logs
  then ret (text_response (banner ++ nl ++ content_text logs) 200)
  else ret otherwise.

(** [get_container_logs], the handler of
    [/container_logs/<container_name>] *)
Definition get_container_logs (service : ContainerLogService)
  (container_name : string) : M Response :=
  try_
    (result <- get_container_logs service
                 {| container_name := container_name; max_lines := 500 |} ;;
     if success result
     then ret (text_response (content_text (content result)) 200)
     else
       fallback_response container_name "[Fallback mode]"
         (text_response ("Failed to fetch container logs: "
                         ++ error_text (error result))
                        (status_code result)))
    [ ([ImportError; AttributeError; RuntimeError],
       fun e =>
         fallback_response container_name "[Fallback mode - service error]"
           (text_response ("Service error: " ++ exn_text e) 500));
      ([ValueError; TypeError; KeyError],
       fun e =>
         fallback_response container_name "[Fallback mode - data error]"
           (text_response ("Data error: " ++ exn_text e) 500)) ].

(** The shape of the four handlers of the filtered logs: the content of a
    successful result, else the simple file reader, else a fixed text. *)
Definition filtered_logs_route (service : ContainerLogService)
  (log_type : LogType) (no_logs : string) : M Response :=
  answered <-
    try_ (result <- get_filtered_logs service
                      {| log_type := log_type; filtered_max_lines := 500 |} ;;
          if success result
          then ret (Some (text_response (content_text (content result)) 200))
          else ret None)
         [ ([Exception], fun _ => ret None) ] ;;
  match answered with
  | Some response => ret response
  | None =>
      logs <- _simple_read_logs 500 ;;
      ret (text_response (if truthy_opt logs then content_text logs
                          else no_logs) 200)
  end.

(** [get_bot_logs], the handler of [/bot_logs] *)
Definition get_bot_logs (service : ContainerLogService) : M Response :=
  filtered_logs_route service BOT "No bot logs available".

(** [get_discord_logs], the handler of [/discord_logs] *)
Definition get_discord_logs (service : ContainerLogService) : M Response :=
  filtered_logs_route service DISCORD "No Discord logs available".

(** [get_webui_logs], the handler of [/webui_logs] *)
Definition get_webui_logs (service : ContainerLogService) : M Response :=
  filtered_logs_route service WEBUI "No Web UI logs available".

(** [get_application_logs], the handler of [/application_logs] *)
Definition get_application_logs (service : ContainerLogService)
  : M Response :=
  filtered_logs_route service APPLICATION "No application logs available".

(** [get_action_logs_json], the handler of [/action_logs_json]: the dict
    given to [jsonify] and the status; [None] stands for
    [jsonify(None)]. *)
Definition get_action_logs_json {Entry : Type}
  (store : option (ActionLogger Entry))
  : M (option (list (string * action_value Entry)) * Z) :=
  try_
    (result <- get_action_logs store
                 {| format_type := "json"; limit := 500 |} ;;
     if action_success result
     then ret (action_data result, 200)
     else ret (Some [ ("success", ActionBool false);
                      ("error", ActionStr "Failed to fetch action logs") ],
               action_status_code result))
    [ ([ImportError; AttributeError; RuntimeError],
       fun _ => ret (Some [ ("success", ActionBool false);
                            ("error", ActionStr "Service error occurred") ],
                     500));
      ([ValueError; TypeError; KeyError],
       fun _ => ret (Some [ ("success", ActionBool false);
                            ("error", ActionStr "Data error occurred") ],
                     500)) ].

(** [get_action_logs], the handler of [/action_logs] *)
Definition get_action_logs {Entry : Type} (store : option (ActionLogger Entry))
  : M Response :=
  answered <-
    try_ (result <- get_action_logs store
                      {| format_type := "text"; limit := 500 |} ;;
          if action_success result
          then ret (Some (text_response
                            (content_text (action_content result)) 200))
          else ret None)
         [ ([Exception], fun _ => ret None) ] ;;
  match answered with
  | Some response => ret response
  | None => ret (text_response "No action logs available" 200)
  end.

End LogRoutes.

(* ===================================================================== *)
(** ** Properties of computations *)
(* ===================================================================== *)

(** The state with more calls on its trace. *)
Definition extend (s : State) (evs : list event) : State :=
  {| world := world s; trace := trace s ++ evs |}.

(** A computation is [stable] when, from any state, it returns what it
    returns from the fresh state of the same world, leaves the world as it
    found it and appends to the trace the calls it makes from there. *)
Definition stable {A : Type} (m : M A) : Prop :=
  forall s, m s = (result_of m (start (world s)),
                   extend s (calls_of m (world s))).

(** A postcondition on the value a computation returns from the fresh
    state of a world; nothing is said of a computation that raises. *)
Definition ensures {A : Type} (m : M A) (w : World) (Q : A -> Prop) : Prop :=
  forall a, result_of m (start w) = Return a -> Q a.

(** The outcome is an exception. *)
Definition raises {A : Type} (o : outcome A) : bool :=
  match o with
  | Raise _ => true
  | Return _ => false
  end.

(** A result is acceptable when it is a failure, or a success whose
    content satisfies [P]; a call that raises has no result to judge. *)
Definition success_content (P : string -> Prop) (o : outcome LogResult)
  : Prop :=
  match o with
  | Return r =>
      if success r
      then match content r with
           | Some c => P c
           | None => False
           end
      else True
  | Raise _ => True
  end.

(* ===================================================================== *)
(** ** Notions used in the statements *)
(* ===================================================================== *)

(** The last [n] elements of a list, all of it when it has fewer. *)
Definition last_lines {A : Type} (n : Z) (l : list A) : list A :=
  skipn (length l - Z.to_nat n) l.

(** The text holds a character that is not white space. *)
Fixpoint has_nonspace (s : string) : bool :=
  match s with
  | EmptyString => false
  | String c r => (negb (isspace c) || has_nonspace r)%bool
  end.

(** What [_read_log_file] keeps of the lines of a file. *)
Definition recent_lines (max_lines : Z) (lines : list string) : list string :=
  if Z.of_nat (length lines) >? max_lines
  then slice_from (- max_lines) lines
  else lines.

(** What [_read_log_file] returns for a path, read off the world. *)
Definition read_result (w : World) (path : string) (max_lines : Z)
  : outcome (option string) :=
  match files w path with
  | None => Return None
  | Some (Text t) => Return (Some (join "" (recent_lines max_lines (readlines t))))
  | Some (Unreadable e) =>
      if catches [OSError; OSError; PermissionError; UnicodeDecodeError] e
      then Return None
      else Raise e
  end.

(** Follows the words of the claim on the own container, with the test
    for content put on the tail that is read: the last [n] lines of the
    first path of the list that exists, can be read, and whose last [n]
    lines hold a character that is not white space.  A path that does not
    exist, a file whose tail is blank and a file whose reading fails with
    an I/O or decoding error are passed over; the search gives up on a
    file whose reading fails otherwise. *)
Fixpoint first_usable (w : World) (n : Z) (paths : list string)
  : option string :=
  match paths with
  | [] => None
  | p :: rest =>
      match files w p with
      | None => first_usable w n rest
      | Some (Text t) =>
          let tail := join "" (last_lines n (readlines t)) in
          if has_nonspace tail then Some tail else first_usable w n rest
      | Some (Unreadable e) =>
          if catches [OSError; UnicodeDecodeError] e
          then first_usable w n rest
          else None
      end
  end.

(** The text of the filtered fallback, once the engine step gave [logs]. *)
Definition filtered_text (max_lines : Z) (filter_patterns : list string)
  (no_logs_message logs : string) : string :=
  match filter (line_matches filter_patterns) (split_nl logs) with
  | [] => no_logs_message
  | x :: xs => join nl (slice_from (- max_lines) (x :: xs))
  end.

(** The text the pooled client gives for a query, read off the world:
    the pool hands out a client, the context of the client is entered and
    the query is answered. *)
Definition pooled_text (w : World) (name : string) (tail : Z)
  : option string :=
  match client_pool w, pool_enter w, pool_logs w name tail with
  | Return true, Return tt, Return logs => Some logs
  | _, _, _ => None
  end.

(** The log stream the filtered fallback gets to filter, read off the
    world of a process that can import the Docker SDK: the answer of the
    synchronous query, or, when that query fails and no event loop is
    running, the answer of the pooled client to the same query.  Inside a
    running loop a failed synchronous query leaves the fallback without a
    text. *)
Definition fallback_stream (w : World) (name : string) (tail : Z)
  : option string :=
  match engine_logs w name tail with
  | Return logs => Some logs
  | Raise _ => if running_loop w then None else pooled_text w name tail
  end.

(** The text a successful [get_container_logs] may carry: text with
    content, or whatever the engine or the pooled client returned. *)
Definition container_content (w : World) (request : ContainerLogRequest)
  (c : string) : Prop :=
  truthy (strip c) = true
  \/ engine_logs w (container_name request) (max_lines request) = Return c
  \/ pool_logs w (container_name request) (max_lines request) = Return c.

(** Reading a file fails with an I/O or decoding error only. *)
Definition io_errors_only (w : World) : Prop :=
  forall p e, files w p = Some (Unreadable e) ->
              catches [OSError; UnicodeDecodeError] e = true.

(** Modelled from the spec: [utils.common_helpers.validate_container_name]
    is not among the sources; the specification words the predicate as
    "alphanumeric, dot, dash, underscore only". *)
Definition validate_container_name (name : string) : bool :=
  (truthy name && forallb name_char (list_ascii_of_string name))%bool.

(* ===================================================================== *)
(** ** Scenarios *)
(* ===================================================================== *)

(** No log file, no validation helper, an engine that knows no container,
    no event loop, no client pool. *)
Definition quiet_world : World :=
  {| files := fun _ => None;
     common_helpers := None;
     docker_sdk := true;
     engine_logs := fun _ _ => Raise NotFound;
     running_loop := false;
     client_pool := Raise ImportError;
     pool_enter := Return tt;
     pool_logs := fun _ _ => Raise NotFound |}.

(** The world [w] with another file system, another engine, without the
    Docker SDK. *)
Definition with_files (f : string -> option file) (w : World) : World :=
  {| files := f;
     common_helpers := common_helpers w;
     docker_sdk := docker_sdk w;
     engine_logs := engine_logs w;
     running_loop := running_loop w;
     client_pool := client_pool w;
     pool_enter := pool_enter w;
     pool_logs := pool_logs w |}.

Definition with_engine (e : string -> Z -> outcome string) (w : World)
  : World :=
  {| files := files w;
     common_helpers := common_helpers w;
     docker_sdk := docker_sdk w;
     engine_logs := e;
     running_loop := running_loop w;
     client_pool := client_pool w;
     pool_enter := pool_enter w;
     pool_logs := pool_logs w |}.

Definition without_sdk (w : World) : World :=
  {| files := files w;
     common_helpers := common_helpers w;
     docker_sdk := false;
     engine_logs := engine_logs w;
     running_loop := running_loop w;
     client_pool := client_pool w;
     pool_enter := pool_enter w;
     pool_logs := pool_logs w |}.

(** The caller runs inside an event loop and the pool hands out a client
    whose queries end as [pooled] says. *)
Definition inside_loop (pooled : string -> Z -> outcome string) (w : World)
  : World :=
  {| files := files w;
     common_helpers := common_helpers w;
     docker_sdk := docker_sdk w;
     engine_logs := engine_logs w;
     running_loop := true;
     client_pool := Return true;
     pool_enter := Return tt;
     pool_logs := pooled |}.

(** One file at [path] with text [t]. *)
Definition one_file (path t : string) : string -> option file :=
  fun p => if String.eqb p path then Some (Text t) else None.

(** An engine that keeps the lines [log] of the container [name] and
    answers a query with the last [tail] of them, each closed by a line
    feed; it knows no other container. *)
Definition engine_holding (name : string) (log : list string)
  : string -> Z -> outcome string :=
  fun container tail =>
    if String.eqb container name
    then Return (String.concat "" (map (fun l => l ++ nl) (last_lines tail log)))
    else Raise NotFound.

(** The service of a process whose environment sets nothing. *)
Definition service : ContainerLogService := __init__ (fun _ => None).

(** The own container keeps four lines, two of which name a bot
    keyword. *)
Definition chatty_world : World :=
  with_engine
    (engine_holding "ddc" ["boot"; "Slash commands synced"; "idle";
                           "cache refreshed"])
    quiet_world.

(** The file under [/app/logs] ends with a blank line; the engine keeps
    one line of the own container. *)
Definition blank_tail_world : World :=
  with_files (one_file "/app/logs/supervisord.log" ("boot ok" ++ nl ++ nl))
    (with_engine (engine_holding "ddc" ["from the engine"]) quiet_world).

(** The scenario of the specification: the own container, with the file
    under [/app/logs] present and not empty. *)
Definition own_log_world : World :=
  with_files (one_file "/app/logs/supervisord.log"
                       ("spawned: bot" ++ nl ++ "success: bot entered RUNNING"
                        ++ nl))
             quiet_world.

(** The container [web] runs and has written nothing. *)
Definition silent_container_world : World :=
  with_engine (engine_holding "web" []) quiet_world.

(** The own container wrote three lines, the first of which names a bot
    keyword. *)
Definition early_match_world : World :=
  with_engine
    (engine_holding "ddc" ["Slash commands synced"; "idle"; "still idle"])
    quiet_world.

(** The own container wrote two lines and both name a bot keyword. *)
Definition two_matches_world : World :=
  with_engine (engine_holding "ddc" ["Slash commands synced";
                                     "cache refreshed"])
              quiet_world.

(** The engine answers every query with an API error, and so does the
    pooled client; no log file exists. *)
Definition api_error_world : World :=
  {| files := fun _ => None;
     common_helpers := None;
     docker_sdk := true;
     engine_logs := fun _ _ => Raise APIError;
     running_loop := false;
     client_pool := Return true;
     pool_enter := Return tt;
     pool_logs := fun _ _ => Raise APIError |}.

(** The synchronous query times out; no event loop runs, and the pooled
    client reaches the own container, which wrote two lines that both name
    a bot keyword. *)
Definition pooled_two_matches_world : World :=
  {| files := fun _ => None;
     common_helpers := None;
     docker_sdk := true;
     engine_logs := fun _ _ => Raise TimeoutError;
     running_loop := false;
     client_pool := Return true;
     pool_enter := Return tt;
     pool_logs := engine_holding "ddc" ["Slash commands synced";
                                        "cache refreshed"] |}.

(* ===================================================================== *)
(** ** Further notions and scenarios *)
(* ===================================================================== *)

(** The text holds a line feed. *)
Fixpoint has_nl (s : string) : bool :=
  match s with
  | EmptyString => false
  | String c r => (Ascii.eqb c NL || has_nl r)%bool
  end.

(** Every character of the text is of the class [[a-zA-Z0-9_.-]]. *)
Fixpoint all_in_class (s : string) : bool :=
  match s with
  | EmptyString => true
  | String c r => (name_char c && all_in_class r)%bool
  end.

(** A text that is not empty and made of characters of the class. *)
Definition class_only (s : string) : bool := (truthy s && all_in_class s)%bool.

(** The first log type of the dict one of whose files can be used, with
    the text that file gives; the files are judged as in [first_usable]. *)
Fixpoint first_usable_any (w : World) (n : Z)
  (items : list (string * list string)) : option (string * string) :=
  match items with
  | [] => None
  | (log_type, paths) :: rest =>
      match first_usable w n paths with
      | Some c => Some (log_type, c)
      | None => first_usable_any w n rest
      end
  end.

(** The engine knows no container; the bot log is blank and the Discord
    log has one line. *)
Definition discord_log_world : World :=
  with_files
    (fun p => if String.eqb p "/app/logs/bot.log" then Some (Text nl)
              else if String.eqb p "/app/logs/discord.log"
                   then Some (Text ("gateway connected" ++ nl))
                   else None)
    quiet_world.

(** A result is well formed for a list of status codes when it is a
    success - content, no error, status 200 - or a failure - an error, no
    content, a status of the list. *)
Definition well_formed (codes : list Z) (r : LogResult) : Prop :=
  (exists c, r = Success c)
  \/ (exists msg code, r = Failure msg code /\ In code codes).

(** The property holds of the value returned, if one is. *)
Definition returned {A : Type} (P : A -> Prop) (o : outcome A) : Prop :=
  match o with
  | Return a => P a
  | Raise _ => True
  end.

(** The log types [get_filtered_logs] serves. *)
Definition is_filtered_type (t : LogType) : bool :=
  match t with
  | BOT | DISCORD | WEBUI | APPLICATION => true
  | CONTAINER | ACTION => false
  end.

(** The keywords and the placeholder of a served log type. *)
Definition patterns_of (t : LogType) : list string :=
  match t with
  | BOT => bot_patterns
  | DISCORD => discord_patterns
  | WEBUI => webui_patterns
  | APPLICATION => application_patterns
  | CONTAINER | ACTION => []
  end.

Definition placeholder_of (t : LogType) : string :=
  match t with
  | BOT => "No bot logs found"
  | DISCORD => "No Discord logs found"
  | WEBUI => "No Web UI logs found"
  | APPLICATION => "No application logs found"
  | CONTAINER | ACTION => ""
  end.

(** The Discord log under [/app/logs] has two lines. *)
Definition discord_file_world : World :=
  with_files (one_file "/app/logs/discord.log"
                       ("gateway connected" ++ nl ++ "heartbeat ack" ++ nl))
             (without_sdk quiet_world).

(** The store fails with [e] on the request: its module cannot be
    imported, or the function the format selects raises. *)
Definition store_fails {Entry : Type} (store : option (ActionLogger Entry))
  (request : ActionLogRequest) (e : exn) : Prop :=
  match store with
  | None => e = ImportError
  | Some a =>
      if String.eqb (format_type request) "json"
      then store_json a (limit request) = Raise e
      else store_text a (limit request) = Raise e
  end.

(** A store of no entries that answers the empty text. *)
Definition empty_store : ActionLogger string :=
  {| store_text := fun _ => Return (Some "");
     store_json := fun _ => Return [] |}.

(** A store whose reading fails with an I/O error. *)
Definition broken_store : ActionLogger string :=
  {| store_text := fun _ => Raise OSError;
     store_json := fun _ => Raise ValueError |}.

(** The text the first readable file of a list gives to
    [_simple_read_logs]: the slice [lines[-n:]] of the first path that
    exists and whose reading does not raise. *)
Fixpoint first_readable (w : World) (n : Z) (paths : list string)
  : option string :=
  match paths with
  | [] => None
  | p :: rest =>
      match files w p with
      | Some (Text t) => Some (join "" (slice_from (- n) (readlines t)))
      | Some (Unreadable _) | None => first_readable w n rest
      end
  end.

(** What [_simple_docker_logs(name) or _simple_read_logs()] evaluates to
    in a world. *)
Definition simple_fallback_logs (w : World) (name : string) : option string :=
  let docker_logs :=
    if docker_sdk w
    then match engine_logs w name 500 with
         | Return logs => Some logs
         | Raise _ => None
         end
    else None in
  if truthy_opt docker_logs then docker_logs
  else first_readable w 500 LogRoutes.simple_log_paths.

(** A response with status 200 and a body that is not empty. *)
Definition answers_text (o : outcome Response) : Prop :=
  exists response,
    o = Return response
    /\ status response = 200
    /\ truthy (body response) = true.

(* ===================================================================== *)
(** ** Computations read the world and extend the trace *)
(* ===================================================================== *)

Section Stability.

Context {A B : Type}.

Lemma extend_nil (s : State) : extend s [] = s.
Proof. destruct s; unfold extend; simpl; now rewrite app_nil_r. Qed.

Lemma extend_extend (s : State) (e1 e2 : list event) :
  extend (extend s e1) e2 = extend s (e1 ++ e2).
Proof. unfold extend; simpl; now rewrite app_assoc. Qed.

Lemma extend_start (w : World) (evs : list event) :
  extend (start w) evs = {| world := w; trace := evs |}.
Proof. reflexivity. Qed.

(** A computation that touches neither the world nor the trace. *)
Lemma stable_reader (f : World -> outcome A) :
  stable (fun s => (f (world s), s)).
Proof.
  intros s; unfold result_of, calls_of, state_after; simpl.
  now rewrite extend_nil.
Qed.

Lemma stable_ret (a : A) : stable (ret a).
Proof. exact (stable_reader (fun _ => Return a)). Qed.

Lemma stable_raise (e : exn) : stable (@raise A e).
Proof. exact (stable_reader (fun _ => Raise e)). Qed.

Lemma stable_pure_call (r : outcome A) : stable (pure_call r).
Proof. exact (stable_reader (fun _ => r)). Qed.

Lemma stable_call (ev : event) (f : World -> outcome A) :
  stable (call ev f).
Proof. intros s; reflexivity. Qed.

Lemma stable_bind (m : M A) (k : A -> M B) :
  stable m -> (forall a, stable (k a)) -> stable (bind m k).
Proof.
  intros Hm Hk s.
  pose proof (Hm s) as E1.
  pose proof (Hm (start (world s))) as E2; simpl in E2.
  set (r := result_of m (start (world s))) in *.
  set (c := calls_of m (world s)) in *.
  unfold result_of, calls_of, state_after, bind.
  rewrite E1, E2.
  destruct r as [a | e]; simpl; [| reflexivity].
  rewrite (Hk a (extend s c)), (Hk a (extend (start (world s)) c)); simpl.
  now rewrite extend_extend.
Qed.

End Stability.

Lemma stable_dispatch {A : Type} (clauses : list (list exn * (exn -> M A))) :
  Forall (fun cl => forall e, stable (snd cl e)) clauses ->
  forall e, stable (dispatch clauses e).
Proof.
  induction 1 as [| [classes handler] rest Hh _ IH]; intros e; simpl.
  - apply stable_raise.
  - destruct (catches classes e); [apply Hh | apply IH].
Qed.

Lemma stable_try {A : Type} (body : M A)
  (clauses : list (list exn * (exn -> M A))) :
  stable body ->
  Forall (fun cl => forall e, stable (snd cl e)) clauses ->
  stable (try_ body clauses).
Proof.
  intros Hb Hc s.
  pose proof (Hb s) as E1.
  pose proof (Hb (start (world s))) as E2; simpl in E2.
  set (r := result_of body (start (world s))) in *.
  set (c := calls_of body (world s)) in *.
  unfold result_of, calls_of, state_after, try_.
  rewrite E1, E2.
  destruct r as [a | e]; simpl; [reflexivity |].
  rewrite (stable_dispatch clauses Hc e (extend s c)),
          (stable_dispatch clauses Hc e (extend (start (world s)) c)); simpl.
  now rewrite extend_extend.
Qed.

Lemma stable_import_docker : stable import_docker.
Proof.
  intros s; unfold import_docker, result_of, calls_of, state_after; simpl.
  destruct (docker_sdk (world s)); simpl; now rewrite extend_nil.
Qed.

Lemma stable_try_docker {A : Type} (body : M A)
  (clauses : list (list exn * (exn -> M A))) :
  stable body ->
  Forall (fun cl => forall e, stable (snd cl e)) clauses ->
  stable (try_docker body clauses).
Proof.
  intros Hb Hc s.
  pose proof (stable_try body clauses Hb Hc s) as Ht.
  unfold result_of, calls_of, state_after, try_docker, import_docker in *;
    simpl in *.
  destruct (docker_sdk (world s)); simpl.
  - exact Ht.
  - now rewrite extend_nil.
Qed.

Lemma stable_import_validate_container_name :
  stable import_validate_container_name.
Proof.
  intros s; unfold import_validate_container_name, result_of, calls_of,
    state_after; simpl.
  destruct (common_helpers (world s)); simpl; now rewrite extend_nil.
Qed.

Lemma stable_asyncio_get_running_loop : stable asyncio_get_running_loop.
Proof.
  intros s; unfold asyncio_get_running_loop, result_of, calls_of,
    state_after; simpl.
  destruct (running_loop (world s)); simpl; now rewrite extend_nil.
Qed.

Lemma stable_asyncio_run {A : Type} (coro : M A) :
  stable coro -> stable (asyncio_run coro).
Proof.
  intros Hc s; unfold asyncio_run, result_of, calls_of, state_after; simpl.
  destruct (running_loop (world s)); simpl.
  - now rewrite extend_nil.
  - apply Hc.
Qed.

Lemma stable_if {A : Type} (b : bool) (m1 m2 : M A) :
  stable m1 -> stable m2 -> stable (if b then m1 else m2).
Proof. now destruct b. Qed.

Create HintDb stable discriminated.
#[export] Hint Resolve stable_ret stable_raise stable_pure_call stable_call
  stable_import_docker stable_import_validate_container_name
  stable_asyncio_get_running_loop stable_asyncio_run stable_if : stable.

(** Closes a goal [stable m] for a method built from the stable pieces:
    it walks through [bind], [try_], the clauses and the case analyses. *)
Ltac stable_step :=
  match goal with
  | |- forall _, _ => intros ?
  | |- stable (bind _ _) => apply stable_bind; [| intros ?]
  | |- stable (try_ _ _) => apply stable_try
  | |- stable (try_docker _ _) => apply stable_try_docker
  | |- stable (asyncio_run _) => apply stable_asyncio_run
  | |- stable (run_in_worker_thread _) => unfold run_in_worker_thread
  | |- stable run_coroutine_threadsafe_task => apply stable_raise
  | |- stable (dict_getitem _ _) =>
      unfold dict_getitem; destruct (dict_lookup _ _)
  | |- stable (if ?b then _ else _) => destruct b
  | |- stable (match ?x with _ => _ end) => destruct x
  | |- Forall _ [] => constructor
  | |- Forall _ (_ :: _) => constructor; [intros ?; simpl |]
  | |- stable _ => solve [auto with stable]
  end.

Ltac solve_stable := repeat stable_step.

(** *** The methods are stable *)

Lemma stable__validate_container_name (container_name : string) :
  stable (_validate_container_name container_name).
Proof. unfold _validate_container_name; solve_stable. Qed.

Lemma stable_os_path_exists (path : string) : stable (os_path_exists path).
Proof. apply stable_call. Qed.

Lemma stable_open_readlines (path : string) : stable (open_readlines path).
Proof. apply stable_call. Qed.

#[export] Hint Resolve stable__validate_container_name stable_os_path_exists
  stable_open_readlines : stable.

Lemma stable__read_log_file (file_path : string) (max_lines : Z) :
  stable (_read_log_file file_path max_lines).
Proof. unfold _read_log_file; solve_stable. Qed.

#[export] Hint Resolve stable__read_log_file : stable.

Lemma stable_first_log_file (paths : list string) (max_lines : Z) :
  stable (first_log_file paths max_lines).
Proof.
  induction paths as [| log_path rest IH]; simpl; solve_stable.
Qed.

#[export] Hint Resolve stable_first_log_file : stable.

Lemma stable_any_log_file (items : list (string * list string))
  (max_lines : Z) : stable (any_log_file items max_lines).
Proof.
  induction items as [| [log_type paths] rest IH]; simpl; solve_stable.
Qed.

#[export] Hint Resolve stable_any_log_file : stable.

Lemma stable__get_container_logs_sync (container_name : string)
  (max_lines : Z) : stable (_get_container_logs_sync container_name max_lines).
Proof. unfold _get_container_logs_sync; solve_stable. Qed.

Lemma stable__get_docker_client_async : stable _get_docker_client_async.
Proof. unfold _get_docker_client_async; solve_stable. Qed.

Lemma stable__fetch_container_logs_async (container_name : string)
  (max_lines : Z) :
  stable (_fetch_container_logs_async container_name max_lines).
Proof. unfold _fetch_container_logs_async; solve_stable. Qed.

#[export] Hint Resolve stable__get_container_logs_sync
  stable__get_docker_client_async stable__fetch_container_logs_async : stable.

Lemma stable__get_container_logs_service_first (container_name : string)
  (max_lines : Z) :
  stable (_get_container_logs_service_first container_name max_lines).
Proof. unfold _get_container_logs_service_first; solve_stable. Qed.

#[export] Hint Resolve stable__get_container_logs_service_first : stable.

Lemma stable_get_container_logs (self : ContainerLogService)
  (request : ContainerLogRequest) :
  stable (get_container_logs self request).
Proof. unfold get_container_logs; solve_stable. Qed.

Lemma stable__get_filtered_container_logs (self : ContainerLogService)
  (max_lines : Z) (filter_patterns : list string) (no_logs_message : string) :
  stable (_get_filtered_container_logs self max_lines filter_patterns
                                       no_logs_message).
Proof. unfold _get_filtered_container_logs; solve_stable. Qed.

#[export] Hint Resolve stable__get_filtered_container_logs : stable.

Lemma stable__get_bot_logs (self : ContainerLogService) (max_lines : Z) :
  stable (_get_bot_logs self max_lines).
Proof. unfold _get_bot_logs; solve_stable. Qed.

Lemma stable__get_discord_logs (self : ContainerLogService) (max_lines : Z) :
  stable (_get_discord_logs self max_lines).
Proof. unfold _get_discord_logs; solve_stable. Qed.

Lemma stable__get_webui_logs (self : ContainerLogService) (max_lines : Z) :
  stable (_get_webui_logs self max_lines).
Proof. unfold _get_webui_logs; solve_stable. Qed.

Lemma stable__get_application_logs (self : ContainerLogService)
  (max_lines : Z) : stable (_get_application_logs self max_lines).
Proof. unfold _get_application_logs; solve_stable. Qed.

#[export] Hint Resolve stable__get_bot_logs stable__get_discord_logs
  stable__get_webui_logs stable__get_application_logs : stable.

Lemma stable_get_filtered_logs (self : ContainerLogService)
  (request : FilteredLogRequest) :
  stable (get_filtered_logs self request).
Proof. unfold get_filtered_logs; solve_stable. Qed.

Lemma stable_call_capitalize (value : json) : stable (call_capitalize value).
Proof. destruct value; simpl; solve_stable. Qed.

Lemma stable_clear_logs (self : ContainerLogService)
  (request : ClearLogRequest) : stable (clear_logs self request).
Proof.
  unfold clear_logs.
  apply stable_try; [| solve_stable].
  apply stable_bind; [apply stable_call_capitalize | solve_stable].
Qed.

(* ===================================================================== *)
(** ** What a computation returns and calls, piece by piece *)
(* ===================================================================== *)

Section Denotation.

Context {A B : Type}.
Variable w : World.

Lemma result_ret (a : A) : result_of (ret a) (start w) = Return a.
Proof. reflexivity. Qed.

Lemma calls_ret (a : A) : calls_of (ret a) w = [].
Proof. reflexivity. Qed.

Lemma result_raise (e : exn) : result_of (@raise A e) (start w) = Raise e.
Proof. reflexivity. Qed.

Lemma result_bind (m : M A) (k : A -> M B) :
  stable m -> (forall a, stable (k a)) ->
  result_of (bind m k) (start w) =
    match result_of m (start w) with
    | Return a => result_of (k a) (start w)
    | Raise e => Raise e
    end.
Proof.
  intros Hm Hk. unfold result_of at 1. unfold bind.
  rewrite (Hm (start w)); simpl.
  destruct (result_of m (start w)) as [a | e]; [| reflexivity].
  now rewrite (Hk a (extend (start w) _)).
Qed.

Lemma calls_bind (m : M A) (k : A -> M B) :
  stable m -> (forall a, stable (k a)) ->
  calls_of (bind m k) w =
    (calls_of m w ++ match result_of m (start w) with
                     | Return a => calls_of (k a) w
                     | Raise _ => []
                     end)%list.
Proof.
  intros Hm Hk. unfold calls_of at 1, state_after. unfold bind.
  rewrite (Hm (start w)); simpl.
  destruct (result_of m (start w)) as [a | e];
    [| simpl; now rewrite app_nil_r].
  now rewrite (Hk a (extend (start w) _)).
Qed.

Lemma result_try (body : M A) (clauses : list (list exn * (exn -> M A))) :
  stable body ->
  Forall (fun cl => forall e, stable (snd cl e)) clauses ->
  result_of (try_ body clauses) (start w) =
    match result_of body (start w) with
    | Return a => Return a
    | Raise e => result_of (dispatch clauses e) (start w)
    end.
Proof.
  intros Hb Hc. unfold result_of at 1. unfold try_.
  rewrite (Hb (start w)); simpl.
  destruct (result_of body (start w)) as [a | e]; [reflexivity |].
  now rewrite (stable_dispatch clauses Hc e (extend (start w) _)).
Qed.

Lemma calls_try (body : M A) (clauses : list (list exn * (exn -> M A))) :
  stable body ->
  Forall (fun cl => forall e, stable (snd cl e)) clauses ->
  calls_of (try_ body clauses) w =
    (calls_of body w ++ match result_of body (start w) with
                        | Return _ => []
                        | Raise e => calls_of (dispatch clauses e) w
                        end)%list.
Proof.
  intros Hb Hc. unfold calls_of at 1, state_after. unfold try_.
  rewrite (Hb (start w)); simpl.
  destruct (result_of body (start w)) as [a | e];
    [simpl; now rewrite app_nil_r |].
  now rewrite (stable_dispatch clauses Hc e (extend (start w) _)).
Qed.

Lemma result_try_docker (body : M A)
  (clauses : list (list exn * (exn -> M A))) :
  result_of (try_docker body clauses) (start w) =
    if docker_sdk w then result_of (try_ body clauses) (start w)
    else Raise UnboundLocalError.
Proof.
  unfold result_of, try_docker, import_docker; simpl.
  now destruct (docker_sdk w).
Qed.

Lemma calls_try_docker (body : M A)
  (clauses : list (list exn * (exn -> M A))) :
  calls_of (try_docker body clauses) w =
    if docker_sdk w then calls_of (try_ body clauses) w else [].
Proof.
  unfold calls_of, state_after, try_docker, import_docker; simpl.
  now destruct (docker_sdk w).
Qed.

Lemma result_asyncio_run (coro : M A) :
  result_of (asyncio_run coro) (start w) =
    if running_loop w then Raise RuntimeError
    else result_of coro (start w).
Proof.
  unfold result_of, asyncio_run; simpl. now destruct (running_loop w).
Qed.

Lemma calls_asyncio_run (coro : M A) :
  calls_of (asyncio_run coro) w =
    if running_loop w then [] else calls_of coro w.
Proof.
  unfold calls_of, state_after, asyncio_run; simpl.
  now destruct (running_loop w).
Qed.

End Denotation.

(* ===================================================================== *)
(** ** Validation of the container name *)
(* ===================================================================== *)

Lemma truthy_app_r (a b : string) : truthy b = true -> truthy (a ++ b) = true.
Proof. destruct a; simpl; auto. Qed.

(** After a first character of the class, the pattern refuses any text
    that holds a character outside the class, unless that character is a
    line feed that ends the text. *)
Lemma re_name_rest_rejects (pre : string) (c : ascii) (post : string) :
  name_char c = false ->
  c <> NL \/ post <> EmptyString ->
  re_name_rest (pre ++ String c post) = false.
Proof.
  intros Hc Hnl.
  induction pre as [| a pre IH]; simpl.
  - rewrite Hc. destruct Hnl as [Hne | Hpost].
    + apply Ascii.eqb_neq in Hne. now rewrite Hne.
    + destruct post; [congruence | simpl; apply andb_false_r].
  - destruct (name_char a); [exact IH |].
    rewrite truthy_app_r by reflexivity. apply andb_false_r.
Qed.

Lemma re_match_name_rejects (pre : string) (c : ascii) (post : string) :
  name_char c = false ->
  c <> NL \/ post <> EmptyString ->
  re_match_name (pre ++ String c post) = false.
Proof.
  intros Hc Hnl. destruct pre as [| a pre]; simpl.
  - now rewrite Hc.
  - rewrite (re_name_rest_rejects pre c post Hc Hnl). apply andb_false_r.
Qed.

(** Without the helper module the method answers with the pattern. *)
Lemma _validate_container_name_fallback (w : World) (name : string) :
  common_helpers w = None ->
  result_of (_validate_container_name name) (start w)
  = Return (re_match_name name)
  /\ calls_of (_validate_container_name name) w = [].
Proof.
  intros H.
  unfold _validate_container_name, result_of, calls_of, state_after, try_,
    bind, import_validate_container_name; simpl.
  now rewrite H.
Qed.

(** A name the validation refuses ends the request at once: the result is
    the 400 failure and the state is the one the validation left. *)
Lemma get_container_logs_refused (self : ContainerLogService)
  (request : ContainerLogRequest) (s : State) :
  result_of (_validate_container_name (container_name request)) s
  = Return false ->
  get_container_logs self request s
  = (Return (Failure "Invalid container name" 400),
     state_after (_validate_container_name (container_name request)) s).
Proof.
  unfold result_of, state_after, get_container_logs, try_, bind.
  destruct (_validate_container_name (container_name request) s) as [r s'].
  simpl. intros ->. reflexivity.
Qed.

(** With the pattern in force, a name that holds a character outside the
    class somewhere else than as a closing line feed is refused with the
    400 failure, and no collaborator is called. *)
Lemma get_container_logs_invalid_name (self : ContainerLogService)
  (w : World) (pre : string) (c : ascii) (post : string) (n : Z) :
  common_helpers w = None ->
  name_char c = false ->
  c <> NL \/ post <> EmptyString ->
  get_container_logs self
    {| container_name := pre ++ String c post; max_lines := n |} (start w)
  = (Return (Failure "Invalid container name" 400), start w).
Proof.
  intros Hh Hc Hnl.
  destruct (_validate_container_name_fallback w (pre ++ String c post) Hh)
    as [Hr Hcalls].
  rewrite get_container_logs_refused; simpl.
  - f_equal.
    pose proof (stable__validate_container_name (pre ++ String c post)
                  (start w)) as St.
    unfold state_after. rewrite St. simpl. rewrite Hcalls. reflexivity.
  - rewrite Hr. now rewrite re_match_name_rejects.
Qed.

Lemma forallb_negb_existsb {A : Type} (f : A -> bool) (l : list A) :
  existsb (fun a => negb (f a)) l = true -> forallb f l = false.
Proof.
  induction l as [| a l IH]; simpl; [discriminate |].
  destruct (f a); simpl; [exact IH | reflexivity].
Qed.

(** With a helper that is the predicate of the specification,
    [validate_container_name], a name that holds a character outside the
    class is refused with the 400 failure and no collaborator is called. *)
Lemma get_container_logs_helper_rejects (self : ContainerLogService)
  (w : World) (name : string) (n : Z) :
  common_helpers w = Some (fun nm => Return (validate_container_name nm)) ->
  existsb (fun c => negb (name_char c)) (list_ascii_of_string name) = true ->
  get_container_logs self {| container_name := name; max_lines := n |}
                     (start w)
  = (Return (Failure "Invalid container name" 400), start w).
Proof.
  intros Hh Hc.
  assert (_validate_container_name name (start w) = (Return false, start w))
    as Hv.
  { unfold _validate_container_name, try_, bind,
      import_validate_container_name, pure_call; simpl.
    rewrite Hh. unfold validate_container_name.
    rewrite (forallb_negb_existsb _ _ Hc). now rewrite andb_false_r. }
  rewrite get_container_logs_refused; unfold result_of, state_after; simpl;
    now rewrite Hv.
Qed.

(** C1, at the input where the code leaves the claim.  The helper module
    is absent, so the pattern decides.  The name [ddc] followed by a line
    feed holds a character outside the class, yet the pattern accepts it:
    the request is not refused with the 400 failure, the engine is queried
    for that name and the log files are probed. *)
Theorem trailing_line_feed_passes_validation :
  let request := {| container_name := "ddc" ++ nl; max_lines := 500 |} in
  let m := get_container_logs service request in
  existsb (fun c => negb (name_char c))
          (list_ascii_of_string (container_name request)) = true
  /\ common_helpers quiet_world = None
  /\ result_of (_validate_container_name (container_name request))
               (start quiet_world) = Return true
  /\ result_of m (start quiet_world)
     = Return (Failure ("Container 'ddc" ++ nl
                        ++ "' not found and no log files available") 404)
  /\ In (EngineQuery ("ddc" ++ nl) 500) (calls_of m quiet_world)
  /\ In (PathExists "/app/logs/bot.log") (calls_of m quiet_world).
Proof.
  repeat split; try reflexivity.
  - vm_compute. left; reflexivity.
  - vm_compute. right; right; left; reflexivity.
Qed.

(* ===================================================================== *)
(** ** Unsupported log types, clearing, determinism *)
(* ===================================================================== *)

(** C10.  For a request whose log type is [CONTAINER] or [ACTION],
    [get_filtered_logs] returns the failure with status 400 whose error
    names the log type, and it leaves the state as it found it: no file is
    probed or read and the engine is not queried. *)
Theorem get_filtered_logs_unsupported (self : ContainerLogService)
  (request : FilteredLogRequest) (s : State) :
  log_type request = CONTAINER \/ log_type request = ACTION ->
  get_filtered_logs self request s
  = (Return (Failure ("Unsupported log type: "
                      ++ LogType_str (log_type request)) 400), s)
  /\ contains (LogType_str (log_type request))
              ("Unsupported log type: " ++ LogType_str (log_type request))
     = true.
Proof.
  intros [H | H]; unfold get_filtered_logs, try_; rewrite H; simpl;
    split; reflexivity.
Qed.

Lemma get_filtered_logs_unsupported_witness :
  (log_type {| log_type := ACTION; filtered_max_lines := 500 |} = CONTAINER
   \/ log_type {| log_type := ACTION; filtered_max_lines := 500 |} = ACTION)
  /\ (get_filtered_logs service
        {| log_type := ACTION; filtered_max_lines := 500 |} (start quiet_world)
      = (Return (Failure "Unsupported log type: LogType.ACTION" 400),
         start quiet_world)
      /\ contains "LogType.ACTION" "Unsupported log type: LogType.ACTION"
         = true).
Proof.
  split; [right; reflexivity |].
  apply (get_filtered_logs_unsupported service
           {| log_type := ACTION; filtered_max_lines := 500 |}
           (start quiet_world)).
  right; reflexivity.
Defined.

(** [capitalize] on plain letters, on the empty text, and on the
    characters whose capital is not one Latin-1 character. *)
Example capitalize_examples :
  capitalize "container" = of_latin1 "Container"
  /\ capitalize "BOT logs" = of_latin1 "Bot logs"
  /\ capitalize "" = []
  /\ capitalize (String (ascii_of_N 223) "X") = of_latin1 "Ssx"
  /\ capitalize (String (ascii_of_N 181) "") = [924%N]
  /\ capitalize (String (ascii_of_N 255) "") = [376%N].
Proof. repeat split. Qed.



Example clear_logs_of_the_default :
  clear_logs service {| clear_log_type := JStr "container" |}
             (start quiet_world)
  = (Return {| success := true;
               content := None;
               data :=
                 Some [("success", PyBool true);
                       ("message",
                        PyStr (of_latin1 "Container logs cleared (Note: Docker container logs persist until container restart)"))];
               error := None;
               status_code := 200 |},
     start quiet_world).
Proof. reflexivity. Qed.


(** C9.  The result of [get_filtered_logs] is a function of the request
    and of the files and engine behind the service: two calls made in
    states with the same world return the same result, whatever happened
    before each of them; and a call leaves the world as it found it, so
    that a second call made right after a first is such a pair. *)
Theorem get_filtered_logs_repeatable (self : ContainerLogService)
  (request : FilteredLogRequest) (s1 s2 : State) :
  world s1 = world s2 ->
  result_of (get_filtered_logs self request) s1
  = result_of (get_filtered_logs self request) s2
  /\ world (state_after (get_filtered_logs self request) s1) = world s1
  /\ result_of (get_filtered_logs self request)
               (state_after (get_filtered_logs self request) s1)
     = result_of (get_filtered_logs self request) s1.
Proof.
  intros Hw.
  pose proof (stable_get_filtered_logs self request) as St.
  unfold result_of, state_after.
  rewrite (St s1), (St s2); simpl.
  rewrite (St (extend s1 _)); simpl.
  rewrite Hw. repeat split.
Qed.

Lemma get_filtered_logs_repeatable_witness :
  let request := {| log_type := BOT; filtered_max_lines := 500 |} in
  let s1 := start chatty_world in
  let s2 := extend (start chatty_world) [PathExists "/app/logs/bot.log"] in
  world s1 = world s2
  /\ (result_of (get_filtered_logs service request) s1
      = result_of (get_filtered_logs service request) s2
      /\ world (state_after (get_filtered_logs service request) s1) = world s1
      /\ result_of (get_filtered_logs service request)
                   (state_after (get_filtered_logs service request) s1)
         = result_of (get_filtered_logs service request) s1).
Proof.
  split; [reflexivity |].
  apply (get_filtered_logs_repeatable service
           {| log_type := BOT; filtered_max_lines := 500 |}
           (start chatty_world)
           (extend (start chatty_world) [PathExists "/app/logs/bot.log"])).
  reflexivity.
Defined.

Example chatty_world_bot_logs :
  result_of (get_filtered_logs service
               {| log_type := BOT; filtered_max_lines := 500 |})
            (start chatty_world)
  = Return (Success ("Slash commands synced" ++ nl ++ "cache refreshed")).
Proof. reflexivity. Qed.

(* ===================================================================== *)
(** ** Exceptions that reach the caller *)
(* ===================================================================== *)

(** C6, at two inputs where the code leaves the claim.
    - The Docker SDK cannot be imported: the exception clause of the
      synchronous query raises [UnboundLocalError], a class the handler of
      [get_container_logs] does not name.
    - The caller runs inside an event loop and both the engine and the
      pooled client fail with a transport error, an [OSError]: the
      synchronous query swallows it, the pooled attempt lets it through,
      and neither the clause for [RuntimeError] around that attempt nor the
      handler of [get_container_logs] names its class.
    In both the method raises to its caller and returns no result. *)
Theorem get_container_logs_raises :
  let request := {| container_name := "web"; max_lines := 500 |} in
  let transport_error := fun (_ : string) (_ : Z) => @Raise string OSError in
  result_of (get_container_logs service request)
            (start (without_sdk quiet_world))
  = Raise UnboundLocalError
  /\ catches [ImportError; AttributeError; TypeError; ValueError; RuntimeError]
             UnboundLocalError = false
  /\ result_of (get_container_logs service request)
               (start (inside_loop transport_error
                         (with_engine transport_error quiet_world)))
     = Raise OSError
  /\ calls_of (get_container_logs service request)
              (inside_loop transport_error
                 (with_engine transport_error quiet_world))
     = [EngineQuery "web" 500; PoolAcquire; PoolEnter; PoolQuery "web" 500].
Proof. repeat split. Qed.

(** C7, at the input where the code leaves the claim.  The bot log files
    are absent and the Docker SDK cannot be imported: the container-log
    step of the filtered fallback raises [UnboundLocalError], which neither
    [_get_filtered_container_logs] nor [get_filtered_logs] handles; the
    caller gets an exception in place of the placeholder. *)
Theorem filtered_fallback_raises_without_sdk :
  result_of (_get_filtered_container_logs service 500 bot_patterns
                                          "No bot logs found")
            (start (without_sdk quiet_world))
  = Raise UnboundLocalError
  /\ result_of (get_filtered_logs service
                  {| log_type := BOT; filtered_max_lines := 500 |})
               (start (without_sdk quiet_world))
     = Raise UnboundLocalError
  /\ catches [AttributeError; TypeError; RuntimeError; ValueError]
             UnboundLocalError = false.
Proof. repeat split. Qed.

(* ===================================================================== *)
(** ** Text with content *)
(* ===================================================================== *)

Lemma has_nonspace_lstrip (s : string) :
  has_nonspace (lstrip s) = has_nonspace s.
Proof.
  induction s as [| c r IH]; simpl; [reflexivity |].
  destruct (isspace c) eqn:E; simpl; [exact IH | now rewrite E].
Qed.

Lemma truthy_rstrip (s : string) : truthy (rstrip s) = has_nonspace s.
Proof.
  induction s as [| c r IH]; simpl; [reflexivity |].
  destruct (rstrip r) as [| c' r'] eqn:E; simpl in *.
  - rewrite <- IH. destruct (isspace c); reflexivity.
  - rewrite <- IH. now rewrite orb_true_r.
Qed.

(** The text is not empty once stripped exactly when it holds a character
    that is not white space. *)
Lemma truthy_strip (s : string) : truthy (strip s) = has_nonspace s.
Proof. unfold strip. now rewrite truthy_rstrip, has_nonspace_lstrip. Qed.

Lemma has_nonspace_truthy (s : string) :
  has_nonspace s = true -> truthy s = true.
Proof. destruct s; simpl; [discriminate | reflexivity]. Qed.

Lemma has_content_Some (c : string) :
  has_content (Some c) = has_nonspace c.
Proof.
  unfold has_content. rewrite truthy_strip.
  destruct (has_nonspace c) eqn:E; [| apply andb_false_r].
  now rewrite (has_nonspace_truthy c E).
Qed.

Lemma has_nonspace_app (a b : string) :
  has_nonspace (a ++ b) = (has_nonspace a || has_nonspace b)%bool.
Proof.
  induction a as [| c a IH]; simpl; [reflexivity |].
  now rewrite IH, orb_assoc.
Qed.

Lemma has_nonspace_prefix (p s : string) :
  String.prefix p s = true -> has_nonspace p = true -> has_nonspace s = true.
Proof.
  revert s; induction p as [| c p IH]; intros s Hp Hn;
    [discriminate Hn |].
  destruct s as [| d s]; simpl in Hp; [discriminate Hp |].
  destruct (ascii_dec c d) as [-> | _]; [| discriminate Hp].
  simpl in *. apply orb_true_iff in Hn as [Hc | Hr].
  - now rewrite Hc.
  - rewrite (IH s Hp Hr). apply orb_true_r.
Qed.

Lemma has_nonspace_contains (p s : string) :
  contains p s = true -> has_nonspace p = true -> has_nonspace s = true.
Proof.
  intros Hc Hn. induction s as [| d s IH].
  - simpl in Hc. rewrite orb_false_r in Hc.
    exact (has_nonspace_prefix p EmptyString Hc Hn).
  - simpl in Hc. apply orb_true_iff in Hc as [Hp | Hr].
    + exact (has_nonspace_prefix p (String d s) Hp Hn).
    + simpl. rewrite (IH Hr). apply orb_true_r.
Qed.

(** Lower-casing moves no character into or out of white space. *)
Lemma isspace_lower_char (c : ascii) : isspace (lower_char c) = isspace c.
Proof.
  destruct c as [[] [] [] [] [] [] [] []]; reflexivity.
Qed.

Lemma has_nonspace_lower (s : string) :
  has_nonspace (lower s) = has_nonspace s.
Proof.
  induction s as [| c r IH]; simpl; [reflexivity |].
  unfold lower in IH. now rewrite isspace_lower_char, IH.
Qed.

(** A line that matches a list of patterns, each of which holds a
    character that is not white space, holds one too. *)
Lemma line_matches_has_nonspace (patterns : list string) (line : string) :
  forallb has_nonspace patterns = true ->
  line_matches patterns line = true ->
  has_nonspace line = true.
Proof.
  intros Hp Hm. unfold line_matches in Hm.
  apply existsb_exists in Hm as (p & Hin & Hc).
  apply in_map_iff in Hin as (q & <- & Hq).
  rewrite <- has_nonspace_lower.
  apply (has_nonspace_contains (lower q)); [exact Hc |].
  rewrite has_nonspace_lower.
  rewrite forallb_forall in Hp. now apply Hp.
Qed.

Lemma has_nonspace_join_cons (sep x : string) (xs : list string) :
  has_nonspace x = true -> has_nonspace (join sep (x :: xs)) = true.
Proof.
  intros Hx. unfold join; simpl. destruct xs; [exact Hx |].
  now rewrite has_nonspace_app, Hx.
Qed.

(* ===================================================================== *)
(** ** Tails of a list *)
(* ===================================================================== *)

(** For a positive count the slice [l[-n:]] is the last [n] elements, all
    of [l] when it has fewer. *)
Lemma slice_from_last_lines {A : Type} (n : Z) (l : list A) :
  0 < n -> slice_from (- n) l = last_lines n l.
Proof.
  intros Hn. unfold slice_from, last_lines.
  replace (- n <? 0) with true by (symmetry; apply Z.ltb_lt; lia).
  f_equal. lia.
Qed.

Lemma last_lines_min {A : Type} (n : Z) (l : list A) :
  last_lines (Z.min (Z.of_nat (length l)) n) l = last_lines n l.
Proof. unfold last_lines. f_equal. lia. Qed.

Lemma recent_lines_last_lines (n : Z) (lines : list string) :
  0 < n -> recent_lines n lines = last_lines n lines.
Proof.
  intros Hn. unfold recent_lines.
  destruct (Z.of_nat (length lines) >? n) eqn:E.
  - now apply slice_from_last_lines.
  - unfold last_lines.
    replace (length lines - Z.to_nat n)%nat with 0%nat; [reflexivity |].
    rewrite Z.gtb_ltb in E. apply Z.ltb_ge in E. lia.
Qed.

Lemma last_lines_nonempty {A : Type} (n : Z) (l : list A) :
  0 < n -> l <> [] -> last_lines n l <> [].
Proof.
  intros Hn Hl. unfold last_lines. intros E.
  assert (0 < length l)%nat as Hlen
    by (destruct l; [congruence | simpl; lia]).
  apply (f_equal (@length A)) in E. rewrite length_skipn in E.
  change (@length A []) with 0%nat in E. lia.
Qed.

Lemma Forall_last_lines {A : Type} (P : A -> Prop) (n : Z) (l : list A) :
  Forall P l -> Forall P (last_lines n l).
Proof.
  intros H. unfold last_lines.
  rewrite <- (firstn_skipn (length l - Z.to_nat n) l) in H.
  now apply Forall_app in H.
Qed.

(* ===================================================================== *)
(** ** Reading the log files *)
(* ===================================================================== *)

(** Rewrites the result of a composed computation into the results of its
    parts. *)
Ltac denote :=
  repeat first
    [ rewrite result_try by solve_stable
    | rewrite result_bind by solve_stable
    | rewrite result_try_docker
    | rewrite result_asyncio_run
    | rewrite result_ret
    | rewrite result_raise ].

Lemma _read_log_file_result (w : World) (path : string) (n : Z) :
  result_of (_read_log_file path n) (start w) = read_result w path n.
Proof.
  unfold _read_log_file, read_result, result_of, try_, bind, os_path_exists,
    open_readlines, call, recent_lines; simpl.
  destruct (files w path) as [[t | e] |] eqn:E; simpl; rewrite ?E; simpl;
    try reflexivity.
  destruct e; reflexivity.
Qed.

Lemma _read_log_file_calls (w : World) (path : string) (n : Z) :
  calls_of (_read_log_file path n) w
  = PathExists path :: match files w path with
                       | Some _ => [FileOpen path]
                       | None => []
                       end.
Proof.
  unfold _read_log_file, calls_of, state_after, try_, bind, os_path_exists,
    open_readlines, call; simpl.
  destruct (files w path) as [[t | e] |] eqn:E; simpl; rewrite ?E; simpl;
    try reflexivity.
  destruct e; reflexivity.
Qed.

Lemma os_path_exists_result (w : World) (path : string) :
  result_of (os_path_exists path) (start w)
  = Return (match files w path with Some _ => true | None => false end).
Proof.
  unfold result_of, os_path_exists, call; simpl.
  now destruct (files w path).
Qed.

(** One turn of the loop over the paths of a log type. *)
Lemma first_log_file_cons (w : World) (p : string) (rest : list string)
  (n : Z) :
  result_of (first_log_file (p :: rest) n) (start w)
  = match files w p with
    | None => result_of (first_log_file rest n) (start w)
    | Some _ =>
        match read_result w p n with
        | Return file_content =>
            if has_content file_content then Return file_content
            else result_of (first_log_file rest n) (start w)
        | Raise e => Raise e
        end
    end.
Proof.
  cbn [first_log_file]. denote. rewrite os_path_exists_result.
  destruct (files w p) as [f |] eqn:E; cbn beta iota; [| reflexivity].
  denote. rewrite _read_log_file_result.
  destruct (read_result w p n) as [fc | e]; [| reflexivity].
  destruct (has_content fc); reflexivity.
Qed.

(** The loop calls the file system only. *)
Lemma first_log_file_calls (w : World) (paths : list string) (n : Z) :
  forallb is_file_event (calls_of (first_log_file paths n) w) = true.
Proof.
  induction paths as [| p rest IH]; [reflexivity |].
  cbn [first_log_file].
  rewrite calls_bind by solve_stable.
  rewrite os_path_exists_result.
  destruct (files w p) as [f |] eqn:E; cbn beta iota.
  - rewrite calls_bind by solve_stable.
    rewrite _read_log_file_calls, _read_log_file_result, E.
    destruct (read_result w p n) as [fc | e]; [| reflexivity].
    destruct (has_content fc); [reflexivity | exact IH].
  - exact IH.
Qed.

(** One turn of the loop over the log types. *)
Lemma any_log_file_cons (w : World) (log_type : string)
  (paths : list string) (rest : list (string * list string)) (n : Z) :
  result_of (any_log_file ((log_type, paths) :: rest) n) (start w)
  = match result_of (first_log_file paths n) (start w) with
    | Return (Some file_content) => Return (Some (log_type, file_content))
    | Return None => result_of (any_log_file rest n) (start w)
    | Raise e => Raise e
    end.
Proof.
  cbn [any_log_file]. denote.
  destruct (result_of (first_log_file paths n) (start w)) as [[fc |] | e];
    reflexivity.
Qed.

(** What the loop over the paths returns has content. *)
Lemma first_log_file_has_content (w : World) (paths : list string) (n : Z)
  (c : string) :
  result_of (first_log_file paths n) (start w) = Return (Some c) ->
  has_nonspace c = true.
Proof.
  induction paths as [| p rest IH]; [discriminate |].
  rewrite first_log_file_cons.
  destruct (files w p); [| exact IH].
  destruct (read_result w p n) as [fc | e]; [| discriminate].
  destruct (has_content fc) eqn:E; [| exact IH].
  intros [= ->]. now rewrite has_content_Some in E.
Qed.

Lemma any_log_file_has_content (w : World)
  (items : list (string * list string)) (n : Z) (log_type c : string) :
  result_of (any_log_file items n) (start w) = Return (Some (log_type, c)) ->
  has_nonspace c = true.
Proof.
  induction items as [| [k paths] rest IH]; [discriminate |].
  rewrite any_log_file_cons.
  destruct (result_of (first_log_file paths n) (start w)) as [[fc |] | e] eqn:E;
    [| exact IH | discriminate].
  intros [= _ ->]. exact (first_log_file_has_content w paths n c E).
Qed.

(** When the loop over the log types finds nothing, the loop over the
    paths of any one type finds nothing. *)
Lemma any_log_file_none (w : World) (items : list (string * list string))
  (n : Z) (key : string) :
  result_of (any_log_file items n) (start w) = Return None ->
  result_of (first_log_file (dict_get key [] items) n) (start w) = Return None.
Proof.
  unfold dict_get.
  induction items as [| [k paths] rest IH]; [reflexivity |].
  rewrite any_log_file_cons. cbn [dict_lookup].
  destruct (result_of (first_log_file paths n) (start w)) as [[fc |] | e] eqn:E;
    try discriminate.
  intros H. destruct (String.eqb k key); [exact E | exact (IH H)].
Qed.

(* ===================================================================== *)
(** ** What the engine attempts return *)
(* ===================================================================== *)

Lemma _validate_container_name_calls (w : World) (name : string) :
  calls_of (_validate_container_name name) w = [].
Proof.
  unfold _validate_container_name, calls_of, state_after, try_, bind,
    import_validate_container_name, pure_call; simpl.
  destruct (common_helpers w) as [f |]; simpl; [| reflexivity].
  destruct (f name) as [b | e]; simpl; [reflexivity |].
  destruct e; reflexivity.
Qed.

Lemma _get_container_logs_sync_result (w : World) (name : string) (n : Z) :
  result_of (_get_container_logs_sync name n) (start w)
  = if docker_sdk w
    then Return (match engine_logs w name n with
                 | Return logs => Some logs
                 | Raise _ => None
                 end)
    else Raise UnboundLocalError.
Proof.
  unfold _get_container_logs_sync. rewrite result_try_docker.
  destruct (docker_sdk w); [| reflexivity].
  unfold result_of, try_, bind, call; simpl.
  destruct (engine_logs w name n) as [logs | e]; simpl; [reflexivity |].
  destruct e; reflexivity.
Qed.

Lemma _get_container_logs_sync_calls (w : World) (name : string) (n : Z) :
  calls_of (_get_container_logs_sync name n) w
  = if docker_sdk w then [EngineQuery name n] else [].
Proof.
  unfold _get_container_logs_sync. rewrite calls_try_docker.
  destruct (docker_sdk w); [| reflexivity].
  unfold calls_of, state_after, try_, bind, call; simpl.
  destruct (engine_logs w name n) as [logs | e]; simpl; [reflexivity |].
  destruct e; reflexivity.
Qed.

Section Ensures.

Context {A B : Type}.
Variable w : World.

Lemma ensures_ret (a : A) (Q : A -> Prop) : Q a -> ensures (ret a) w Q.
Proof. intros H b [= <-]. exact H. Qed.

Lemma ensures_raise (e : exn) (Q : A -> Prop) : ensures (raise e) w Q.
Proof. intros b [=]. Qed.

Lemma ensures_weaken (m : M A) (P Q : A -> Prop) :
  ensures m w P -> (forall a, P a -> Q a) -> ensures m w Q.
Proof. intros Hm HPQ a Ha. apply HPQ, Hm, Ha. Qed.

Lemma ensures_bind (m : M A) (k : A -> M B) (P : A -> Prop) (Q : B -> Prop) :
  stable m -> (forall a, stable (k a)) ->
  ensures m w P ->
  (forall a, P a -> ensures (k a) w Q) ->
  ensures (bind m k) w Q.
Proof.
  intros Sm Sk Hm Hk b. rewrite (result_bind w m k Sm Sk).
  destruct (result_of m (start w)) as [a | e] eqn:E; [| discriminate].
  apply (Hk a (Hm a E)).
Qed.

Lemma ensures_dispatch (clauses : list (list exn * (exn -> M A)))
  (Q : A -> Prop) :
  Forall (fun cl => forall e, ensures (snd cl e) w Q) clauses ->
  forall e, ensures (dispatch clauses e) w Q.
Proof.
  induction 1 as [| [classes handler] rest Hh _ IH]; intros e; simpl.
  - apply ensures_raise.
  - destruct (catches classes e); [apply Hh | apply IH].
Qed.

Lemma ensures_try (body : M A) (clauses : list (list exn * (exn -> M A)))
  (Q : A -> Prop) :
  stable body ->
  Forall (fun cl => forall e, stable (snd cl e)) clauses ->
  ensures body w Q ->
  Forall (fun cl => forall e, ensures (snd cl e) w Q) clauses ->
  ensures (try_ body clauses) w Q.
Proof.
  intros Sb Sc Hb Hc a. rewrite (result_try w body clauses Sb Sc).
  destruct (result_of body (start w)) as [a' | e] eqn:E.
  - intros [= <-]. exact (Hb a' E).
  - apply (ensures_dispatch clauses Q Hc e).
Qed.

Lemma ensures_try_docker (body : M A)
  (clauses : list (list exn * (exn -> M A))) (Q : A -> Prop) :
  ensures (try_ body clauses) w Q ->
  ensures (try_docker body clauses) w Q.
Proof.
  intros H a. rewrite result_try_docker.
  destruct (docker_sdk w); [apply H | discriminate].
Qed.

Lemma ensures_asyncio_run (coro : M A) (Q : A -> Prop) :
  ensures coro w Q -> ensures (asyncio_run coro) w Q.
Proof.
  intros H a. rewrite result_asyncio_run.
  destruct (running_loop w); [discriminate | apply H].
Qed.

End Ensures.

(** Opens a goal on the clauses of a [try] into one goal per clause. *)
Ltac each_clause :=
  repeat first [ apply Forall_nil
               | apply Forall_cons; [intros ?; cbn [snd] |] ].

(** The synchronous attempt hands over what the engine returned. *)
Lemma _get_container_logs_sync_ensures (w : World) (name : string) (n : Z) :
  ensures (_get_container_logs_sync name n) w
          (fun o => forall logs, o = Some logs ->
                                 engine_logs w name n = Return logs).
Proof.
  intros o. rewrite _get_container_logs_sync_result.
  destruct (docker_sdk w); [| discriminate].
  destruct (engine_logs w name n) as [l | e]; intros [= <-] logs [=].
  now subst.
Qed.

(** The pooled attempt hands over what the pooled client returned. *)
Lemma _fetch_container_logs_async_ensures (w : World) (name : string)
  (n : Z) :
  ensures (_fetch_container_logs_async name n) w
          (fun o => forall logs, o = Some logs ->
                                 pool_logs w name n = Return logs).
Proof.
  unfold _fetch_container_logs_async.
  apply ensures_try_docker, ensures_try; [solve_stable | solve_stable | |].
  - intros o. unfold result_of, bind, call; simpl.
    destruct (pool_logs w name n) as [l | e]; simpl; [| discriminate].
    intros [= <-] logs [= ->]. reflexivity.
  - each_clause;
      first [apply ensures_raise | apply ensures_ret; discriminate].
Qed.

Lemma _get_container_logs_service_first_ensures (w : World) (name : string)
  (n : Z) :
  ensures (_get_container_logs_service_first name n) w
          (fun o => forall logs, o = Some logs ->
                                 pool_logs w name n = Return logs).
Proof.
  unfold _get_container_logs_service_first.
  apply ensures_try; [solve_stable | solve_stable | |].
  - apply ensures_bind with (P := fun _ => True);
      [solve_stable | solve_stable | easy |].
    intros ctx _. destruct (negb ctx).
    + apply ensures_ret; discriminate.
    + apply ensures_bind with (P := fun _ => True);
        [solve_stable | solve_stable | easy |].
      intros _ _. apply _fetch_container_logs_async_ensures.
  - each_clause. apply ensures_ret; discriminate.
Qed.

(** The pooled attempt never raises a class its own handler names. *)
Lemma _get_container_logs_service_first_raises (w : World) (name : string)
  (n : Z) (e : exn) :
  result_of (_get_container_logs_service_first name n) (start w) = Raise e ->
  catches [AttributeError; TypeError; RuntimeError] e = false.
Proof.
  unfold _get_container_logs_service_first.
  rewrite result_try by solve_stable.
  match goal with |- context [match ?r with _ => _ end] => destruct r as [a | e'] end;
    [discriminate |].
  cbn [dispatch]. destruct (catches _ e') eqn:E; [discriminate |].
  unfold result_of, raise; simpl. intros [= <-]. exact E.
Qed.

(* ===================================================================== *)
(** ** The own container is served from its log file *)
(* ===================================================================== *)

Lemma first_log_file_usable (w : World) (n : Z) (paths : list string)
  (c : string) :
  0 < n ->
  first_usable w n paths = Some c ->
  result_of (first_log_file paths n) (start w) = Return (Some c).
Proof.
  intros Hn. induction paths as [| p rest IH]; [discriminate |].
  rewrite first_log_file_cons. cbn [first_usable]. unfold read_result.
  destruct (files w p) as [[t | e] |]; [| | exact IH].
  - rewrite has_content_Some, (recent_lines_last_lines n _ Hn).
    destruct (has_nonspace _); [now intros [= ->] | exact IH].
  - replace (catches [OSError; OSError; PermissionError; UnicodeDecodeError] e)
      with (catches [OSError; UnicodeDecodeError] e) by (destruct e; reflexivity).
    destruct (catches _ e); [exact IH | discriminate].
Qed.

Lemma file_events_not_engine (l : list event) :
  forallb is_file_event l = true -> existsb is_engine_event l = false.
Proof.
  induction l as [| ev l IH]; [reflexivity |]; simpl.
  intros H. apply andb_true_iff in H as [Hev Hl].
  rewrite (IH Hl). destruct ev; simpl in *; congruence.
Qed.

(** C2 as stated fails.  The request names the own container and asks for
    one line; the first configured file exists and holds text that is not
    white space, but its last line is blank.  The service passes the file
    over, queries the engine and returns the engine's text, not the last
    line of the file. *)
Lemma own_log_file_with_blank_tail :
  let request := {| container_name := "ddc"; max_lines := 1 |} in
  let text := "boot ok" ++ nl ++ nl in
  container_name request = default_container service
  /\ result_of (_validate_container_name (container_name request))
               (start blank_tail_world) = Return true
  /\ dict_get "container" [] (log_paths service)
     = ["/app/logs/supervisord.log"; "/var/log/supervisor/supervisord.log"]
  /\ files blank_tail_world "/app/logs/supervisord.log" = Some (Text text)
  /\ truthy (strip text) = true
  /\ result_of (get_container_logs service request) (start blank_tail_world)
     <> Return (Success (join "" (last_lines 1 (readlines text))))
  /\ result_of (get_container_logs service request) (start blank_tail_world)
     = Return (Success ("from the engine" ++ nl))
  /\ existsb is_engine_event
       (calls_of (get_container_logs service request) blank_tail_world)
     = true.
Proof. repeat split; vm_compute; discriminate. Qed.

(** C2, amended.  For a request whose name passes the validation and is
    the service's own container, and whose line count is positive: when
    some configured 'container' path exists, can be read and holds text
    that is not white space among its last [max_lines] lines,
    [get_container_logs] returns Success with the last [max_lines] lines
    of the first such file, and no call reaches the engine or the client
    pool. *)
Theorem own_container_logs_from_file (self : ContainerLogService)
  (request : ContainerLogRequest) (w : World) (c : string) :
  result_of (_validate_container_name (container_name request)) (start w)
  = Return true ->
  container_name request = default_container self ->
  0 < max_lines request ->
  first_usable w (max_lines request)
               (dict_get "container" [] (log_paths self)) = Some c ->
  result_of (get_container_logs self request) (start w) = Return (Success c)
  /\ existsb is_engine_event (calls_of (get_container_logs self request) w)
     = false.
Proof.
  intros Hv Hname Hn Hc.
  apply (first_log_file_usable w _ _ c Hn) in Hc.
  apply String.eqb_eq in Hname.
  unfold get_container_logs. split.
  - denote. rewrite Hv. cbn beta iota. cbn [negb]. cbn iota.
    denote. rewrite Hname, Hc. reflexivity.
  - rewrite calls_try by solve_stable.
    rewrite calls_bind by solve_stable.
    rewrite _validate_container_name_calls.
    denote. rewrite Hv. cbn beta iota. cbn [negb]. cbn iota.
    rewrite calls_bind by solve_stable.
    denote. rewrite Hname, Hc. cbn beta iota.
    rewrite calls_ret, app_nil_r, app_nil_r. cbn [app].
    apply file_events_not_engine, first_log_file_calls.
Qed.

Lemma own_container_logs_from_file_witness :
  let request := {| container_name := "ddc"; max_lines := 1 |} in
  let c := "success: bot entered RUNNING" ++ nl in
  result_of (_validate_container_name (container_name request))
            (start own_log_world) = Return true
  /\ container_name request = default_container service
  /\ 0 < max_lines request
  /\ first_usable own_log_world (max_lines request)
                  (dict_get "container" [] (log_paths service)) = Some c
  /\ (result_of (get_container_logs service request) (start own_log_world)
      = Return (Success c)
      /\ existsb is_engine_event
           (calls_of (get_container_logs service request) own_log_world)
         = false).
Proof.
  split; [reflexivity |]. split; [reflexivity |]. split; [reflexivity |].
  split; [reflexivity |].
  apply (own_container_logs_from_file service
           {| container_name := "ddc"; max_lines := 1 |} own_log_world
           ("success: bot entered RUNNING" ++ nl));
    reflexivity.
Defined.

Example own_log_world_500_lines :
  get_container_logs service {| container_name := "ddc"; max_lines := 500 |}
                     (start own_log_world)
  = (Return (Success ("spawned: bot" ++ nl ++ "success: bot entered RUNNING"
                      ++ nl)),
     {| world := own_log_world;
        trace := [PathExists "/app/logs/supervisord.log";
                  PathExists "/app/logs/supervisord.log";
                  FileOpen "/app/logs/supervisord.log"] |}).
Proof. reflexivity. Qed.

(* ===================================================================== *)
(** ** Successful results and their content *)
(* ===================================================================== *)

(** C3 as stated fails.  The engine knows the container and returns the
    empty text; [get_container_logs] passes it on as a successful result
    whose content is empty. *)
Lemma empty_engine_logs_are_a_success :
  let request := {| container_name := "web"; max_lines := 500 |} in
  engine_logs silent_container_world "web" 500 = Return ""
  /\ result_of (get_container_logs service request)
               (start silent_container_world)
     = Return (Success "")
  /\ success (Success "") = true
  /\ truthy (strip "") = false.
Proof. repeat split. Qed.

Lemma success_content_ensures (P : string -> Prop) (m : M LogResult)
  (w : World) :
  ensures m w (fun r => success_content P (Return r)) ->
  success_content P (result_of m (start w)).
Proof.
  intros H. destruct (result_of m (start w)) as [r | e] eqn:E;
    [exact (H r E) | exact I].
Qed.

Lemma filtered_text_has_nonspace (n : Z) (patterns : list string)
  (msg logs : string) :
  0 < n ->
  forallb has_nonspace patterns = true ->
  has_nonspace msg = true ->
  has_nonspace (filtered_text n patterns msg logs) = true.
Proof.
  intros Hn Hp Hm. unfold filtered_text.
  destruct (filter _ _) as [| x xs] eqn:E; [exact Hm |].
  rewrite (slice_from_last_lines n _ Hn).
  assert (Forall (fun l => has_nonspace l = true) (x :: xs)) as Hall.
  { rewrite <- E. apply Forall_forall. intros l Hl.
    apply filter_In in Hl as [_ Hl].
    exact (line_matches_has_nonspace patterns l Hp Hl). }
  apply (Forall_last_lines _ n) in Hall.
  pose proof (last_lines_nonempty n (x :: xs) Hn) as Hne.
  destruct (last_lines n (x :: xs)) as [| y ys]; [now exfalso; apply Hne |].
  apply has_nonspace_join_cons. now inversion Hall.
Qed.

(** With a positive line count, the filtered fallback returns only
    successes whose content holds text: the placeholder or matching
    lines. *)
Lemma _get_filtered_container_logs_ensures (self : ContainerLogService)
  (w : World) (n : Z) (patterns : list string) (msg : string) :
  0 < n ->
  forallb has_nonspace patterns = true ->
  has_nonspace msg = true ->
  ensures (_get_filtered_container_logs self n patterns msg) w
          (fun r => exists c, r = Success c /\ has_nonspace c = true).
Proof.
  intros Hn Hp Hm. unfold _get_filtered_container_logs.
  apply ensures_try; [solve_stable | solve_stable | |].
  - apply ensures_bind with (P := fun _ => True);
      [solve_stable | solve_stable | easy |].
    intros o _.
    apply ensures_bind with (P := fun _ => True);
      [solve_stable | solve_stable | easy |].
    intros [logs |] _; apply ensures_ret.
    + exists (filtered_text n patterns msg logs). split.
      * unfold filtered_text. now destruct (filter _ _).
      * now apply filtered_text_has_nonspace.
    + now exists msg.
  - each_clause. apply ensures_ret. now exists msg.
Qed.

Lemma dict_getitem_bind_ensures {B : Type} (w : World) (key : string)
  (d : list (string * list string)) (k : list string -> M B)
  (Q : B -> Prop) :
  (forall paths, stable (k paths)) ->
  (forall paths, ensures (k paths) w Q) ->
  ensures (bind (dict_getitem key d) k) w Q.
Proof.
  intros Sk Hk.
  apply ensures_bind with (P := fun _ => True); [solve_stable | exact Sk | easy |].
  intros paths _. apply Hk.
Qed.

(** The shape shared by the four methods that read the files of one log
    type and fall back on the filtered container logs. *)
Lemma category_logs_ensures (self : ContainerLogService) (w : World)
  (key : string) (n : Z) (patterns : list string) (msg : string) :
  0 < n ->
  forallb has_nonspace patterns = true ->
  has_nonspace msg = true ->
  ensures (paths <- dict_getitem key (log_paths self) ;;
           found <- first_log_file paths n ;;
           match found with
           | Some file_content => ret (Success file_content)
           | None => _get_filtered_container_logs self n patterns msg
           end) w
          (fun r => exists c, r = Success c /\ has_nonspace c = true).
Proof.
  intros Hn Hp Hm.
  apply dict_getitem_bind_ensures; [solve_stable |].
  intros paths.
  apply ensures_bind
    with (P := fun o => forall c, o = Some c -> has_nonspace c = true);
    [solve_stable | solve_stable | |].
  - intros o Ho c ->. exact (first_log_file_has_content w paths n c Ho).
  - intros [c |] Hc.
    + apply ensures_ret. exists c. split; [reflexivity | now apply Hc].
    + now apply _get_filtered_container_logs_ensures.
Qed.

Lemma get_filtered_logs_ensures (self : ContainerLogService) (w : World)
  (request : FilteredLogRequest) :
  0 < filtered_max_lines request ->
  ensures (get_filtered_logs self request) w
          (fun r => success_content (fun c => truthy (strip c) = true)
                                    (Return r)).
Proof.
  intros Hn. unfold get_filtered_logs.
  apply ensures_try; [solve_stable | solve_stable | |].
  - assert (forall m : M LogResult,
               ensures m w (fun r => exists c, r = Success c
                                               /\ has_nonspace c = true) ->
               ensures m w (fun r => success_content
                                       (fun c => truthy (strip c) = true)
                                       (Return r))) as Hw.
    { intros m H. apply (ensures_weaken w m _ _ H).
      intros r (c & -> & Hc). simpl. now rewrite truthy_strip. }
    destruct (log_type request);
      try (apply Hw; now apply category_logs_ensures);
      now apply ensures_ret.
  - each_clause. now apply ensures_ret.
Qed.

Lemma any_log_file_fallback_ensures (self : ContainerLogService) (w : World)
  (request : ContainerLogRequest) (banner : string -> string -> string)
  (failure : LogResult) :
  (forall log_type rest, has_nonspace (banner log_type rest) = true) ->
  success failure = false ->
  ensures (found <- any_log_file (log_paths self) (max_lines request) ;;
           match found with
           | Some (log_type, file_content) =>
               ret (Success (banner log_type file_content))
           | None => ret failure
           end) w
          (fun r => success_content (container_content w request) (Return r)).
Proof.
  intros Hb Hf.
  apply ensures_bind with (P := fun _ => True);
    [solve_stable | solve_stable | easy |].
  intros [[log_type c] |] _; apply ensures_ret; simpl.
  - left. rewrite truthy_strip. apply Hb.
  - now rewrite Hf.
Qed.

Lemma get_container_logs_ensures (self : ContainerLogService) (w : World)
  (request : ContainerLogRequest) :
  ensures (get_container_logs self request) w
          (fun r => success_content (container_content w request) (Return r)).
Proof.
  unfold get_container_logs.
  set (name := container_name request). set (n := max_lines request).
  apply ensures_try; [solve_stable | solve_stable | |].
  - apply ensures_bind with (P := fun _ => True);
      [solve_stable | solve_stable | easy |].
    intros valid _. destruct (negb valid); [now apply ensures_ret |].
    apply ensures_bind
      with (P := fun o => forall c, o = Some c -> has_nonspace c = true);
      [solve_stable | solve_stable | |].
    { destruct (String.eqb name (default_container self)).
      - intros o Ho c ->. exact (first_log_file_has_content w _ n c Ho).
      - apply ensures_ret. discriminate. }
    intros [file_content |] Hown.
    { apply ensures_ret. simpl. left. rewrite truthy_strip. now apply Hown. }
    apply ensures_bind
      with (P := fun o => forall logs, o = Some logs ->
                                       engine_logs w name n = Return logs);
      [solve_stable | solve_stable
      | apply _get_container_logs_sync_ensures |].
    intros o Ho.
    apply ensures_bind
      with (P := fun o' => forall logs, o' = Some logs ->
                  engine_logs w name n = Return logs
                  \/ pool_logs w name n = Return logs);
      [solve_stable | solve_stable | |].
    { pose proof (_get_container_logs_service_first_ensures w name n) as Hp.
      assert (ensures (_get_container_logs_service_first name n) w
                (fun o' => forall logs, o' = Some logs ->
                   engine_logs w name n = Return logs
                   \/ pool_logs w name n = Return logs)) as Hp'.
      { apply (ensures_weaken w _ _ _ Hp). intros a Ha logs E.
        right. now apply Ha. }
      destruct o as [logs |].
      - apply ensures_ret. intros l E. left. now apply Ho.
      - apply ensures_try; [solve_stable | solve_stable | |].
        + apply ensures_bind with (P := fun _ => True);
            [solve_stable | solve_stable | easy |].
          intros _ _. exact Hp'.
        + each_clause.
          apply ensures_try; [solve_stable | solve_stable | |].
          * now apply ensures_asyncio_run.
          * each_clause.
            apply ensures_ret. discriminate. }
    intros [logs |] Hlogs.
    + apply ensures_ret. simpl. right. now apply Hlogs.
    + apply (any_log_file_fallback_ensures self w request
               (fun log_type file_content =>
                  "[Reading from " ++ log_type ++ " log file]"
                  ++ nl ++ nl ++ file_content)
               (Failure ("Container '" ++ name
                         ++ "' not found and no log files available") 404)).
      * reflexivity.
      * reflexivity.
  - each_clause.
    apply (any_log_file_fallback_ensures self w request
             (fun log_type file_content =>
                "[Reading from " ++ log_type
                ++ " log file - Docker API unavailable]"
                ++ nl ++ nl ++ file_content)
             (Failure "An unexpected error occurred" 500));
      reflexivity.
Qed.

(** A file whose tail is blank is passed over: the loop goes on with the
    next path. *)
Lemma blank_file_is_skipped (w : World) (p : string) (rest : list string)
  (n : Z) (t : string) :
  files w p = Some (Text t) ->
  has_nonspace (join "" (recent_lines n (readlines t))) = false ->
  result_of (first_log_file (p :: rest) n) (start w)
  = result_of (first_log_file rest n) (start w).
Proof.
  intros Hf Hb. rewrite first_log_file_cons. unfold read_result.
  rewrite Hf, has_content_Some, Hb. reflexivity.
Qed.

(** C3, amended.  With a positive line count every successful result of
    [get_filtered_logs] carries content that is not empty once stripped.
    Every successful result of [get_container_logs] carries such content
    or the text the engine (or the pooled client) returned for the
    request, which is passed on as it is.  A log file whose tail is empty
    or blank is never returned: what the loops over the paths and over
    the log types return holds text, and the loop over the paths goes on
    with the next path after a file whose tail is blank.  All of it holds
    in every world, whatever the files, the engine and the pool do. *)
Theorem success_carries_content (self : ContainerLogService) (w : World)
  (filtered : FilteredLogRequest) (request : ContainerLogRequest) :
  (0 < filtered_max_lines filtered ->
   success_content (fun c => truthy (strip c) = true)
                   (result_of (get_filtered_logs self filtered) (start w)))
  /\ success_content (container_content w request)
                     (result_of (get_container_logs self request) (start w))
  /\ (forall paths n c,
         result_of (first_log_file paths n) (start w) = Return (Some c) ->
         truthy (strip c) = true)
  /\ (forall items n log_type c,
         result_of (any_log_file items n) (start w)
         = Return (Some (log_type, c)) ->
         truthy (strip c) = true)
  /\ (forall p rest n t,
         files w p = Some (Text t) ->
         truthy (strip (join "" (recent_lines n (readlines t)))) = false ->
         result_of (first_log_file (p :: rest) n) (start w)
         = result_of (first_log_file rest n) (start w)).
Proof.
  split; [| split; [| split; [| split]]].
  - intros Hn. apply success_content_ensures.
    now apply get_filtered_logs_ensures.
  - apply success_content_ensures. apply get_container_logs_ensures.
  - intros paths n c H. rewrite truthy_strip.
    exact (first_log_file_has_content w paths n c H).
  - intros items n log_type c H. rewrite truthy_strip.
    exact (any_log_file_has_content w items n log_type c H).
  - intros p rest n t Hf Hb. rewrite truthy_strip in Hb.
    now apply blank_file_is_skipped with (t := t).
Qed.

Lemma success_carries_content_witness :
  let filtered := {| log_type := BOT; filtered_max_lines := 500 |} in
  let request := {| container_name := "web"; max_lines := 500 |} in
  let own := {| container_name := "ddc"; max_lines := 1 |} in
  let p := "/app/logs/supervisord.log" in
  let rest := ["/var/log/supervisor/supervisord.log"] in
  let t := "boot ok" ++ nl ++ nl in
  success_content (fun c => truthy (strip c) = true)
    (result_of (get_filtered_logs service filtered)
               (start silent_container_world))
  /\ success_content (container_content silent_container_world request)
       (result_of (get_container_logs service request)
                  (start silent_container_world))
  /\ success_content (container_content blank_tail_world own)
       (result_of (get_container_logs service own) (start blank_tail_world))
  /\ files blank_tail_world p = Some (Text t)
  /\ truthy (strip (join "" (recent_lines 1 (readlines t)))) = false
  /\ result_of (first_log_file (p :: rest) 1) (start blank_tail_world)
     = result_of (first_log_file rest 1) (start blank_tail_world).
Proof.
  destruct (success_carries_content service silent_container_world
              {| log_type := BOT; filtered_max_lines := 500 |}
              {| container_name := "web"; max_lines := 500 |})
    as (Hfiltered & Hcontainer & _).
  destruct (success_carries_content service blank_tail_world
              {| log_type := BOT; filtered_max_lines := 500 |}
              {| container_name := "ddc"; max_lines := 1 |})
    as (_ & Hown & _ & _ & Hskip).
  split; [apply Hfiltered; reflexivity |].
  split; [exact Hcontainer |].
  split; [exact Hown |].
  split; [reflexivity |]. split; [reflexivity |].
  apply (Hskip "/app/logs/supervisord.log"
               ["/var/log/supervisor/supervisord.log"] 1
               ("boot ok" ++ nl ++ nl));
    reflexivity.
Defined.

(* ===================================================================== *)
(** ** The filtered fallback *)
(* ===================================================================== *)

(** C4 as stated fails.  The stream of the own container has three lines,
    one of which matches; one line is asked for.  The fallback asks the
    engine for the last two lines only, finds no match among them and
    returns the placeholder: neither the matching line of the stream, nor
    the empty selection of the text it received. *)
Lemma match_outside_the_window :
  let request := {| log_type := BOT; filtered_max_lines := 1 |} in
  let stream := ["Slash commands synced"; "idle"; "still idle"] in
  engine_logs early_match_world = engine_holding "ddc" stream
  /\ filter (line_matches bot_patterns) stream = ["Slash commands synced"]
  /\ engine_logs early_match_world "ddc" (1 * 2)
     = Return ("idle" ++ nl ++ "still idle" ++ nl)
  /\ filter (line_matches bot_patterns)
            (split_nl ("idle" ++ nl ++ "still idle" ++ nl)) = []
  /\ result_of (get_filtered_logs service request) (start early_match_world)
     = Return (Success "No bot logs found")
  /\ result_of (get_filtered_logs service request) (start early_match_world)
     <> Return (Success (join nl (last_lines (Z.min 1 1)
                                    (filter (line_matches bot_patterns)
                                            stream))))
  /\ result_of (get_filtered_logs service request) (start early_match_world)
     <> Return (Success (join nl [])).
Proof. repeat split; vm_compute; discriminate. Qed.

Lemma asyncio_get_running_loop_result (w : World) :
  result_of asyncio_get_running_loop (start w)
  = if running_loop w then Return tt else Raise RuntimeError.
Proof.
  unfold result_of, asyncio_get_running_loop; simpl.
  now destruct (running_loop w).
Qed.

(** With the Docker SDK at hand, the pooled attempt returns a text exactly
    when the pool hands out a client, the context is entered and the query
    is answered; it returns that answer. *)
Lemma pooled_attempt_text (w : World) (name : string) (n : Z) :
  docker_sdk w = true ->
  match result_of (_get_container_logs_service_first name n) (start w) with
  | Return o => o
  | Raise _ => None
  end = pooled_text w name n.
Proof.
  intros Hsdk.
  unfold pooled_text, _get_container_logs_service_first,
    _get_docker_client_async, _fetch_container_logs_async, try_docker,
    import_docker, result_of, try_, bind, call; simpl.
  destruct (client_pool w) as [[|] | e]; simpl.
  - destruct (pool_enter w) as [[] | e]; simpl.
    + rewrite Hsdk; simpl.
      destruct (pool_logs w name n) as [logs | e]; simpl;
        [reflexivity | destruct e; reflexivity].
    + destruct e; reflexivity.
  - reflexivity.
  - destruct e; reflexivity.
Qed.

(** With the Docker SDK at hand the filtered fallback always returns a
    success: the selection made in its log stream, or the placeholder when
    it got no stream. *)
Lemma _get_filtered_container_logs_stream (self : ContainerLogService)
  (w : World) (n : Z) (patterns : list string) (msg : string) :
  docker_sdk w = true ->
  result_of (_get_filtered_container_logs self n patterns msg) (start w)
  = Return (Success
              (match fallback_stream w (default_container self) (n * 2) with
               | Some logs => filtered_text n patterns msg logs
               | None => msg
               end)).
Proof.
  intros Hsdk. unfold _get_filtered_container_logs, fallback_stream. denote.
  rewrite _get_container_logs_sync_result, Hsdk.
  destruct (engine_logs w (default_container self) (n * 2)) as [logs | e];
    cbn beta iota.
  - denote. cbn beta iota. denote.
    unfold filtered_text. now destruct (filter _ _).
  - denote. rewrite asyncio_get_running_loop_result.
    destruct (running_loop w) eqn:Hloop; cbn beta iota; [reflexivity |].
    cbn [dispatch catches existsb subclass orb]. cbn beta iota. denote.
    rewrite Hloop.
    rewrite <- (pooled_attempt_text w (default_container self) (n * 2) Hsdk).
    destruct (result_of (_get_container_logs_service_first
                           (default_container self) (n * 2)) (start w))
      as [[logs |] | e']; cbn beta iota.
    + denote. unfold filtered_text. now destruct (filter _ _).
    + reflexivity.
    + reflexivity.
Qed.

(** C4, amended.  Let [logs] be the log stream the fallback gets to
    filter: what the engine answers to the synchronous query for the last
    [2 * max_lines] lines of the own container or, when that query fails
    and no event loop is running, what the pooled client answers to the
    same query; [max_lines] is positive and the Docker SDK can be
    imported.  When [K >= 1] lines of [logs] hold, whatever the case of
    their letters, one of the filter keywords, the fallback returns
    Success with exactly the last [min K max_lines] matching lines, in the
    order of [logs] and joined by line feeds.  When no line matches it
    returns the placeholder. *)
Theorem filtered_fallback_keeps_last_matches (self : ContainerLogService)
  (w : World) (n : Z) (patterns : list string) (msg logs : string) :
  let matching := filter (line_matches patterns) (split_nl logs) in
  let K := Z.of_nat (length matching) in
  0 < n ->
  docker_sdk w = true ->
  fallback_stream w (default_container self) (n * 2) = Some logs ->
  (1 <= K ->
   result_of (_get_filtered_container_logs self n patterns msg) (start w)
   = Return (Success (join nl (last_lines (Z.min K n) matching))))
  /\ (K = 0 ->
      result_of (_get_filtered_container_logs self n patterns msg) (start w)
      = Return (Success msg)).
Proof.
  intros matching K Hn Hsdk Hstream.
  rewrite (_get_filtered_container_logs_stream self w n patterns msg Hsdk).
  rewrite Hstream. unfold filtered_text. fold matching.
  destruct matching as [| x xs] eqn:E; split; intros HK.
  - simpl in K. lia.
  - reflexivity.
  - rewrite (slice_from_last_lines n _ Hn).
    unfold K. now rewrite last_lines_min.
  - unfold K in HK. simpl in HK. lia.
Qed.

Lemma filtered_fallback_keeps_last_matches_witness :
  let logs := "Slash commands synced" ++ nl ++ "cache refreshed" ++ nl in
  let matching := filter (line_matches bot_patterns) (split_nl logs) in
  let K := Z.of_nat (length matching) in
  let idle := "idle" ++ nl ++ "still idle" ++ nl in
  0 < 1
  /\ docker_sdk pooled_two_matches_world = true
  /\ engine_logs pooled_two_matches_world (default_container service) (1 * 2)
     = Raise TimeoutError
  /\ fallback_stream pooled_two_matches_world (default_container service)
                     (1 * 2) = Some logs
  /\ 1 <= K
  /\ result_of (_get_filtered_container_logs service 1 bot_patterns
                                             "No bot logs found")
               (start pooled_two_matches_world)
     = Return (Success (join nl (last_lines (Z.min K 1) matching)))
  /\ fallback_stream two_matches_world (default_container service) (1 * 2)
     = Some logs
  /\ result_of (_get_filtered_container_logs service 1 bot_patterns
                                             "No bot logs found")
               (start two_matches_world)
     = Return (Success (join nl (last_lines (Z.min K 1) matching)))
  /\ fallback_stream early_match_world (default_container service) (1 * 2)
     = Some idle
  /\ Z.of_nat (length (filter (line_matches bot_patterns) (split_nl idle)))
     = 0
  /\ result_of (_get_filtered_container_logs service 1 bot_patterns
                                             "No bot logs found")
               (start early_match_world)
     = Return (Success "No bot logs found").
Proof.
  destruct (filtered_fallback_keeps_last_matches service
              pooled_two_matches_world 1 bot_patterns "No bot logs found"
              ("Slash commands synced" ++ nl ++ "cache refreshed" ++ nl))
    as (Hpooled & _); [reflexivity | reflexivity | reflexivity |].
  destruct (filtered_fallback_keeps_last_matches service
              two_matches_world 1 bot_patterns "No bot logs found"
              ("Slash commands synced" ++ nl ++ "cache refreshed" ++ nl))
    as (Hsync & _); [reflexivity | reflexivity | reflexivity |].
  destruct (filtered_fallback_keeps_last_matches service
              early_match_world 1 bot_patterns "No bot logs found"
              ("idle" ++ nl ++ "still idle" ++ nl))
    as (_ & Hnone); [reflexivity | reflexivity | reflexivity |].
  split; [reflexivity |]. split; [reflexivity |]. split; [reflexivity |].
  split; [reflexivity |]. split; [vm_compute; discriminate |].
  split; [apply Hpooled; vm_compute; discriminate |].
  split; [reflexivity |].
  split; [apply Hsync; vm_compute; discriminate |].
  split; [reflexivity |]. split; [reflexivity |].
  apply Hnone. reflexivity.
Defined.

Example two_matches_world_one_line :
  result_of (get_filtered_logs service
               {| log_type := BOT; filtered_max_lines := 1 |})
            (start two_matches_world)
  = Return (Success "cache refreshed").
Proof. reflexivity. Qed.

(** With the Docker SDK at hand the fallback neither raises nor fails: it
    returns Success with the placeholder, or with the selection made in the
    text an engine attempt returned, which is the placeholder again when no
    line matches. *)
Lemma filtered_fallback_with_sdk (self : ContainerLogService) (w : World)
  (n : Z) (patterns : list string) (msg : string) :
  docker_sdk w = true ->
  result_of (_get_filtered_container_logs self n patterns msg) (start w)
  = Return (Success msg)
  \/ exists logs,
       result_of (_get_filtered_container_logs self n patterns msg) (start w)
       = Return (Success (filtered_text n patterns msg logs)).
Proof.
  intros Hsdk. unfold _get_filtered_container_logs. denote.
  rewrite _get_container_logs_sync_result, Hsdk.
  destruct (engine_logs w (default_container self) (n * 2)) as [logs | e];
    cbn beta iota.
  - right. exists logs. denote. cbn beta iota. denote.
    unfold filtered_text. now destruct (filter _ _).
  - denote. rewrite asyncio_get_running_loop_result.
    destruct (running_loop w) eqn:Hloop; cbn beta iota.
    + left. reflexivity.
    + cbn [dispatch catches existsb subclass orb]. cbn beta iota. denote.
      rewrite Hloop.
      destruct (result_of (_get_container_logs_service_first
                             (default_container self) (n * 2)) (start w))
        as [[logs |] | e'].
      * right. exists logs. cbn beta iota. denote.
        unfold filtered_text. now destruct (filter _ _).
      * left. reflexivity.
      * left. reflexivity.
Qed.

(* ===================================================================== *)
(** ** The status of an exhausted chain *)
(* ===================================================================== *)

(** C5 as stated fails.  The engine is reached and answers with an API
    error, the pooled client does the same, a third world times out, and
    no log file exists: the failure class is not "container not located",
    yet the result is the failure with status 404, not 500. *)
Lemma api_error_is_reported_not_found :
  let request := {| container_name := "web"; max_lines := 500 |} in
  let timeout := fun (_ : string) (_ : Z) => @Raise string TimeoutError in
  engine_logs api_error_world "web" 500 = Raise APIError
  /\ subclass APIError NotFound = false
  /\ result_of (get_container_logs service request) (start api_error_world)
     = Return (Failure "Container 'web' not found and no log files available"
                       404)
  /\ result_of (get_container_logs service request)
               (start (with_engine timeout quiet_world))
     = Return (Failure "Container 'web' not found and no log files available"
                       404)
  /\ status_code (Failure "Container 'web' not found and no log files available"
                          404) <> 500.
Proof. repeat split; vm_compute; discriminate. Qed.

Lemma catches_Exception (e : exn) : catches [Exception] e = true.
Proof. reflexivity. Qed.

(** C5, amended.  The name is valid, no log file yields content, and the
    synchronous engine query fails, with whatever class of exception:
    container not located, API error, transport error, timeout.  When the
    pooled attempt gives no logs either, the result is the failure with
    status 404.  The failure with status 500 is what comes out when that
    attempt, run from inside an event loop, raises an exception of a class
    the handler of [get_container_logs] names. *)
Theorem exhausted_chain_status (self : ContainerLogService)
  (request : ContainerLogRequest) (w : World) (e : exn) :
  let name := container_name request in
  let n := max_lines request in
  let pooled :=
    result_of (_get_container_logs_service_first name n) (start w) in
  result_of (_validate_container_name name) (start w) = Return true ->
  result_of (any_log_file (log_paths self) n) (start w) = Return None ->
  docker_sdk w = true ->
  engine_logs w name n = Raise e ->
  (forall logs, pooled <> Return (Some logs)) ->
  (forall e', running_loop w = true -> pooled = Raise e' ->
              catches [ImportError; AttributeError; TypeError; ValueError;
                       RuntimeError] e' = true) ->
  result_of (get_container_logs self request) (start w)
  = Return (if (running_loop w && raises pooled)%bool
            then Failure "An unexpected error occurred" 500
            else Failure ("Container '" ++ name
                          ++ "' not found and no log files available") 404).
Proof.
  intros name n pooled Hv Hfiles Hsdk He Hnone Hcaught.
  assert (result_of
            (if String.eqb name (default_container self)
             then first_log_file (dict_get "container" [] (log_paths self)) n
             else ret None) (start w) = Return None) as Hown.
  { destruct (String.eqb name (default_container self));
      [now apply any_log_file_none | reflexivity]. }
  unfold get_container_logs. fold name n.
  denote. rewrite Hv. cbn beta iota. cbn [negb]. cbn iota.
  denote. rewrite Hown. cbn beta iota.
  denote. rewrite _get_container_logs_sync_result, Hsdk, He. cbn beta iota.
  denote. rewrite asyncio_get_running_loop_result.
  unfold run_in_worker_thread. fold pooled.
  destruct (running_loop w) eqn:Hloop; cbn beta iota.
  - destruct pooled as [[logs |] | e'] eqn:Hp.
    + now destruct (Hnone logs).
    + cbn beta iota. denote. rewrite Hfiles. reflexivity.
    + pose proof (_get_container_logs_service_first_raises w name n e' Hp)
        as Hnot.
      assert (catches [RuntimeError] e' = false) as Hrt
        by (destruct e'; try reflexivity; discriminate Hnot).
      cbn [dispatch]. rewrite Hrt. cbn [dispatch]. denote. cbn beta iota.
      rewrite (Hcaught e' eq_refl eq_refl).
      denote. rewrite Hfiles. reflexivity.
  - cbn [dispatch catches existsb subclass orb].
    cbn beta iota. denote. rewrite Hloop. fold pooled.
    destruct pooled as [[logs |] | e'] eqn:Hp.
    + now destruct (Hnone logs).
    + cbn beta iota. denote. rewrite Hfiles. reflexivity.
    + cbn [dispatch]. rewrite catches_Exception.
      cbn beta iota. denote. rewrite Hfiles. reflexivity.
Qed.

Lemma exhausted_chain_status_witness :
  let request := {| container_name := "web"; max_lines := 500 |} in
  let w := api_error_world in
  let pooled :=
    result_of (_get_container_logs_service_first "web" 500) (start w) in
  result_of (_validate_container_name "web") (start w) = Return true
  /\ result_of (any_log_file (log_paths service) 500) (start w) = Return None
  /\ docker_sdk w = true
  /\ engine_logs w "web" 500 = Raise APIError
  /\ (forall logs, pooled <> Return (Some logs))
  /\ (forall e', running_loop w = true -> pooled = Raise e' ->
                 catches [ImportError; AttributeError; TypeError; ValueError;
                          RuntimeError] e' = true)
  /\ result_of (get_container_logs service request) (start w)
     = Return (Failure "Container 'web' not found and no log files available"
                       404).
Proof.
  split; [reflexivity |]. split; [reflexivity |]. split; [reflexivity |].
  split; [reflexivity |].
  split; [intros logs H; vm_compute in H; discriminate H |].
  split; [intros e' H; vm_compute in H; discriminate H |].
  apply (exhausted_chain_status service
           {| container_name := "web"; max_lines := 500 |}
           api_error_world APIError).
  - reflexivity.
  - reflexivity.
  - reflexivity.
  - reflexivity.
  - intros logs H; vm_compute in H; discriminate H.
  - intros e' H; vm_compute in H; discriminate H.
Defined.

(** Inside an event loop, a decoding error of the pooled client is a
    [ValueError]: it escapes the pooled attempt, the handler of
    [get_container_logs] takes it, finds no log file and answers 500. *)
Example pooled_error_inside_loop :
  let decode_error := fun (_ : string) (_ : Z) =>
                        @Raise string UnicodeDecodeError in
  result_of (get_container_logs service
               {| container_name := "web"; max_lines := 500 |})
            (start (inside_loop decode_error quiet_world))
  = Return (Failure "An unexpected error occurred" 500).
Proof. reflexivity. Qed.

(** The scenario of the specification: the engine does not know the
    container and no log file exists. *)
Example unknown_container_not_found :
  result_of (get_container_logs service
               {| container_name := "unknown123"; max_lines := 500 |})
            (start quiet_world)
  = Return (Failure ("Container 'unknown123' not found and no log files "
                     ++ "available") 404).
Proof. reflexivity. Qed.

(* ===================================================================== *)
(** ** When [get_container_logs] does return *)
(* ===================================================================== *)

Lemma first_log_file_returns (w : World) (paths : list string) (n : Z) :
  io_errors_only w ->
  exists o, result_of (first_log_file paths n) (start w) = Return o.
Proof.
  intros Hio. induction paths as [| p rest IH]; [now exists None |].
  rewrite first_log_file_cons. unfold read_result.
  destruct (files w p) as [[t | e] |] eqn:E; [| | exact IH].
  - destruct (has_content _); [eexists; reflexivity | exact IH].
  - replace (catches [OSError; OSError; PermissionError; UnicodeDecodeError] e)
      with true
      by (specialize (Hio p e E); destruct e; try reflexivity;
          discriminate Hio).
    exact IH.
Qed.

Lemma any_log_file_returns (w : World) (items : list (string * list string))
  (n : Z) :
  io_errors_only w ->
  exists o, result_of (any_log_file items n) (start w) = Return o.
Proof.
  intros Hio. induction items as [| [k paths] rest IH]; [now exists None |].
  rewrite any_log_file_cons.
  destruct (first_log_file_returns w paths n Hio) as [[c |] ->];
    [eexists; reflexivity | exact IH].
Qed.

(** Outside an event loop, with the Docker SDK at hand, a validation that
    answers and files that fail with I/O errors only, [get_container_logs]
    returns a result whatever the engine and the client pool do. *)
Lemma get_container_logs_returns (self : ContainerLogService)
  (request : ContainerLogRequest) (w : World) (valid : bool) :
  docker_sdk w = true ->
  running_loop w = false ->
  result_of (_validate_container_name (container_name request)) (start w)
  = Return valid ->
  io_errors_only w ->
  exists r, result_of (get_container_logs self request) (start w) = Return r.
Proof.
  intros Hsdk Hloop Hv Hio.
  unfold get_container_logs. denote. rewrite Hv. cbn beta iota.
  destruct valid; cbn [negb]; cbn iota; [| eexists; reflexivity].
  denote.
  assert (exists o,
             result_of
               (if String.eqb (container_name request) (default_container self)
                then first_log_file (dict_get "container" [] (log_paths self))
                                    (max_lines request)
                else ret None) (start w) = Return o) as [own ->].
  { destruct (String.eqb _ _);
      [now apply first_log_file_returns | now exists None]. }
  destruct own as [c |]; cbn beta iota; [eexists; reflexivity |].
  destruct (any_log_file_returns w (log_paths self) (max_lines request) Hio)
    as [found Hfound].
  denote. rewrite _get_container_logs_sync_result, Hsdk. cbn beta iota.
  destruct (engine_logs w (container_name request) (max_lines request))
    as [logs | e]; cbn beta iota.
  - denote. cbn beta iota. denote. eexists; reflexivity.
  - denote. rewrite asyncio_get_running_loop_result, Hloop. cbn beta iota.
    cbn [dispatch catches existsb subclass orb]. cbn beta iota.
    denote. rewrite Hloop.
    destruct (result_of (_get_container_logs_service_first _ _) (start w))
      as [[logs |] | e'].
    + cbn beta iota. denote. eexists; reflexivity.
    + cbn beta iota. denote. rewrite Hfound.
      destruct found as [[k c] |]; eexists; reflexivity.
    + cbn [dispatch]. rewrite catches_Exception. cbn beta iota. denote.
      rewrite Hfound. destruct found as [[k c] |]; eexists; reflexivity.
Qed.

(* ===================================================================== *)
(** ** Round trips of lines and text *)
(* ===================================================================== *)

Lemma append_empty_r (s : string) : s ++ "" = s.
Proof. induction s as [| c s IH]; simpl; [reflexivity | now rewrite IH]. Qed.

Lemma append_assoc (a b c : string) : (a ++ b) ++ c = a ++ b ++ c.
Proof. induction a as [| x a IH]; simpl; [reflexivity | now rewrite IH]. Qed.

Lemma join_empty_cons (x : string) (l : list string) :
  join "" (x :: l) = x ++ join "" l.
Proof.
  unfold join. destruct l; simpl; [now rewrite append_empty_r | reflexivity].
Qed.

Lemma join_empty_app (l1 l2 : list string) :
  join "" (l1 ++ l2)%list = join "" l1 ++ join "" l2.
Proof.
  induction l1 as [| x l1 IH]; [reflexivity |].
  change ((x :: l1) ++ l2)%list with (x :: (l1 ++ l2))%list.
  now rewrite !join_empty_cons, IH, append_assoc.
Qed.

(** Joining the lines [readlines] cuts gives the text back. *)
Lemma join_readlines (t : string) : join "" (readlines t) = t.
Proof.
  induction t as [| c r IH]; [reflexivity |].
  cbn [readlines]. destruct (Ascii.eqb c NL) eqn:E.
  - apply Ascii.eqb_eq in E. subst c.
    rewrite join_empty_cons, IH. reflexivity.
  - destruct (readlines r) as [| x xs].
    + simpl in IH. now subst r.
    + rewrite join_empty_cons in *. simpl. now rewrite IH.
Qed.

Lemma split_nl_nonempty (s : string) : split_nl s <> [].
Proof.
  induction s as [| c r IH]; simpl; [discriminate |].
  destruct (Ascii.eqb c NL); [discriminate |].
  destruct (split_nl r); discriminate.
Qed.

Lemma join_nl_cons (x y : string) (l : list string) :
  join nl (x :: y :: l) = x ++ nl ++ join nl (y :: l).
Proof. reflexivity. Qed.

(** Joining with line feeds the lines [split] cuts gives the text back. *)
Lemma join_split_nl (s : string) : join nl (split_nl s) = s.
Proof.
  induction s as [| c r IH]; [reflexivity |].
  cbn [split_nl]. pose proof (split_nl_nonempty r) as Hne.
  destruct (Ascii.eqb c NL) eqn:E.
  - apply Ascii.eqb_eq in E. subst c.
    destruct (split_nl r) as [| y ys]; [congruence |].
    rewrite join_nl_cons, IH. reflexivity.
  - destruct (split_nl r) as [| x xs]; [congruence |].
    destruct xs as [| y ys].
    + change (String c (join nl [x]) = String c r). now rewrite IH.
    + change (String c (join nl (x :: y :: ys)) = String c r).
      now rewrite IH.
Qed.

Lemma split_nl_no_nl (x : string) : has_nl x = false -> split_nl x = [x].
Proof.
  induction x as [| c r IH]; [reflexivity |]; simpl.
  intros H. apply orb_false_iff in H as [Hc Hr].
  now rewrite Hc, (IH Hr).
Qed.

Lemma split_nl_app_nl (x s : string) :
  has_nl x = false -> split_nl (x ++ nl ++ s) = x :: split_nl s.
Proof.
  induction x as [| c r IH]; [reflexivity |].
  cbn [split_nl append has_nl].
  intros H. apply orb_false_iff in H as [Hc Hr].
  now rewrite Hc, (IH Hr).
Qed.

(** No line that [split] cuts holds a line feed. *)
Lemma split_nl_lines (s : string) :
  Forall (fun x => has_nl x = false) (split_nl s).
Proof.
  induction s as [| c r IH]; simpl; [repeat constructor |].
  destruct (Ascii.eqb c NL) eqn:E; [now constructor |].
  destruct (split_nl r) as [| x xs]; [repeat constructor; simpl; now rewrite E |].
  inversion IH; subst. constructor; [| assumption].
  simpl. now rewrite E.
Qed.

(** Cutting the join of lines that hold no line feed gives the lines
    back. *)
Lemma split_join_nl (l : list string) :
  l <> [] -> Forall (fun x => has_nl x = false) l ->
  split_nl (join nl l) = l.
Proof.
  induction l as [| x l IH]; [congruence |].
  intros _ H. inversion H as [| ? ? Hx Hl]; subst.
  destruct l as [| y l].
  - now apply split_nl_no_nl.
  - rewrite join_nl_cons, (split_nl_app_nl _ _ Hx).
    f_equal. apply IH; [discriminate | assumption].
Qed.

Lemma length_last_lines {A : Type} (n : Z) (l : list A) :
  0 <= n -> (Z.of_nat (length (last_lines n l)) <= n).
Proof.
  intros Hn. unfold last_lines. rewrite length_skipn. lia.
Qed.

Lemma last_lines_suffix {A : Type} (n : Z) (l : list A) :
  exists dropped, l = (dropped ++ last_lines n l)%list.
Proof.
  unfold last_lines. exists (firstn (length l - Z.to_nat n) l).
  now rewrite firstn_skipn.
Qed.

(* ===================================================================== *)
(** ** [_read_log_file]: what comes back of a file *)
(* ===================================================================== *)

(** X1.  [_read_log_file] gives the whole text of a readable file back,
    unchanged, when the count is at least the number of its lines, and
    also when the count is 0 (the slice [lines[-0:]] is the whole list). *)
Theorem _read_log_file_whole_text (w : World) (path : string) (n : Z)
  (t : string) :
  files w path = Some (Text t) ->
  n = 0 \/ Z.of_nat (length (readlines t)) <= n ->
  result_of (_read_log_file path n) (start w) = Return (Some t).
Proof.
  intros Hf Hn. rewrite _read_log_file_result. unfold read_result.
  rewrite Hf. do 2 f_equal. rewrite <- (join_readlines t) at 2. f_equal.
  unfold recent_lines.
  destruct (Z.of_nat (length (readlines t)) >? n) eqn:E; [| reflexivity].
  apply Z.gtb_lt in E. destruct Hn as [-> | Hn]; [| lia].
  unfold slice_from. simpl. now rewrite Z.min_l by lia.
Qed.

Lemma _read_log_file_whole_text_witness :
  files own_log_world "/app/logs/supervisord.log"
  = Some (Text ("spawned: bot" ++ nl ++ "success: bot entered RUNNING" ++ nl))
  /\ (0 = 0 \/ Z.of_nat (length (readlines
                                   ("spawned: bot" ++ nl
                                    ++ "success: bot entered RUNNING" ++ nl)))
               <= 0)
  /\ result_of (_read_log_file "/app/logs/supervisord.log" 0)
               (start own_log_world)
     = Return (Some ("spawned: bot" ++ nl ++ "success: bot entered RUNNING"
                     ++ nl)).
Proof.
  split; [reflexivity |]. split; [left; reflexivity |].
  apply (_read_log_file_whole_text own_log_world "/app/logs/supervisord.log"
           0 ("spawned: bot" ++ nl ++ "success: bot entered RUNNING" ++ nl)).
  - reflexivity.
  - left; reflexivity.
Defined.

(** X2.  With a positive count [n], [_read_log_file] returns the last
    [min n len] lines of the file, [len] being the number of its lines:
    the text is that of the file with a prefix of whole lines cut off. *)
Theorem _read_log_file_tail (w : World) (path : string) (n : Z) (t : string) :
  0 < n ->
  files w path = Some (Text t) ->
  exists dropped kept,
    readlines t = (dropped ++ kept)%list
    /\ Z.of_nat (length kept) = Z.min n (Z.of_nat (length (readlines t)))
    /\ t = join "" dropped ++ join "" kept
    /\ result_of (_read_log_file path n) (start w)
       = Return (Some (join "" kept)).
Proof.
  intros Hn Hf.
  destruct (last_lines_suffix n (readlines t)) as [dropped Hd].
  exists dropped, (last_lines n (readlines t)). repeat split.
  - exact Hd.
  - unfold last_lines. rewrite length_skipn. lia.
  - rewrite <- join_empty_app, <- Hd. symmetry. apply join_readlines.
  - rewrite _read_log_file_result. unfold read_result. rewrite Hf.
    now rewrite (recent_lines_last_lines n _ Hn).
Qed.

Lemma _read_log_file_tail_witness :
  0 < 1
  /\ files own_log_world "/app/logs/supervisord.log"
     = Some (Text ("spawned: bot" ++ nl ++ "success: bot entered RUNNING"
                   ++ nl))
  /\ exists dropped kept,
       readlines ("spawned: bot" ++ nl ++ "success: bot entered RUNNING" ++ nl)
       = (dropped ++ kept)%list
       /\ Z.of_nat (length kept)
          = Z.min 1 (Z.of_nat (length (readlines
                                         ("spawned: bot" ++ nl
                                          ++ "success: bot entered RUNNING"
                                          ++ nl))))
       /\ "spawned: bot" ++ nl ++ "success: bot entered RUNNING" ++ nl
          = join "" dropped ++ join "" kept
       /\ result_of (_read_log_file "/app/logs/supervisord.log" 1)
                    (start own_log_world)
          = Return (Some (join "" kept)).
Proof.
  split; [reflexivity |]. split; [reflexivity |].
  apply (_read_log_file_tail own_log_world "/app/logs/supervisord.log" 1
           ("spawned: bot" ++ nl ++ "success: bot entered RUNNING" ++ nl));
    reflexivity.
Defined.

(** X3.  [_read_log_file] returns [None], and raises nothing, for a path
    that does not exist and for a file whose reading fails with an
    [OSError] of any kind; a path that does not exist is probed and never
    opened. *)
Theorem _read_log_file_unavailable (w : World) (path : string) (n : Z) :
  files w path = None
  \/ (exists e, files w path = Some (Unreadable e)
                /\ subclass e OSError = true) ->
  result_of (_read_log_file path n) (start w) = Return None
  /\ (files w path = None ->
      calls_of (_read_log_file path n) w = [PathExists path]).
Proof.
  intros H. split.
  - rewrite _read_log_file_result. unfold read_result.
    destruct H as [-> | (e & -> & He)]; [reflexivity |].
    destruct e; try discriminate He; reflexivity.
  - intros Hf. rewrite _read_log_file_calls. now rewrite Hf.
Qed.

Lemma _read_log_file_unavailable_witness :
  (files quiet_world "/app/logs/bot.log" = None
   \/ (exists e, files quiet_world "/app/logs/bot.log" = Some (Unreadable e)
                 /\ subclass e OSError = true))
  /\ (result_of (_read_log_file "/app/logs/bot.log" 500) (start quiet_world)
      = Return None
      /\ (files quiet_world "/app/logs/bot.log" = None ->
          calls_of (_read_log_file "/app/logs/bot.log" 500) quiet_world
          = [PathExists "/app/logs/bot.log"])).
Proof.
  split; [left; reflexivity |].
  apply (_read_log_file_unavailable quiet_world "/app/logs/bot.log" 500).
  left; reflexivity.
Defined.

(* ===================================================================== *)
(** ** The names the fallback pattern accepts *)
(* ===================================================================== *)

Lemma re_name_rest_spec (s : string) :
  re_name_rest s = true <->
  all_in_class s = true
  \/ exists b, s = b ++ nl /\ all_in_class b = true.
Proof.
  induction s as [| c r IH]; simpl.
  - split; [now left | reflexivity].
  - destruct (name_char c) eqn:Hc; simpl.
    + rewrite IH. split.
      * intros [H | (b & -> & Hb)]; [now left |].
        right. exists (String c b). simpl. now rewrite Hc.
      * intros [H | (b & Hs & Hb)]; [now left |].
        destruct b as [| c' b]; simpl in Hs.
        -- injection Hs as -> _. discriminate Hc.
        -- injection Hs as -> ->. simpl in Hb.
           apply andb_true_iff in Hb as [_ Hb]. right. now exists b.
    + split.
      * intros H. apply andb_true_iff in H as [Hn Hr].
        apply Ascii.eqb_eq in Hn. subst c.
        destruct r; [| discriminate Hr]. right. now exists EmptyString.
      * intros [H | (b & Hs & Hb)]; [discriminate H |].
        destruct b as [| c' b]; simpl in Hs.
        -- injection Hs as -> ->. reflexivity.
        -- injection Hs as -> _. simpl in Hb. rewrite Hc in Hb.
           discriminate Hb.
Qed.

Lemma re_match_name_spec (s : string) :
  re_match_name s = true <->
  class_only s = true
  \/ exists b, s = b ++ nl /\ class_only b = true.
Proof.
  unfold class_only. destruct s as [| c r]; simpl.
  - split; [discriminate |].
    intros [H | (b & Hs & Hb)]; [discriminate H |].
    destruct b; discriminate Hs.
  - destruct (name_char c) eqn:Hc; simpl.
    + rewrite re_name_rest_spec. split.
      * intros [H | (b & -> & Hb)]; [now left |].
        right. exists (String c b). simpl. now rewrite Hc.
      * intros [H | (b & Hs & Hb)]; [now left |].
        destruct b as [| c' b]; [discriminate Hb |].
        simpl in Hs, Hb. injection Hs as -> ->.
        apply andb_true_iff in Hb as [_ Hb]. right. now exists b.
    + split; [discriminate |].
      intros [H | (b & Hs & Hb)]; [discriminate H |].
      destruct b as [| c' b]; [discriminate Hb |].
      simpl in Hs, Hb. injection Hs as -> _. rewrite Hc in Hb.
      discriminate Hb.
Qed.

(** X4.  When the helper module cannot be imported,
    [_validate_container_name] calls no collaborator and accepts exactly
    the names that are not empty and made of characters of
    [[a-zA-Z0-9_.-]], and those names followed by one line feed; the empty
    name is refused. *)
Theorem _validate_container_name_accepts (w : World) (name : string) :
  common_helpers w = None ->
  calls_of (_validate_container_name name) w = []
  /\ (result_of (_validate_container_name name) (start w) = Return true
      \/ result_of (_validate_container_name name) (start w) = Return false)
  /\ (result_of (_validate_container_name name) (start w) = Return true <->
      class_only name = true
      \/ exists b, name = b ++ nl /\ class_only b = true).
Proof.
  intros Hh.
  destruct (_validate_container_name_fallback w name Hh) as [Hr Hc].
  rewrite Hr. repeat split.
  - exact Hc.
  - destruct (re_match_name name); [now left | now right].
  - intros [= H]. now apply re_match_name_spec.
  - intros H. f_equal. now apply re_match_name_spec.
Qed.

Lemma _validate_container_name_accepts_witness :
  common_helpers quiet_world = None
  /\ (calls_of (_validate_container_name "my-app_1.web") quiet_world = []
      /\ (result_of (_validate_container_name "my-app_1.web")
                    (start quiet_world) = Return true
          \/ result_of (_validate_container_name "my-app_1.web")
                       (start quiet_world) = Return false)
      /\ (result_of (_validate_container_name "my-app_1.web")
                    (start quiet_world) = Return true <->
          class_only "my-app_1.web" = true
          \/ exists b, "my-app_1.web" = b ++ nl /\ class_only b = true)).
Proof.
  split; [reflexivity |].
  apply (_validate_container_name_accepts quiet_world "my-app_1.web").
  reflexivity.
Defined.

(* ===================================================================== *)
(** ** The engine attempts: what is swallowed *)
(* ===================================================================== *)

(** X5.  With the Docker SDK at hand, [_get_container_logs_sync] makes one
    engine query and never raises: it returns the text of the engine, and
    [None] for any exception the engine raises, whatever its class. *)
Theorem _get_container_logs_sync_swallows (w : World) (name : string)
  (n : Z) :
  docker_sdk w = true ->
  result_of (_get_container_logs_sync name n) (start w)
  = Return (match engine_logs w name n with
            | Return logs => Some logs
            | Raise _ => None
            end)
  /\ calls_of (_get_container_logs_sync name n) w = [EngineQuery name n].
Proof.
  intros Hsdk.
  rewrite _get_container_logs_sync_result, _get_container_logs_sync_calls.
  now rewrite Hsdk.
Qed.

Lemma _get_container_logs_sync_swallows_witness :
  docker_sdk api_error_world = true
  /\ (result_of (_get_container_logs_sync "web" 500) (start api_error_world)
      = Return (match engine_logs api_error_world "web" 500 with
                | Return logs => Some logs
                | Raise _ => None
                end)
      /\ calls_of (_get_container_logs_sync "web" 500) api_error_world
         = [EngineQuery "web" 500]).
Proof.
  split; [reflexivity |].
  apply (_get_container_logs_sync_swallows api_error_world "web" 500).
  reflexivity.
Defined.

(** X6.  When the client pool gives no client - it returns a false value,
    or it fails with an [ImportError], [AttributeError], [TypeError] or
    [RuntimeError] - [_get_container_logs_service_first] returns [None]
    after that one call: the context is not entered and the engine is not
    queried. *)
Theorem _get_container_logs_service_first_no_client (w : World)
  (name : string) (n : Z) :
  client_pool w = Return false
  \/ (exists e, client_pool w = Raise e
                /\ catches [ImportError; AttributeError; TypeError;
                            RuntimeError] e = true) ->
  result_of (_get_container_logs_service_first name n) (start w)
  = Return None
  /\ calls_of (_get_container_logs_service_first name n) w = [PoolAcquire].
Proof.
  intros H.
  unfold _get_container_logs_service_first, _get_docker_client_async,
    result_of, calls_of, state_after, try_, bind, call; simpl.
  destruct H as [-> | (e & -> & He)]; simpl; [now split |].
  destruct e; try discriminate He; now split.
Qed.

Lemma _get_container_logs_service_first_no_client_witness :
  (client_pool quiet_world = Return false
   \/ (exists e, client_pool quiet_world = Raise e
                 /\ catches [ImportError; AttributeError; TypeError;
                             RuntimeError] e = true))
  /\ (result_of (_get_container_logs_service_first "web" 500)
                (start quiet_world) = Return None
      /\ calls_of (_get_container_logs_service_first "web" 500) quiet_world
         = [PoolAcquire]).
Proof.
  split; [right; exists ImportError; split; reflexivity |].
  apply (_get_container_logs_service_first_no_client quiet_world "web" 500).
  right; exists ImportError; split; reflexivity.
Defined.

(** X7.  An API error of the pooled client never leaves
    [_get_container_logs_service_first].  With a client at hand,
    [_fetch_container_logs_async] returns [None] when the container is not
    found and turns any other API error into a [RuntimeError];
    [_get_container_logs_service_first] handles that [RuntimeError] and
    returns [None] in both cases. *)
Theorem pooled_api_error_gives_none (w : World) (name : string) (n : Z)
  (e : exn) :
  docker_sdk w = true ->
  client_pool w = Return true ->
  pool_enter w = Return tt ->
  pool_logs w name n = Raise e ->
  subclass e APIError = true ->
  result_of (_fetch_container_logs_async name n) (start w)
  = (if subclass e NotFound then Return None else Raise RuntimeError)
  /\ result_of (_get_container_logs_service_first name n) (start w)
     = Return None
  /\ calls_of (_get_container_logs_service_first name n) w
     = [PoolAcquire; PoolEnter; PoolQuery name n].
Proof.
  intros Hsdk Hpool Henter Hlogs He.
  unfold _get_container_logs_service_first, _get_docker_client_async,
    _fetch_container_logs_async, try_docker, import_docker,
    result_of, calls_of, state_after, try_, bind, call; simpl.
  rewrite Hsdk, Hpool; simpl. rewrite Henter; simpl.
  rewrite Hsdk; simpl. rewrite Hlogs; simpl.
  destruct e; try discriminate He; repeat split.
Qed.

Lemma pooled_api_error_gives_none_witness :
  docker_sdk api_error_world = true
  /\ client_pool api_error_world = Return true
  /\ pool_enter api_error_world = Return tt
  /\ pool_logs api_error_world "web" 500 = Raise APIError
  /\ subclass APIError APIError = true
  /\ (result_of (_fetch_container_logs_async "web" 500)
                (start api_error_world)
      = (if subclass APIError NotFound then Return None
         else Raise RuntimeError)
      /\ result_of (_get_container_logs_service_first "web" 500)
                   (start api_error_world) = Return None
      /\ calls_of (_get_container_logs_service_first "web" 500)
                  api_error_world
         = [PoolAcquire; PoolEnter; PoolQuery "web" 500]).
Proof.
  split; [reflexivity |]. split; [reflexivity |]. split; [reflexivity |].
  split; [reflexivity |]. split; [reflexivity |].
  apply (pooled_api_error_gives_none api_error_world "web" 500 APIError);
    reflexivity.
Defined.

(* ===================================================================== *)
(** ** [get_container_logs]: the order of the sources *)
(* ===================================================================== *)

(** Rewrites the calls of a composed computation into the calls of its
    parts. *)
Ltac denote_calls :=
  repeat first
    [ rewrite calls_try by solve_stable
    | rewrite calls_bind by solve_stable
    | rewrite calls_try_docker
    | rewrite calls_asyncio_run
    | rewrite calls_ret ].

(** X8.  For a valid name that is not the service's own container, when
    the engine answers the query, [get_container_logs] returns Success
    with the text of the engine as it is, and the engine query is its only
    call: no log file is probed or read. *)
Theorem other_container_logs_from_engine (self : ContainerLogService)
  (request : ContainerLogRequest) (w : World) (logs : string) :
  result_of (_validate_container_name (container_name request)) (start w)
  = Return true ->
  container_name request <> default_container self ->
  docker_sdk w = true ->
  engine_logs w (container_name request) (max_lines request) = Return logs ->
  result_of (get_container_logs self request) (start w)
  = Return (Success logs)
  /\ calls_of (get_container_logs self request) w
     = [EngineQuery (container_name request) (max_lines request)].
Proof.
  intros Hv Hname Hsdk Hlogs.
  apply String.eqb_neq in Hname.
  unfold get_container_logs.
  match goal with
  | |- context [try_ ?b ?c] => set (body := b); set (clauses := c)
  end.
  assert (Forall (fun cl : list exn * (exn -> M LogResult) =>
                    forall e, stable (snd cl e)) clauses) as Sc
    by (subst clauses; solve_stable).
  assert (stable body) as Sb by (subst body; solve_stable).
  assert (result_of body (start w) = Return (Success logs)) as Hbody.
  { subst body. denote. rewrite Hv. cbn beta iota.
    cbn [negb]. cbn iota. denote. rewrite Hname. denote. cbn beta iota.
    denote. rewrite _get_container_logs_sync_result, Hsdk, Hlogs.
    cbn beta iota. denote. cbn beta iota. denote. reflexivity. }
  rewrite (result_try w body clauses Sb Sc), (calls_try w body clauses Sb Sc).
  rewrite Hbody. split; [reflexivity |].
  rewrite app_nil_r. subst body.
  rewrite calls_bind by solve_stable.
  rewrite _validate_container_name_calls, Hv. cbn beta iota.
  cbn [negb]. cbn iota.
  rewrite calls_bind by solve_stable. rewrite Hname.
  rewrite calls_ret, result_ret. cbn beta iota.
  rewrite calls_bind by solve_stable.
  rewrite _get_container_logs_sync_calls, _get_container_logs_sync_result,
    Hsdk, Hlogs. cbn beta iota.
  rewrite calls_bind by solve_stable.
  rewrite calls_ret, result_ret. cbn beta iota. rewrite calls_ret.
  reflexivity.
Qed.

Lemma other_container_logs_from_engine_witness :
  let request := {| container_name := "web"; max_lines := 500 |} in
  result_of (_validate_container_name (container_name request))
            (start silent_container_world) = Return true
  /\ container_name request <> default_container service
  /\ docker_sdk silent_container_world = true
  /\ engine_logs silent_container_world (container_name request)
                 (max_lines request) = Return ""
  /\ (result_of (get_container_logs service request)
                (start silent_container_world) = Return (Success "")
      /\ calls_of (get_container_logs service request) silent_container_world
         = [EngineQuery (container_name request) (max_lines request)]).
Proof.
  split; [reflexivity |]. split; [discriminate |]. split; [reflexivity |].
  split; [reflexivity |].
  apply (other_container_logs_from_engine service
           {| container_name := "web"; max_lines := 500 |}
           silent_container_world "").
  - reflexivity.
  - discriminate.
  - reflexivity.
  - reflexivity.
Defined.

Lemma first_log_file_first_usable (w : World) (n : Z) (paths : list string) :
  0 < n -> io_errors_only w ->
  result_of (first_log_file paths n) (start w)
  = Return (first_usable w n paths).
Proof.
  intros Hn Hio. induction paths as [| p rest IH]; [reflexivity |].
  rewrite first_log_file_cons. cbn [first_usable]. unfold read_result.
  destruct (files w p) as [[t | e] |] eqn:E; [| | exact IH].
  - rewrite has_content_Some, (recent_lines_last_lines n _ Hn).
    destruct (has_nonspace _); [reflexivity | exact IH].
  - rewrite (Hio p e E).
    replace (catches [OSError; OSError; PermissionError; UnicodeDecodeError] e)
      with true
      by (specialize (Hio p e E); destruct e; try reflexivity;
          discriminate Hio).
    exact IH.
Qed.

Lemma any_log_file_first_usable (w : World) (n : Z)
  (items : list (string * list string)) :
  0 < n -> io_errors_only w ->
  result_of (any_log_file items n) (start w)
  = Return (first_usable_any w n items).
Proof.
  intros Hn Hio. induction items as [| [k paths] rest IH]; [reflexivity |].
  rewrite any_log_file_cons, (first_log_file_first_usable w n paths Hn Hio).
  cbn [first_usable_any]. destruct (first_usable w n paths); [reflexivity |].
  exact IH.
Qed.

(** X9.  The name is valid and not the own container, the line count is
    positive, reading a file fails with I/O errors only, the caller runs
    outside an event loop, the engine query fails and the pooled attempt
    gives no logs.  Then [get_container_logs] returns the text of the
    first usable log file, the log types taken in the order of the dict,
    under a line that names the log type it came from. *)
Theorem log_file_fallback_is_tagged (self : ContainerLogService)
  (request : ContainerLogRequest) (w : World) (e : exn)
  (log_type c : string) :
  let name := container_name request in
  let n := max_lines request in
  result_of (_validate_container_name name) (start w) = Return true ->
  name <> default_container self ->
  0 < n ->
  io_errors_only w ->
  docker_sdk w = true ->
  running_loop w = false ->
  engine_logs w name n = Raise e ->
  (forall logs, result_of (_get_container_logs_service_first name n) (start w)
                <> Return (Some logs)) ->
  first_usable_any w n (log_paths self) = Some (log_type, c) ->
  result_of (get_container_logs self request) (start w)
  = Return (Success ("[Reading from " ++ log_type ++ " log file]"
                     ++ nl ++ nl ++ c)).
Proof.
  intros name n Hv Hname Hn Hio Hsdk Hloop He Hnone Hfirst.
  apply String.eqb_neq in Hname.
  pose proof (any_log_file_first_usable w n (log_paths self) Hn Hio) as Hany.
  rewrite Hfirst in Hany.
  unfold get_container_logs. fold name n.
  denote. rewrite Hv. cbn beta iota. cbn [negb]. cbn iota.
  denote. rewrite Hname. denote. cbn beta iota.
  denote. rewrite _get_container_logs_sync_result, Hsdk, He. cbn beta iota.
  denote. rewrite asyncio_get_running_loop_result, Hloop. cbn beta iota.
  cbn [dispatch catches existsb subclass orb]. cbn beta iota.
  denote. rewrite Hloop.
  destruct (result_of (_get_container_logs_service_first name n) (start w))
    as [[logs |] | e'] eqn:Hp.
  - now destruct (Hnone logs).
  - cbn beta iota. denote. rewrite Hany. reflexivity.
  - cbn [dispatch]. rewrite catches_Exception. cbn beta iota. denote.
    rewrite Hany. reflexivity.
Qed.

Lemma log_file_fallback_is_tagged_witness :
  let request := {| container_name := "web"; max_lines := 500 |} in
  let w := discord_log_world in
  result_of (_validate_container_name "web") (start w) = Return true
  /\ "web" <> default_container service
  /\ 0 < 500
  /\ io_errors_only w
  /\ docker_sdk w = true
  /\ running_loop w = false
  /\ engine_logs w "web" 500 = Raise NotFound
  /\ (forall logs,
         result_of (_get_container_logs_service_first "web" 500) (start w)
         <> Return (Some logs))
  /\ first_usable_any w 500 (log_paths service)
     = Some ("discord", "gateway connected" ++ nl)
  /\ result_of (get_container_logs service request) (start w)
     = Return (Success ("[Reading from discord log file]" ++ nl ++ nl
                        ++ "gateway connected" ++ nl)).
Proof.
  assert (io_errors_only discord_log_world) as Hio.
  { intros p e. unfold discord_log_world, with_files; simpl.
    destruct (String.eqb p "/app/logs/bot.log"); [discriminate |].
    destruct (String.eqb p "/app/logs/discord.log"); discriminate. }
  split; [reflexivity |]. split; [discriminate |]. split; [reflexivity |].
  split; [exact Hio |]. split; [reflexivity |]. split; [reflexivity |].
  split; [reflexivity |].
  split; [intros logs H; vm_compute in H; discriminate H |].
  split; [reflexivity |].
  apply (log_file_fallback_is_tagged service
           {| container_name := "web"; max_lines := 500 |}
           discord_log_world NotFound "discord" ("gateway connected" ++ nl)).
  - reflexivity.
  - discriminate.
  - reflexivity.
  - exact Hio.
  - reflexivity.
  - reflexivity.
  - reflexivity.
  - intros logs H; vm_compute in H; discriminate H.
  - reflexivity.
Defined.

(* ===================================================================== *)
(** ** The shape of the results *)
(* ===================================================================== *)

Lemma returned_ensures {A : Type} (P : A -> Prop) (m : M A) (w : World) :
  ensures m w P -> returned P (result_of m (start w)).
Proof.
  intros H. destruct (result_of m (start w)) as [a | e] eqn:E;
    [exact (H a E) | exact I].
Qed.

(** Walks through a method all of whose exits build a result with
    [Success] or [Failure]. *)
Ltac shape_step :=
  match goal with
  | |- ensures (try_ _ _) _ _ =>
      apply ensures_try; [solve_stable | solve_stable | | each_clause]
  | |- ensures (bind _ _) _ _ =>
      apply ensures_bind with (P := fun _ => True);
      [solve_stable | solve_stable | easy | intros ? _]
  | |- ensures (ret _) _ _ => apply ensures_ret
  | |- ensures (raise _) _ _ => apply ensures_raise
  | |- ensures (_get_filtered_container_logs _ _ _ _) _ _ =>
      unfold _get_filtered_container_logs
  | |- ensures (_get_bot_logs _ _) _ _ => unfold _get_bot_logs
  | |- ensures (_get_discord_logs _ _) _ _ => unfold _get_discord_logs
  | |- ensures (_get_webui_logs _ _) _ _ => unfold _get_webui_logs
  | |- ensures (_get_application_logs _ _) _ _ =>
      unfold _get_application_logs
  | |- ensures (if ?b then _ else _) _ _ => destruct b
  | |- ensures (match ?x with _ => _ end) _ _ => destruct x
  | |- well_formed _ (Success _) => left; eexists; reflexivity
  | |- well_formed _ (Failure _ _) =>
      right; do 2 eexists; split; [reflexivity | simpl; tauto]
  end.

(** X10.  Whatever the files, the engine and the pool do, a result that
    [get_container_logs] returns is a success with content, no error and
    status 200, or a failure with an error, no content and status 400, 404
    or 500; a result of [get_filtered_logs] is such a success, or such a
    failure with status 400 or 500. *)
Theorem results_are_well_formed (self : ContainerLogService) (w : World)
  (request : ContainerLogRequest) (filtered : FilteredLogRequest) :
  returned (well_formed [400; 404; 500])
           (result_of (get_container_logs self request) (start w))
  /\ returned (well_formed [400; 500])
              (result_of (get_filtered_logs self filtered) (start w)).
Proof.
  split; apply returned_ensures.
  - unfold get_container_logs. repeat shape_step.
  - unfold get_filtered_logs. repeat shape_step.
Qed.

(* ===================================================================== *)
(** ** [get_filtered_logs]: files first, then the filtered engine text *)
(* ===================================================================== *)

(** For a served log type whose paths are in the dict, the method is the
    loop over those paths followed by the filtered fallback. *)
Lemma get_filtered_logs_result (self : ContainerLogService) (w : World)
  (request : FilteredLogRequest) (paths : list string) :
  is_filtered_type (log_type request) = true ->
  dict_lookup (LogType_value (log_type request)) (log_paths self)
  = Some paths ->
  result_of (get_filtered_logs self request) (start w)
  = match
      match result_of (first_log_file paths (filtered_max_lines request))
                      (start w) with
      | Return (Some c) => Return (Success c)
      | Return None =>
          result_of (_get_filtered_container_logs self
                       (filtered_max_lines request)
                       (patterns_of (log_type request))
                       (placeholder_of (log_type request))) (start w)
      | Raise e => Raise e
      end
    with
    | Return r => Return r
    | Raise e =>
        if catches [AttributeError; TypeError; ValueError; RuntimeError] e
        then Return (Failure ("Error fetching "
                              ++ LogType_value (log_type request) ++ " logs")
                             500)
        else Raise e
    end.
Proof.
  intros Ht Hl. unfold get_filtered_logs.
  rewrite result_try by solve_stable.
  assert (forall e,
             result_of
               (dispatch
                  [([AttributeError; TypeError; ValueError; RuntimeError],
                    fun _ : exn =>
                      ret (Failure ("Error fetching "
                                    ++ LogType_value (log_type request)
                                    ++ " logs") 500))] e) (start w)
             = if catches [AttributeError; TypeError; ValueError; RuntimeError] e
               then Return (Failure ("Error fetching "
                                     ++ LogType_value (log_type request)
                                     ++ " logs") 500)
               else Raise e) as Hd.
  { intros e. cbn [dispatch]. now destruct (catches _ e). }
  destruct (log_type request) eqn:E; try discriminate Ht;
    simpl in Hl;
    unfold _get_bot_logs, _get_discord_logs, _get_webui_logs,
      _get_application_logs, dict_getitem;
    rewrite Hl; denote;
    destruct (result_of (first_log_file paths (filtered_max_lines request))
                        (start w)) as [[c |] | e];
    cbn beta iota; denote; cbn [patterns_of placeholder_of];
    first [ reflexivity
          | apply Hd
          | match goal with
            | |- match ?o with _ => _ end = _ =>
                destruct o as [r | e']; [reflexivity | apply Hd]
            end ].
Qed.

(** X11.  For the log types [BOT], [DISCORD], [WEBUI] and [APPLICATION],
    with a positive line count: when one of the files configured for the
    log type can be used - it exists, can be read and its last
    [max_lines] lines hold text - [get_filtered_logs] returns Success with
    the last [max_lines] lines of the first such file, and no call reaches
    the engine or the client pool. *)
Theorem filtered_logs_from_file (self : ContainerLogService) (w : World)
  (request : FilteredLogRequest) (paths : list string) (c : string) :
  is_filtered_type (log_type request) = true ->
  dict_lookup (LogType_value (log_type request)) (log_paths self)
  = Some paths ->
  0 < filtered_max_lines request ->
  first_usable w (filtered_max_lines request) paths = Some c ->
  result_of (get_filtered_logs self request) (start w) = Return (Success c)
  /\ existsb is_engine_event (calls_of (get_filtered_logs self request) w)
     = false.
Proof.
  intros Ht Hl Hn Hc.
  apply (first_log_file_usable w _ _ c Hn) in Hc.
  split.
  - rewrite (get_filtered_logs_result self w request paths Ht Hl), Hc.
    reflexivity.
  - apply file_events_not_engine.
    unfold get_filtered_logs.
    destruct (log_type request) eqn:E; try discriminate Ht;
      simpl in Hl;
      unfold _get_bot_logs, _get_discord_logs, _get_webui_logs,
        _get_application_logs, dict_getitem;
      rewrite Hl;
      rewrite calls_try by solve_stable;
      rewrite calls_bind by solve_stable;
      rewrite calls_ret, result_ret; cbn beta iota;
      rewrite calls_bind by solve_stable;
      denote; rewrite Hc; cbn beta iota;
      rewrite calls_ret; cbn [app]; rewrite !app_nil_r;
      apply first_log_file_calls.
Qed.

Lemma filtered_logs_from_file_witness :
  let request := {| log_type := DISCORD; filtered_max_lines := 1 |} in
  let paths := ["/app/logs/discord.log";
                "/Volumes/appdata/dockerdiscordcontrol/logs/discord.log"] in
  is_filtered_type (log_type request) = true
  /\ dict_lookup (LogType_value (log_type request)) (log_paths service)
     = Some paths
  /\ 0 < filtered_max_lines request
  /\ first_usable discord_file_world (filtered_max_lines request) paths
     = Some ("heartbeat ack" ++ nl)
  /\ (result_of (get_filtered_logs service request)
                (start discord_file_world)
      = Return (Success ("heartbeat ack" ++ nl))
      /\ existsb is_engine_event
           (calls_of (get_filtered_logs service request) discord_file_world)
         = false).
Proof.
  split; [reflexivity |]. split; [reflexivity |]. split; [reflexivity |].
  split; [reflexivity |].
  apply (filtered_logs_from_file service discord_file_world
           {| log_type := DISCORD; filtered_max_lines := 1 |}
           ["/app/logs/discord.log";
            "/Volumes/appdata/dockerdiscordcontrol/logs/discord.log"]
           ("heartbeat ack" ++ nl));
    reflexivity.
Defined.

(** X12.  With the Docker SDK at hand and files whose reading fails with
    I/O errors only, [get_filtered_logs] never raises and never fails for
    the log types [BOT], [DISCORD], [WEBUI] and [APPLICATION]: whatever
    the engine, the pool and the event loop do, it returns a Success. *)
Theorem filtered_logs_always_succeed (self : ContainerLogService) (w : World)
  (request : FilteredLogRequest) (paths : list string) :
  is_filtered_type (log_type request) = true ->
  dict_lookup (LogType_value (log_type request)) (log_paths self)
  = Some paths ->
  docker_sdk w = true ->
  io_errors_only w ->
  exists c,
    result_of (get_filtered_logs self request) (start w) = Return (Success c).
Proof.
  intros Ht Hl Hsdk Hio.
  rewrite (get_filtered_logs_result self w request paths Ht Hl).
  destruct (first_log_file_returns w paths (filtered_max_lines request) Hio)
    as [[c |] ->]; [now exists c |].
  destruct (filtered_fallback_with_sdk self w (filtered_max_lines request)
              (patterns_of (log_type request))
              (placeholder_of (log_type request)) Hsdk)
    as [-> | [logs ->]]; eexists; reflexivity.
Qed.

Lemma filtered_logs_always_succeed_witness :
  let request := {| log_type := WEBUI; filtered_max_lines := 500 |} in
  let paths := ["/app/logs/webui_error.log";
                "/Volumes/appdata/dockerdiscordcontrol/logs/webui_error.log"] in
  is_filtered_type (log_type request) = true
  /\ dict_lookup (LogType_value (log_type request)) (log_paths service)
     = Some paths
  /\ docker_sdk api_error_world = true
  /\ io_errors_only api_error_world
  /\ exists c,
       result_of (get_filtered_logs service request) (start api_error_world)
       = Return (Success c).
Proof.
  assert (io_errors_only api_error_world) as Hio
    by (intros p e; discriminate).
  split; [reflexivity |]. split; [reflexivity |]. split; [reflexivity |].
  split; [exact Hio |].
  apply (filtered_logs_always_succeed service api_error_world
           {| log_type := WEBUI; filtered_max_lines := 500 |}
           ["/app/logs/webui_error.log";
            "/Volumes/appdata/dockerdiscordcontrol/logs/webui_error.log"]).
  - reflexivity.
  - reflexivity.
  - reflexivity.
  - exact Hio.
Defined.

Lemma _get_filtered_container_logs_of_text (self : ContainerLogService)
  (w : World) (n : Z) (patterns : list string) (msg logs : string) :
  docker_sdk w = true ->
  engine_logs w (default_container self) (n * 2) = Return logs ->
  result_of (_get_filtered_container_logs self n patterns msg) (start w)
  = Return (Success (filtered_text n patterns msg logs)).
Proof.
  intros Hsdk Hlogs. unfold _get_filtered_container_logs. denote.
  rewrite _get_container_logs_sync_result, Hsdk, Hlogs. cbn beta iota.
  denote. cbn beta iota. denote.
  unfold filtered_text. now destruct (filter _ _).
Qed.

(** X13.  With a positive line count, when the engine answers the query of
    the filtered fallback and some line of its text matches, the content
    returned is made of matching lines only, at most [max_lines] of them:
    cut at its line feeds it is a final stretch of the matching lines of
    the text, none of them altered. *)
Theorem filtered_fallback_lines (self : ContainerLogService) (w : World)
  (n : Z) (patterns : list string) (msg logs : string) :
  0 < n ->
  docker_sdk w = true ->
  engine_logs w (default_container self) (n * 2) = Return logs ->
  filter (line_matches patterns) (split_nl logs) <> [] ->
  exists c earlier,
    result_of (_get_filtered_container_logs self n patterns msg) (start w)
    = Return (Success c)
    /\ filter (line_matches patterns) (split_nl logs)
       = (earlier ++ split_nl c)%list
    /\ Forall (fun l => line_matches patterns l = true) (split_nl c)
    /\ Z.of_nat (length (split_nl c)) <= n.
Proof.
  intros Hn Hsdk Hlogs Hne.
  rewrite (_get_filtered_container_logs_of_text self w n patterns msg logs
             Hsdk Hlogs).
  unfold filtered_text.
  destruct (filter (line_matches patterns) (split_nl logs)) as [| x xs] eqn:E;
    [congruence |].
  rewrite (slice_from_last_lines n _ Hn).
  assert (Forall (fun l => has_nl l = false) (x :: xs)) as Hnl.
  { rewrite <- E. apply Forall_forall. intros l Hl.
    apply filter_In in Hl as [Hl _].
    pose proof (split_nl_lines logs) as Hall.
    rewrite Forall_forall in Hall. now apply Hall. }
  assert (Forall (fun l => line_matches patterns l = true) (x :: xs)) as Hm.
  { rewrite <- E. apply Forall_forall. intros l Hl.
    now apply filter_In in Hl as [_ Hl]. }
  assert (split_nl (join nl (last_lines n (x :: xs)))
          = last_lines n (x :: xs)) as Hsplit.
  { apply split_join_nl.
    - apply last_lines_nonempty; [exact Hn | discriminate].
    - now apply Forall_last_lines. }
  destruct (last_lines_suffix n (x :: xs)) as [earlier He].
  exists (join nl (last_lines n (x :: xs))), earlier.
  rewrite Hsplit. repeat split.
  - exact He.
  - now apply Forall_last_lines.
  - apply length_last_lines. lia.
Qed.

Lemma filtered_fallback_lines_witness :
  let logs := "Slash commands synced" ++ nl ++ "cache refreshed" ++ nl in
  0 < 1
  /\ docker_sdk two_matches_world = true
  /\ engine_logs two_matches_world (default_container service) (1 * 2)
     = Return logs
  /\ filter (line_matches bot_patterns) (split_nl logs) <> []
  /\ exists c earlier,
       result_of (_get_filtered_container_logs service 1 bot_patterns
                                               "No bot logs found")
                 (start two_matches_world)
       = Return (Success c)
       /\ filter (line_matches bot_patterns) (split_nl logs)
          = (earlier ++ split_nl c)%list
       /\ Forall (fun l => line_matches bot_patterns l = true) (split_nl c)
       /\ Z.of_nat (length (split_nl c)) <= 1.
Proof.
  split; [reflexivity |]. split; [reflexivity |]. split; [reflexivity |].
  split; [vm_compute; discriminate |].
  apply (filtered_fallback_lines service two_matches_world 1 bot_patterns
           "No bot logs found"
           ("Slash commands synced" ++ nl ++ "cache refreshed" ++ nl)).
  - reflexivity.
  - reflexivity.
  - reflexivity.
  - vm_compute; discriminate.
Defined.

(* ===================================================================== *)
(** ** Action logs: placeholder and failures *)
(* ===================================================================== *)

Lemma stable_import_action_logger {Entry : Type}
  (store : option (ActionLogger Entry)) :
  stable (import_action_logger store).
Proof.
  intros s; unfold import_action_logger, result_of, calls_of, state_after.
  destruct store; simpl; now rewrite extend_nil.
Qed.

#[export] Hint Resolve stable_import_action_logger : stable.

Lemma stable__get_action_logs_text {Entry : Type}
  (store : option (ActionLogger Entry)) (n : Z) :
  stable (_get_action_logs_text store n).
Proof. unfold _get_action_logs_text; solve_stable. Qed.

Lemma stable__get_action_logs_json {Entry : Type}
  (store : option (ActionLogger Entry)) (n : Z) :
  stable (_get_action_logs_json store n).
Proof. unfold _get_action_logs_json; solve_stable. Qed.

#[export] Hint Resolve stable__get_action_logs_text
  stable__get_action_logs_json : stable.

Lemma stable_get_action_logs {Entry : Type}
  (store : option (ActionLogger Entry)) (request : ActionLogRequest) :
  stable (get_action_logs store request).
Proof. unfold get_action_logs; solve_stable. Qed.

#[export] Hint Resolve stable_get_action_logs : stable.

(** X14.  In text form - any format other than ["json"] - a store that
    answers makes [get_action_logs] return a Success whose content is
    never empty: the text of the store, or the placeholder
    "No action logs available" when the store gives [None] or the empty
    text.  No file or engine call is made. *)
Theorem action_logs_text_placeholder {Entry : Type}
  (a : ActionLogger Entry) (request : ActionLogRequest) (w : World)
  (o : option string) :
  format_type request <> "json" ->
  store_text a (limit request) = Return o ->
  get_action_logs (Some a) request (start w)
  = (Return (ActionSuccess (if truthy_opt o then content_text o
                            else "No action logs available")), start w)
  /\ truthy (if truthy_opt o then content_text o
             else "No action logs available") = true.
Proof.
  intros Hf Ho. apply String.eqb_neq in Hf.
  unfold get_action_logs, _get_action_logs_text, try_, bind,
    import_action_logger, pure_call; simpl.
  rewrite Hf, Ho. destruct o as [c |]; simpl; [| now split].
  destruct (truthy c) eqn:E; simpl; now split.
Qed.

Lemma action_logs_text_placeholder_witness :
  let request := {| format_type := "text"; limit := 500 |} in
  format_type request <> "json"
  /\ store_text empty_store (limit request) = Return (Some "")
  /\ (get_action_logs (Some empty_store) request (start quiet_world)
      = (Return (ActionSuccess "No action logs available"), start quiet_world)
      /\ truthy "No action logs available" = true).
Proof.
  split; [discriminate |]. split; [reflexivity |].
  apply (action_logs_text_placeholder empty_store
           {| format_type := "text"; limit := 500 |} quiet_world (Some "")).
  - discriminate.
  - reflexivity.
Defined.

(** X15.  A failure of the action-log store is not swallowed by the
    helpers: they raise it again.  [get_action_logs] turns it into the
    failure "Error fetching action logs" with status 500 when its class is
    [AttributeError], [TypeError], [ValueError] or [RuntimeError], and
    lets every other exception - a missing module, an [OSError] - reach
    its caller. *)
Theorem action_logs_store_failure {Entry : Type}
  (store : option (ActionLogger Entry)) (request : ActionLogRequest)
  (w : World) (e : exn) :
  store_fails store request e ->
  result_of (get_action_logs store request) (start w)
  = if catches [AttributeError; TypeError; ValueError; RuntimeError] e
    then Return (ActionFailure "Error fetching action logs" 500)
    else Raise e.
Proof.
  unfold store_fails. intros H.
  unfold get_action_logs, _get_action_logs_text, _get_action_logs_json,
    result_of, try_, bind, import_action_logger, pure_call; simpl.
  destruct store as [a |].
  - destruct (String.eqb (format_type request) "json"); rewrite H; simpl;
      destruct e; reflexivity.
  - subst e. destruct (String.eqb (format_type request) "json"); reflexivity.
Qed.

Lemma action_logs_store_failure_witness :
  let request := {| format_type := "json"; limit := 500 |} in
  store_fails (Some broken_store) request ValueError
  /\ result_of (get_action_logs (Some broken_store) request)
               (start quiet_world)
     = Return (ActionFailure "Error fetching action logs" 500).
Proof.
  split; [reflexivity |].
  apply (action_logs_store_failure (Some broken_store)
           {| format_type := "json"; limit := 500 |} quiet_world ValueError).
  reflexivity.
Defined.

Example action_logs_io_error_escapes :
  result_of (get_action_logs (Some broken_store)
               {| format_type := "text"; limit := 500 |}) (start quiet_world)
  = Raise OSError.
Proof. reflexivity. Qed.

(* ===================================================================== *)
(** ** The routes: fallbacks and answers *)
(* ===================================================================== *)

Lemma stable_simple_read_loop (paths : list string) (n : Z) :
  stable (LogRoutes.simple_read_loop paths n).
Proof.
  induction paths as [| p rest IH]; simpl; solve_stable.
Qed.

#[export] Hint Resolve stable_simple_read_loop : stable.

Lemma stable__simple_read_logs (n : Z) : stable (LogRoutes._simple_read_logs n).
Proof. unfold LogRoutes._simple_read_logs; solve_stable. Qed.

Lemma stable__simple_docker_logs (name : string) (n : Z) :
  stable (LogRoutes._simple_docker_logs name n).
Proof. unfold LogRoutes._simple_docker_logs; solve_stable. Qed.

#[export] Hint Resolve stable__simple_read_logs stable__simple_docker_logs
  : stable.

Lemma stable_py_or (a b : M (option string)) :
  stable a -> stable b -> stable (py_or a b).
Proof. intros Ha Hb. unfold py_or; solve_stable. Qed.

#[export] Hint Resolve stable_py_or : stable.

Lemma stable_fallback_response (name banner : string) (otherwise : Response) :
  stable (LogRoutes.fallback_response name banner otherwise).
Proof. unfold LogRoutes.fallback_response; solve_stable. Qed.

#[export] Hint Resolve stable_fallback_response stable_get_container_logs
  stable_get_filtered_logs : stable.

Lemma stable_route_get_container_logs (service : ContainerLogService)
  (name : string) : stable (LogRoutes.get_container_logs service name).
Proof. unfold LogRoutes.get_container_logs; solve_stable. Qed.

Lemma stable_filtered_logs_route (service : ContainerLogService)
  (t : LogType) (no_logs : string) :
  stable (LogRoutes.filtered_logs_route service t no_logs).
Proof. unfold LogRoutes.filtered_logs_route; solve_stable. Qed.

Lemma simple_read_loop_result (w : World) (n : Z) (paths : list string) :
  result_of (LogRoutes.simple_read_loop paths n) (start w)
  = Return (first_readable w n paths)
  /\ forallb is_file_event (calls_of (LogRoutes.simple_read_loop paths n) w)
     = true.
Proof.
  induction paths as [| p rest [IHr IHc]]; [now split |].
  cbn [LogRoutes.simple_read_loop first_readable].
  assert (result_of
            (try_ (present <- os_path_exists p ;;
                   if present then
                     lines <- open_readlines p ;;
                     ret (Some (join "" (slice_from (- n) lines)))
                   else ret None)
                  [ ([Exception], fun _ => ret None) ]) (start w)
          = Return (match files w p with
                    | Some (Text t) =>
                        Some (join "" (slice_from (- n) (readlines t)))
                    | _ => None
                    end)
          /\ forallb is_file_event
               (calls_of
                  (try_ (present <- os_path_exists p ;;
                         if present then
                           lines <- open_readlines p ;;
                           ret (Some (join "" (slice_from (- n) lines)))
                         else ret None)
                        [ ([Exception], fun _ => ret None) ]) w) = true)
    as [Hr Hc].
  { unfold result_of, calls_of, state_after, try_, bind, os_path_exists,
      open_readlines, call; simpl.
    destruct (files w p) as [[t | e] |] eqn:E; simpl; rewrite ?E; simpl;
      now split. }
  split.
  - rewrite result_bind by solve_stable. rewrite Hr. cbn beta iota.
    destruct (files w p) as [[t | e] |]; cbn beta iota;
      first [reflexivity | exact IHr].
  - rewrite calls_bind by solve_stable. rewrite Hr.
    rewrite forallb_app, Hc. cbn [andb].
    destruct (files w p) as [[t | e] |]; cbn beta iota;
      first [reflexivity | exact IHc].
Qed.

(** X16.  [_simple_read_logs] never raises and never reaches the engine.
    It returns the slice [lines[-n:]] of the first of its four paths that
    exists and can be read - be that text empty - and [None] when there is
    none; a path whose reading raises, whatever the exception, is passed
    over. *)
Theorem _simple_read_logs_first_readable (w : World) (n : Z) :
  result_of (LogRoutes._simple_read_logs n) (start w)
  = Return (first_readable w n LogRoutes.simple_log_paths)
  /\ existsb is_engine_event (calls_of (LogRoutes._simple_read_logs n) w)
     = false.
Proof.
  unfold LogRoutes._simple_read_logs.
  destruct (simple_read_loop_result w n LogRoutes.simple_log_paths)
    as [Hr Hc].
  split; [exact Hr | now apply file_events_not_engine].
Qed.

Lemma _simple_docker_logs_result (w : World) (name : string) (n : Z) :
  result_of (LogRoutes._simple_docker_logs name n) (start w)
  = Return (if docker_sdk w
            then match engine_logs w name n with
                 | Return logs => Some logs
                 | Raise _ => None
                 end
            else None).
Proof.
  unfold LogRoutes._simple_docker_logs, result_of, try_, bind, import_docker,
    call; simpl.
  destruct (docker_sdk w); simpl; [| reflexivity].
  destruct (engine_logs w name n); reflexivity.
Qed.

Lemma _simple_docker_logs_calls (w : World) (name : string) (n : Z) :
  calls_of (LogRoutes._simple_docker_logs name n) w
  = if docker_sdk w then [EngineQuery name n] else [].
Proof.
  unfold LogRoutes._simple_docker_logs, calls_of, state_after, try_, bind,
    import_docker, call; simpl.
  destruct (docker_sdk w); simpl; [| reflexivity].
  destruct (engine_logs w name n); reflexivity.
Qed.

(** X17.  [_simple_docker_logs] never raises, in any world: it returns the
    text of the engine when the Docker SDK can be imported and the engine
    answers, and [None] otherwise - also when the import fails, in which
    case the engine is not queried. *)
Theorem _simple_docker_logs_never_raises (w : World) (name : string) (n : Z) :
  result_of (LogRoutes._simple_docker_logs name n) (start w)
  = Return (if docker_sdk w
            then match engine_logs w name n with
                 | Return logs => Some logs
                 | Raise _ => None
                 end
            else None)
  /\ calls_of (LogRoutes._simple_docker_logs name n) w
     = if docker_sdk w then [EngineQuery name n] else [].
Proof.
  split; [apply _simple_docker_logs_result | apply _simple_docker_logs_calls].
Qed.

Lemma fallback_response_result (w : World) (name banner : string)
  (otherwise : Response) :
  result_of (LogRoutes.fallback_response name banner otherwise) (start w)
  = Return (if truthy_opt (simple_fallback_logs w name)
            then text_response
                   (banner ++ nl ++ content_text (simple_fallback_logs w name))
                   200
            else otherwise).
Proof.
  unfold LogRoutes.fallback_response, py_or, simple_fallback_logs.
  denote. rewrite _simple_docker_logs_result. cbn beta iota.
  match goal with
  | |- context [truthy_opt ?d] => destruct (truthy_opt d) eqn:E
  end.
  - denote. cbn beta iota. rewrite E. reflexivity.
  - unfold LogRoutes._simple_read_logs.
    destruct (simple_read_loop_result w 500 LogRoutes.simple_log_paths)
      as [Hr _].
    rewrite Hr. cbn beta iota.
    destruct (truthy_opt (first_readable w 500 LogRoutes.simple_log_paths));
      reflexivity.
Qed.

(** X18.  When the service returns a result, the handler of
    [/container_logs/<name>] never raises.  It answers 200 with the
    content of a successful result.  For a failure it tries
    [_simple_docker_logs] and then [_simple_read_logs]: it answers 200
    with their text under the line "[Fallback mode]" when there is some,
    and else the status of the failure with its error in the body. *)
Theorem container_logs_route_answer (service : ContainerLogService)
  (w : World) (name : string) (r : LogResult) :
  result_of (get_container_logs service
               {| container_name := name; max_lines := 500 |}) (start w)
  = Return r ->
  result_of (LogRoutes.get_container_logs service name) (start w)
  = Return
      (if success r then text_response (content_text (content r)) 200
       else if truthy_opt (simple_fallback_logs w name)
            then text_response ("[Fallback mode]" ++ nl
                                ++ content_text (simple_fallback_logs w name))
                               200
            else text_response ("Failed to fetch container logs: "
                                ++ error_text (error r)) (status_code r)).
Proof.
  intros Hr. unfold LogRoutes.get_container_logs.
  rewrite result_try by solve_stable.
  rewrite result_bind by solve_stable.
  rewrite Hr. cbn beta iota.
  destruct (success r); [reflexivity |].
  now rewrite fallback_response_result.
Qed.

Lemma container_logs_route_answer_witness :
  let r := Failure "Container 'web' not found and no log files available"
                   404 in
  result_of (get_container_logs service
               {| container_name := "web"; max_lines := 500 |})
            (start quiet_world)
  = Return r
  /\ result_of (LogRoutes.get_container_logs service "web")
               (start quiet_world)
     = Return (text_response
                 ("Failed to fetch container logs: Container 'web' not found "
                  ++ "and no log files available") 404).
Proof.
  split; [reflexivity |].
  apply (container_logs_route_answer service quiet_world "web"
           (Failure "Container 'web' not found and no log files available"
                    404)).
  reflexivity.
Defined.

(** X19.  The refusal of a name by the validation does not keep the
    handler of [/container_logs/<name>] from the engine: after the service
    has answered "Invalid container name", the handler passes the same
    name to [_simple_docker_logs], and when the engine returns text for
    it, the handler answers 200 with that text under "[Fallback mode]". *)
Theorem refused_name_reaches_engine (service : ContainerLogService)
  (w : World) (name logs : string) :
  result_of (_validate_container_name name) (start w) = Return false ->
  docker_sdk w = true ->
  engine_logs w name 500 = Return logs ->
  truthy logs = true ->
  result_of (get_container_logs service
               {| container_name := name; max_lines := 500 |}) (start w)
  = Return (Failure "Invalid container name" 400)
  /\ result_of (LogRoutes.get_container_logs service name) (start w)
     = Return (text_response ("[Fallback mode]" ++ nl ++ logs) 200)
  /\ In (EngineQuery name 500)
        (calls_of (LogRoutes.get_container_logs service name) w).
Proof.
  intros Hv Hsdk Hlogs Ht.
  assert (result_of (get_container_logs service
                       {| container_name := name; max_lines := 500 |})
                    (start w)
          = Return (Failure "Invalid container name" 400)) as Hr.
  { unfold result_of. rewrite get_container_logs_refused; [reflexivity |].
    exact Hv. }
  assert (simple_fallback_logs w name = Some logs) as Hfb.
  { unfold simple_fallback_logs. rewrite Hsdk, Hlogs. simpl. now rewrite Ht. }
  split; [exact Hr | split].
  - unfold LogRoutes.get_container_logs.
    rewrite result_try by solve_stable.
    rewrite result_bind by solve_stable.
    rewrite Hr. cbn beta iota delta [success Failure].
    rewrite fallback_response_result, Hfb.
    simpl. now rewrite Ht.
  - unfold LogRoutes.get_container_logs.
    rewrite calls_try by solve_stable.
    rewrite calls_bind by solve_stable.
    rewrite Hr. cbn beta iota delta [success Failure].
    apply in_or_app. left. apply in_or_app. right.
    unfold LogRoutes.fallback_response, py_or.
    rewrite calls_bind by solve_stable.
    apply in_or_app. left.
    rewrite calls_bind by solve_stable.
    apply in_or_app. left.
    rewrite _simple_docker_logs_calls, Hsdk. now left.
Qed.

Lemma refused_name_reaches_engine_witness :
  let logs := "ready" ++ nl ++ "accepting connections" ++ nl in
  result_of (_validate_container_name "db;ls")
            (start (with_engine (fun _ _ => Return logs) quiet_world))
  = Return false
  /\ docker_sdk (with_engine (fun _ _ => Return logs) quiet_world) = true
  /\ engine_logs (with_engine (fun _ _ => Return logs) quiet_world)
                 "db;ls" 500 = Return logs
  /\ truthy logs = true
  /\ (result_of (get_container_logs service
                   {| container_name := "db;ls"; max_lines := 500 |})
                (start (with_engine (fun _ _ => Return logs) quiet_world))
      = Return (Failure "Invalid container name" 400)
      /\ result_of (LogRoutes.get_container_logs service "db;ls")
                   (start (with_engine (fun _ _ => Return logs) quiet_world))
         = Return (text_response ("[Fallback mode]" ++ nl ++ logs) 200)
      /\ In (EngineQuery "db;ls" 500)
            (calls_of (LogRoutes.get_container_logs service "db;ls")
                      (with_engine (fun _ _ => Return logs) quiet_world))).
Proof.
  split; [reflexivity |]. split; [reflexivity |]. split; [reflexivity |].
  split; [reflexivity |].
  apply (refused_name_reaches_engine service
           (with_engine
              (fun _ _ => Return ("ready" ++ nl ++ "accepting connections"
                                  ++ nl)) quiet_world)
           "db;ls" ("ready" ++ nl ++ "accepting connections" ++ nl));
    reflexivity.
Defined.

Lemma has_nonspace_strip_truthy (c : string) :
  truthy (strip c) = true -> truthy c = true.
Proof.
  rewrite truthy_strip. apply has_nonspace_truthy.
Qed.

Lemma filtered_logs_route_answers (service : ContainerLogService) (w : World)
  (t : LogType) (no_logs : string) :
  truthy no_logs = true ->
  answers_text
    (result_of (LogRoutes.filtered_logs_route service t no_logs) (start w)).
Proof.
  intros Hno. unfold LogRoutes.filtered_logs_route.
  rewrite result_bind by solve_stable.
  rewrite result_try by solve_stable.
  rewrite result_bind by solve_stable.
  assert (answers_text
            (result_of
               (logs <- LogRoutes._simple_read_logs 500 ;;
                ret (text_response (if truthy_opt logs then content_text logs
                                    else no_logs) 200)) (start w))) as Hfb.
  { rewrite result_bind by solve_stable.
    unfold LogRoutes._simple_read_logs.
    destruct (simple_read_loop_result w 500 LogRoutes.simple_log_paths)
      as [-> _].
    cbn beta iota.
    generalize (first_readable w 500 LogRoutes.simple_log_paths) as o.
    intros o. eexists. split; [reflexivity |]. split; [reflexivity |].
    destruct o as [c |]; simpl; [| exact Hno].
    destruct (truthy c) eqn:E; [exact E | exact Hno]. }
  pose proof (get_filtered_logs_ensures service w
                {| log_type := t; filtered_max_lines := 500 |} eq_refl)
    as Hens.
  destruct (result_of (get_filtered_logs service
                         {| log_type := t; filtered_max_lines := 500 |})
                      (start w)) as [r | e] eqn:E; cbn beta iota.
  - specialize (Hens r E). simpl in Hens.
    destruct (success r) eqn:Hs.
    + rewrite result_ret. cbn beta iota. rewrite result_ret.
      destruct (content r) as [c |]; [| contradiction].
      eexists. split; [reflexivity |]. split; [reflexivity |].
      simpl. now apply has_nonspace_strip_truthy.
    + rewrite result_ret. cbn beta iota. exact Hfb.
  - cbn [dispatch]. rewrite catches_Exception.
    rewrite result_ret. cbn beta iota. exact Hfb.
Qed.

(** X20.  The handlers of [/bot_logs], [/discord_logs], [/webui_logs] and
    [/application_logs] never raise and never answer an error: whatever
    the files, the engine, the pool and the Docker SDK do - also when the
    service raises - each answers status 200 with a body that is not
    empty. *)
Theorem filtered_log_routes_always_answer (service : ContainerLogService)
  (w : World) :
  answers_text (result_of (LogRoutes.get_bot_logs service) (start w))
  /\ answers_text (result_of (LogRoutes.get_discord_logs service) (start w))
  /\ answers_text (result_of (LogRoutes.get_webui_logs service) (start w))
  /\ answers_text
       (result_of (LogRoutes.get_application_logs service) (start w)).
Proof.
  repeat split; apply filtered_logs_route_answers; reflexivity.
Qed.

Example bot_logs_route_without_sdk :
  result_of (LogRoutes.get_bot_logs service) (start (without_sdk quiet_world))
  = Return (text_response "No bot logs available" 200).
Proof. reflexivity. Qed.

(** X21.  The handler of [/action_logs] never raises and never answers an
    error: whatever the store does - no module, any exception, no text -
    it answers status 200 with a body that is not empty, the text of the
    store or "No action logs available". *)
Theorem action_logs_route_always_answers {Entry : Type}
  (store : option (ActionLogger Entry)) (w : World) :
  answers_text (result_of (LogRoutes.get_action_logs store) (start w)).
Proof.
  unfold answers_text, LogRoutes.get_action_logs, get_action_logs,
    _get_action_logs_text, result_of, try_, bind, import_action_logger,
    pure_call; simpl.
  destruct store as [a |]; simpl.
  - destruct (store_text a 500) as [[c |] | e]; simpl.
    + destruct (truthy c) eqn:E; simpl; eexists; repeat split; exact E.
    + eexists; repeat split.
    + destruct e; simpl; eexists; repeat split.
  - eexists; repeat split.
Qed.

Lemma action_logs_json_route_entries {Entry : Type}
  (a : ActionLogger Entry) (w : World) (entries : list Entry) :
  store_json a 500 = Return entries ->
  result_of (LogRoutes.get_action_logs_json (Some a)) (start w)
  = Return (Some [ ("success", ActionBool true);
                   ("logs", ActionList entries);
                   ("count", ActionInt (Z.of_nat (length entries))) ], 200).
Proof.
  intros H.
  unfold LogRoutes.get_action_logs_json, get_action_logs,
    _get_action_logs_json, result_of, try_, bind, import_action_logger,
    pure_call; simpl.
  now rewrite H.
Qed.

(** X22.  The handler of [/action_logs_json] answers a failure of the
    store whose class is [ImportError], [AttributeError], [TypeError],
    [ValueError] or [RuntimeError] with status 500 and a dict whose
    "success" is false and whose "error" is a fixed text - "Service error
    occurred" for a missing module, "Failed to fetch action logs" for the
    others: nothing of the exception is sent. *)
Theorem action_logs_json_route_failure {Entry : Type}
  (store : option (ActionLogger Entry)) (w : World) (e : exn) :
  store_fails store {| format_type := "json"; limit := 500 |} e ->
  catches [ImportError; AttributeError; TypeError; ValueError; RuntimeError] e
  = true ->
  result_of (LogRoutes.get_action_logs_json store) (start w)
  = Return (Some [ ("success", ActionBool false);
                   ("error",
                    ActionStr (if subclass e ImportError
                               then "Service error occurred"
                               else "Failed to fetch action logs")) ], 500).
Proof.
  unfold store_fails, LogRoutes.get_action_logs_json, get_action_logs,
    _get_action_logs_json, result_of, try_, bind, import_action_logger,
    pure_call; simpl.
  intros Hf Hc. destruct store as [a |].
  - rewrite Hf. destruct e; try discriminate Hc; reflexivity.
  - subst e. reflexivity.
Qed.

Lemma action_logs_json_route_failure_witness :
  store_fails (Some broken_store) {| format_type := "json"; limit := 500 |}
              ValueError
  /\ catches [ImportError; AttributeError; TypeError; ValueError;
              RuntimeError] ValueError = true
  /\ result_of (LogRoutes.get_action_logs_json (Some broken_store))
               (start quiet_world)
     = Return (Some [ ("success", ActionBool false);
                      ("error", ActionStr "Failed to fetch action logs") ],
               500).
Proof.
  split; [reflexivity |]. split; [reflexivity |].
  apply (action_logs_json_route_failure (Some broken_store) quiet_world
           ValueError);
    reflexivity.
Defined.

(* ===================================================================== *)
(** ** More on the two resolvers *)
(* ===================================================================== *)

(** X23.  Whenever the validation refuses the name, [get_container_logs]
    returns the failure "Invalid container name" with status 400 and makes
    no call at all: no path is probed, no file is opened, neither the
    engine nor the pool is reached. *)
Theorem refused_name_costs_nothing (self : ContainerLogService)
  (request : ContainerLogRequest) (w : World) :
  result_of (_validate_container_name (container_name request)) (start w)
  = Return false ->
  get_container_logs self request (start w)
  = (Return (Failure "Invalid container name" 400), start w).
Proof.
  intros Hv. rewrite get_container_logs_refused by exact Hv. f_equal.
  unfold state_after.
  rewrite (stable__validate_container_name (container_name request) (start w)).
  simpl. now rewrite _validate_container_name_calls.
Qed.

Lemma refused_name_costs_nothing_witness :
  result_of (_validate_container_name "web logs") (start chatty_world)
  = Return false
  /\ get_container_logs service
       {| container_name := "web logs"; max_lines := 500 |}
       (start chatty_world)
     = (Return (Failure "Invalid container name" 400), start chatty_world).
Proof.
  split; [reflexivity |].
  apply (refused_name_costs_nothing service
           {| container_name := "web logs"; max_lines := 500 |} chatty_world).
  reflexivity.
Defined.

(** X24.  When the synchronous query fails and the pool hands out a
    client whose query succeeds, [get_container_logs] returns Success with
    the text of the pooled client, whether the caller runs inside an event
    loop or not: inside one the pooled attempt runs in a worker thread,
    outside it runs in the caller's thread. *)
Theorem pooled_client_takes_over (self : ContainerLogService)
  (request : ContainerLogRequest) (w : World) (e : exn) (logs : string) :
  let name := container_name request in
  let n := max_lines request in
  result_of (_validate_container_name name) (start w) = Return true ->
  name <> default_container self ->
  docker_sdk w = true ->
  engine_logs w name n = Raise e ->
  client_pool w = Return true ->
  pool_enter w = Return tt ->
  pool_logs w name n = Return logs ->
  result_of (get_container_logs self request) (start w)
  = Return (Success logs).
Proof.
  intros name n Hv Hname Hsdk He Hpool Henter Hlogs.
  apply String.eqb_neq in Hname.
  assert (result_of (_get_container_logs_service_first name n) (start w)
          = Return (Some logs)) as Hp.
  { unfold _get_container_logs_service_first, _get_docker_client_async,
      _fetch_container_logs_async, try_docker, import_docker,
      result_of, try_, bind, call; simpl.
    rewrite Hpool; simpl. rewrite Henter; simpl.
    rewrite Hsdk; simpl. now rewrite Hlogs. }
  unfold get_container_logs. fold name n.
  denote. rewrite Hv. cbn beta iota. cbn [negb]. cbn iota.
  denote. rewrite Hname. denote. cbn beta iota.
  denote. rewrite _get_container_logs_sync_result, Hsdk, He. cbn beta iota.
  denote. rewrite asyncio_get_running_loop_result.
  unfold run_in_worker_thread.
  destruct (running_loop w) eqn:Hloop; cbn beta iota.
  - rewrite Hp. cbn beta iota. denote. reflexivity.
  - cbn [dispatch catches existsb subclass orb]. cbn beta iota.
    denote. rewrite Hloop, Hp. cbn beta iota. denote. reflexivity.
Qed.

Lemma pooled_client_takes_over_witness :
  let pooled := fun (_ : string) (_ : Z) => Return ("from the pool" ++ nl) in
  let w := inside_loop pooled quiet_world in
  result_of (_validate_container_name "web") (start w) = Return true
  /\ "web" <> default_container service
  /\ docker_sdk w = true
  /\ engine_logs w "web" 500 = Raise NotFound
  /\ client_pool w = Return true
  /\ pool_enter w = Return tt
  /\ pool_logs w "web" 500 = Return ("from the pool" ++ nl)
  /\ result_of (get_container_logs service
                  {| container_name := "web"; max_lines := 500 |}) (start w)
     = Return (Success ("from the pool" ++ nl)).
Proof.
  split; [reflexivity |]. split; [discriminate |]. split; [reflexivity |].
  split; [reflexivity |]. split; [reflexivity |]. split; [reflexivity |].
  split; [reflexivity |].
  apply (pooled_client_takes_over service
           {| container_name := "web"; max_lines := 500 |}
           (inside_loop (fun _ _ => Return ("from the pool" ++ nl))
                        quiet_world)
           NotFound ("from the pool" ++ nl)).
  - reflexivity.
  - discriminate.
  - reflexivity.
  - reflexivity.
  - reflexivity.
  - reflexivity.
  - reflexivity.
Defined.

(** X25.  With the Docker SDK at hand, the filtered fallback answers a
    failed engine step with the placeholder: when the synchronous query
    raises, whatever the class of the exception, and the caller runs
    inside an event loop or the pooled attempt gives no logs, the result
    is Success with the placeholder of the log type. *)
Theorem filtered_fallback_placeholder_on_failure (self : ContainerLogService)
  (w : World) (n : Z) (patterns : list string) (msg : string) (e : exn) :
  docker_sdk w = true ->
  engine_logs w (default_container self) (n * 2) = Raise e ->
  running_loop w = true
  \/ (forall logs,
         result_of (_get_container_logs_service_first
                      (default_container self) (n * 2)) (start w)
         <> Return (Some logs)) ->
  result_of (_get_filtered_container_logs self n patterns msg) (start w)
  = Return (Success msg).
Proof.
  intros Hsdk He Hstep. unfold _get_filtered_container_logs. denote.
  rewrite _get_container_logs_sync_result, Hsdk, He. cbn beta iota.
  denote. rewrite asyncio_get_running_loop_result.
  destruct (running_loop w) eqn:Hloop; cbn beta iota.
  - reflexivity.
  - destruct Hstep as [Hl | Hnone]; [discriminate Hl |].
    cbn [dispatch catches existsb subclass orb]. cbn beta iota. denote.
    rewrite Hloop.
    destruct (result_of (_get_container_logs_service_first
                           (default_container self) (n * 2)) (start w))
      as [[logs |] | e'].
    + now destruct (Hnone logs).
    + reflexivity.
    + reflexivity.
Qed.

Lemma filtered_fallback_placeholder_on_failure_witness :
  docker_sdk api_error_world = true
  /\ engine_logs api_error_world (default_container service) (500 * 2)
     = Raise APIError
  /\ (running_loop api_error_world = true
      \/ (forall logs,
             result_of (_get_container_logs_service_first
                          (default_container service) (500 * 2))
                       (start api_error_world)
             <> Return (Some logs)))
  /\ result_of (_get_filtered_container_logs service 500 discord_patterns
                                             "No Discord logs found")
               (start api_error_world)
     = Return (Success "No Discord logs found").
Proof.
  split; [reflexivity |]. split; [reflexivity |].
  split; [right; intros logs H; vm_compute in H; discriminate H |].
  apply (filtered_fallback_placeholder_on_failure service api_error_world 500
           discord_patterns "No Discord logs found" APIError).
  - reflexivity.
  - reflexivity.
  - right; intros logs H; vm_compute in H; discriminate H.
Defined.

(** X26.  With the Docker SDK at hand, when the engine answers the query
    of the filtered fallback with a text none of whose lines matches - the
    empty text for one - the result is Success with the placeholder, never
    an empty content. *)
Theorem filtered_fallback_placeholder_on_no_match (self : ContainerLogService)
  (w : World) (n : Z) (patterns : list string) (msg logs : string) :
  docker_sdk w = true ->
  engine_logs w (default_container self) (n * 2) = Return logs ->
  filter (line_matches patterns) (split_nl logs) = [] ->
  result_of (_get_filtered_container_logs self n patterns msg) (start w)
  = Return (Success msg).
Proof.
  intros Hsdk Hlogs Hnone.
  rewrite (_get_filtered_container_logs_of_text self w n patterns msg logs
             Hsdk Hlogs).
  unfold filtered_text. now rewrite Hnone.
Qed.

Lemma filtered_fallback_placeholder_on_no_match_witness :
  docker_sdk early_match_world = true
  /\ engine_logs early_match_world (default_container service) (1 * 2)
     = Return ("idle" ++ nl ++ "still idle" ++ nl)
  /\ filter (line_matches bot_patterns)
            (split_nl ("idle" ++ nl ++ "still idle" ++ nl)) = []
  /\ result_of (_get_filtered_container_logs service 1 bot_patterns
                                             "No bot logs found")
               (start early_match_world)
     = Return (Success "No bot logs found").
Proof.
  split; [reflexivity |]. split; [reflexivity |]. split; [reflexivity |].
  apply (filtered_fallback_placeholder_on_no_match service early_match_world
           1 bot_patterns "No bot logs found"
           ("idle" ++ nl ++ "still idle" ++ nl));
    reflexivity.
Defined.
